(** * doctime-bot: the session store, the callback-hash index and the
    conversation controller of [src/index.ts], embedded in Rocq.

    Strings are sequences of bytes: a JavaScript string is represented by its
    UTF-8 encoding, which is what [createHash(..).update(text)] digests and
    what the session file stores.  Two well-formed JavaScript strings are
    [===] exactly when their encodings are equal. *)

From Stdlib Require Import ZArith List Ascii String Bool Lia.
From stdpp Require Import gmap strings list fin_maps.
Import ListNotations.

Local Open Scope string_scope.
Local Open Scope list_scope.
Local Open Scope Z_scope.

(** ** The JavaScript primitives the source relies on *)

Module JS.

(** Truthiness of a string: only the empty string is falsy. *)
Definition truthy_string (s : string) : bool :=
  match s with EmptyString => false | String _ _ => true end.

(** Truthiness of a number that holds an integer: only [0] is falsy. *)
Definition truthy_number (n : Z) : bool := negb (n =? 0).

(** [a || b] where [a] is an optional string. *)
Definition or_string (a : option string) (b : string) : string :=
  match a with
  | Some s => if truthy_string s then s else b
  | None => b
  end.

(** [s.startsWith(t)] at position [0]. *)
Fixpoint startsWith (t s : string) : bool :=
  match t, s with
  | EmptyString, _ => true
  | String a t', String b s' => if Ascii.eqb a b then startsWith t' s' else false
  | String _ _, EmptyString => false
  end.

(** Scan for [String.prototype.lastIndexOf]: the greatest position at which
    [t] occurs in [s], counted from [i], or [-1].  Positions count bytes where
    JavaScript counts UTF-16 code units; the two agree on the positions [0] and
    [-1], the only ones the source tells apart. *)
Fixpoint lastIndexOf_from (t s : string) (i : Z) : Z :=
  match s with
  | EmptyString => if startsWith t EmptyString then i else -1
  | String _ s' =>
      let later := lastIndexOf_from t s' (i + 1) in
      if 0 <=? later then later
      else if startsWith t s then i else -1
  end.

(** [s.lastIndexOf(t)] *)
Definition String_lastIndexOf (s t : string) : Z := lastIndexOf_from t s 0.

(** Scan for [Array.prototype.indexOf] with strict equality. *)
Fixpoint indexOf_from (x : string) (l : list string) (i : Z) : Z :=
  match l with
  | [] => -1
  | y :: l' => if String.eqb y x then i else indexOf_from x l' (i + 1)
  end.

(** [l.indexOf(x)] *)
Definition Array_indexOf (l : list string) (x : string) : Z := indexOf_from x l 0.

(** [l.slice(i, j)] for [0 <= i <= j]. *)
Definition Array_slice {A} (l : list A) (i j : nat) : list A :=
  firstn (j - i) (skipn i l).

(** Insertion into a sorted suffix that keeps [x] in front of every element
    it does not compare greater than. *)
Fixpoint sort_insert {A} (cmp : A -> A -> Z) (x : A) (l : list A) : list A :=
  match l with
  | [] => [x]
  | y :: l' => if cmp x y <=? 0 then x :: l else y :: sort_insert cmp x l'
  end.

(** [l.sort(cmp)]: the sort of ECMAScript 2019 is stable; for a consistent
    comparator its result is that of a stable insertion sort. *)
Fixpoint Array_sort {A} (cmp : A -> A -> Z) (l : list A) : list A :=
  match l with
  | [] => []
  | x :: l' => sort_insert cmp x (Array_sort cmp l')
  end.

End JS.

(** ** SHA-256 (FIPS 180-4), the digest behind [createHash("sha256")] *)

Module SHA256.

Definition wordmod : Z := 2 ^ 32.

Definition add32 (a b : Z) : Z := (a + b) mod wordmod.

Definition rotr (n x : Z) : Z :=
  Z.lor (Z.shiftr x n) ((Z.shiftl x (32 - n)) mod wordmod).

Definition Ch (x y z : Z) : Z := Z.lxor (Z.land x y) (Z.land (Z.lnot x) z).
Definition Maj (x y z : Z) : Z :=
  Z.lxor (Z.lxor (Z.land x y) (Z.land x z)) (Z.land y z).
Definition bsig0 (x : Z) : Z := Z.lxor (Z.lxor (rotr 2 x) (rotr 13 x)) (rotr 22 x).
Definition bsig1 (x : Z) : Z := Z.lxor (Z.lxor (rotr 6 x) (rotr 11 x)) (rotr 25 x).
Definition ssig0 (x : Z) : Z := Z.lxor (Z.lxor (rotr 7 x) (rotr 18 x)) (Z.shiftr x 3).
Definition ssig1 (x : Z) : Z := Z.lxor (Z.lxor (rotr 17 x) (rotr 19 x)) (Z.shiftr x 10).

(* The sixty-four round constants, in decimal. *)
Definition K : list Z :=
  [ 1116352408; 1899447441; 3049323471; 3921009573;
    961987163; 1508970993; 2453635748; 2870763221;
    3624381080; 310598401; 607225278; 1426881987;
    1925078388; 2162078206; 2614888103; 3248222580;
    3835390401; 4022224774; 264347078; 604807628;
    770255983; 1249150122; 1555081692; 1996064986;
    2554220882; 2821834349; 2952996808; 3210313671;
    3336571891; 3584528711; 113926993; 338241895;
    666307205; 773529912; 1294757372; 1396182291;
    1695183700; 1986661051; 2177026350; 2456956037;
    2730485921; 2820302411; 3259730800; 3345764771;
    3516065817; 3600352804; 4094571909; 275423344;
    430227734; 506948616; 659060556; 883997877;
    958139571; 1322822218; 1537002063; 1747873779;
    1955562222; 2024104815; 2227730452; 2361852424;
    2428436474; 2756734187; 3204031479; 3329325298 ].

(** The eight working words. *)
Record state := mkState
  { sa : Z; sb : Z; sc : Z; sd : Z; se : Z; sf : Z; sg : Z; sh : Z }.

Definition H0 : state :=
  mkState 0x6a09e667 0xbb67ae85 0x3c6ef372 0xa54ff53a
          0x510e527f 0x9b05688c 0x1f83d9ab 0x5be0cd19.

(** Padding: the byte [0x80], zero bytes up to 56 modulo 64, and the bit
    length on eight bytes, most significant first. *)
Definition be_bytes (n : nat) (x : Z) : list Z :=
  List.map (fun i => (Z.shiftr x (8 * Z.of_nat i)) mod 256) (rev (seq 0 n)).

Definition pad (msg : list Z) : list Z :=
  let len := Z.of_nat (length msg) in
  let zeros := Z.to_nat ((55 - len) mod 64) in
  msg ++ [0x80] ++ repeat 0 zeros ++ be_bytes 8 (8 * len).

(** Big-endian words of a run of bytes, four bytes a word. *)
Fixpoint words (fuel : nat) (bs : list Z) : list Z :=
  match fuel, bs with
  | S fuel', b0 :: b1 :: b2 :: b3 :: bs' =>
      (((b0 * 256 + b1) * 256 + b2) * 256 + b3) :: words fuel' bs'
  | _, _ => []
  end.

(** The message schedule: [n] more words after the ones in [w], which is
    kept most recent first. *)
Fixpoint schedule (n : nat) (w : list Z) : list Z :=
  match n with
  | O => w
  | S n' =>
      let wt := add32 (add32 (ssig1 (nth 1 w 0)) (nth 6 w 0))
                      (add32 (ssig0 (nth 14 w 0)) (nth 15 w 0)) in
      schedule n' (wt :: w)
  end.

Definition round (s : state) (kw : Z * Z) : state :=
  let t1 := add32 (add32 (add32 (sh s) (bsig1 (se s)))
                         (add32 (Ch (se s) (sf s) (sg s)) (fst kw))) (snd kw) in
  let t2 := add32 (bsig0 (sa s)) (Maj (sa s) (sb s) (sc s)) in
  mkState (add32 t1 t2) (sa s) (sb s) (sc s) (add32 (sd s) t1) (se s) (sf s) (sg s).

Definition compress (h : state) (block : list Z) : state :=
  let w := rev (schedule 48 (rev (words 16 block))) in
  let s := fold_left round (combine K w) h in
  mkState (add32 (sa h) (sa s)) (add32 (sb h) (sb s))
          (add32 (sc h) (sc s)) (add32 (sd h) (sd s))
          (add32 (se h) (se s)) (add32 (sf h) (sf s))
          (add32 (sg h) (sg s)) (add32 (sh h) (sh s)).

(** One compression per 64-byte block; [fuel] bounds the number of blocks. *)
Fixpoint blocks (fuel : nat) (h : state) (bs : list Z) : state :=
  match fuel, bs with
  | S fuel', _ :: _ => blocks fuel' (compress h (firstn 64 bs)) (skipn 64 bs)
  | _, _ => h
  end.

Definition digest (msg : list Z) : state :=
  let p := pad msg in blocks (length p) H0 p.

(** [digest("hex")] *)
Definition hexdigit (n : Z) : ascii :=
  match n with
  | 0 => "0" | 1 => "1" | 2 => "2" | 3 => "3" | 4 => "4" | 5 => "5"
  | 6 => "6" | 7 => "7" | 8 => "8" | 9 => "9" | 10 => "a" | 11 => "b"
  | 12 => "c" | 13 => "d" | 14 => "e" | _ => "f"
  end%char.

Definition hex32 (x : Z) : string :=
  string_of_list_ascii
    (List.map (fun i => hexdigit ((Z.shiftr x (4 * Z.of_nat i)) mod 16))
              (rev (seq 0 8))).

Definition hex (s : state) : string :=
  hex32 (sa s) +:+ hex32 (sb s) +:+ hex32 (sc s) +:+ hex32 (sd s) +:+
  hex32 (se s) +:+ hex32 (sf s) +:+ hex32 (sg s) +:+ hex32 (sh s).

Definition bytes_of_string (s : string) : list Z :=
  List.map (fun c => Z.of_N (N_of_ascii c)) (list_ascii_of_string s).

Definition sha256_hex (text : string) : string :=
  hex (digest (bytes_of_string text)).

End SHA256.


(** ** The data model of [src/index.ts] *)

(** [UserState.callbackMap].  The controller creates it as a plain object.
    [loadSessions] turns a callback map found as an array of pairs into a
    [Map]; on a [Map] the controller's [callbackMap[key]] reads and writes own
    properties of the object, not entries of the map. *)
Inductive CallbackMap : Type :=
| CbObject (props : gmap string string)
| CbMap (entries : gmap string string) (props : gmap string string).

(** [interface UserState]: every field is optional; [None] is a field that is
    absent or holds [undefined]. *)
Record UserState : Type := mkUserState
  { diagnosis : option string;
    sections : option (list string);
    messageIds : option (list Z);
    callbackMap : option CallbackMap;
    currentSection : option string }.

(** [{}] *)
Definition emptyState : UserState := mkUserState None None None None None.

(** [Partial<UserState>] as an object literal: a field is either not named
    ([None]) or named with a value, which may be [undefined] ([Some None]). *)
Record PartialState : Type := mkPartial
  { p_diagnosis : option (option string);
    p_sections : option (option (list string));
    p_messageIds : option (option (list Z));
    p_callbackMap : option (option CallbackMap);
    p_currentSection : option (option string) }.

(** One property of [{ ...state, ...update }]. *)
Definition spread_field {A} (old : option A) (new : option (option A)) : option A :=
  match new with
  | Some v => v
  | None => old
  end.

(** [{ ...state, ...update }] *)
Definition spread (state : UserState) (update : PartialState) : UserState :=
  {| diagnosis := spread_field (diagnosis state) (p_diagnosis update);
     sections := spread_field (sections state) (p_sections update);
     messageIds := spread_field (messageIds state) (p_messageIds update);
     callbackMap := spread_field (callbackMap state) (p_callbackMap update);
     currentSection := spread_field (currentSection state) (p_currentSection update) |}.

(** [callbackMap[key]] for a key of the shape ["<kind>:<hash>"], which names no
    inherited property. *)
Definition cb_get (cb : CallbackMap) (key : string) : option string :=
  match cb with
  | CbObject props => props !! key
  | CbMap _ props => props !! key
  end.

(** [callbackMap[key] = value] *)
Definition cb_set (cb : CallbackMap) (key value : string) : CallbackMap :=
  match cb with
  | CbObject props => CbObject (<[key := value]> props)
  | CbMap entries props => CbMap entries (<[key := value]> props)
  end.

(** ** The session file *)

(** The file is modelled by the JSON document it holds, as [JSON.stringify]
    receives it and [JSON.parse] returns it: a callback map is written as an
    object or as an array of pairs. *)
Inductive FileCallbackMap : Type :=
| FObject (props : gmap string string)
| FArray (pairs : list (string * string)).

Record FileUserState : Type := mkFileUserState
  { f_diagnosis : option string;
    f_sections : option (list string);
    f_messageIds : option (list Z);
    f_callbackMap : option FileCallbackMap;
    f_currentSection : option string }.

(** What [readFileSync] and [JSON.parse] make of the file: a session document,
    or an exception. *)
Inductive FileContent : Type :=
| Document (doc : gmap Z FileUserState)
| Unreadable.

(** The file system as the store sees it: the file, when it exists, and the
    outcomes of the coming [writeFileSync] calls ([true]: the write succeeds),
    in order; writes past the end of the list succeed. *)
Record Disk : Type := mkDisk
  { file : option FileContent;
    writes : list bool }.

(** ** [class SessionManager] *)

Module SessionManager.

Record t : Type := mk
  { sessionData : gmap Z UserState;
    disk : Disk;
    console : list string }.

Definition log (line : string) (m : t) : t :=
  mk (sessionData m) (disk m) (console m ++ [line]).

(** [new Map(pairs)]: a later pair replaces an earlier one with its key. *)
Definition Map_of_pairs (pairs : list (string * string)) : gmap string string :=
  fold_left (fun acc kv => <[fst kv := snd kv]> acc) pairs ∅.

(** The state [loadSessions] builds from a parsed state. *)
Definition revive (st : FileUserState) : UserState :=
  {| diagnosis := f_diagnosis st;
     sections := f_sections st;
     messageIds := f_messageIds st;
     callbackMap :=
       match f_callbackMap st with
       | Some (FArray pairs) => Some (CbMap (Map_of_pairs pairs) ∅)
       | Some (FObject props) => Some (CbObject props)
       | None => None
       end;
     currentSection := f_currentSection st |}.

(** [loadSessions()] *)
Definition loadSessions (m : t) : t :=
  match file (disk m) with
  | None => m
  | Some (Document doc) =>
      log "Сессии загружены" (mk (revive <$> doc) (disk m) (console m))
  | Some Unreadable =>
      mk ∅ (disk m) (console m ++ ["Ошибка при загрузке сессий:"])
  end.

(** [serializableState] of [saveSessions].  The pairs of a [Map] are listed
    in some order; [Map_of_pairs] rebuilds the same map from any of them. *)
Definition serializable (st : UserState) : FileUserState :=
  {| f_diagnosis := diagnosis st;
     f_sections := sections st;
     f_messageIds := messageIds st;
     f_callbackMap :=
       match callbackMap st with
       | Some (CbMap entries _) => Some (FArray (map_to_list entries))
       | Some (CbObject props) => Some (FObject props)
       | None => None
       end;
     f_currentSection := currentSection st |}.

(** [saveSessions()]: the whole store is written; a failed write is logged
    and swallowed. *)
Definition saveSessions (m : t) : t :=
  let ok := match writes (disk m) with [] => true | b :: _ => b end in
  let rest := tail (writes (disk m)) in
  if ok
  then mk (sessionData m)
          (mkDisk (Some (Document (serializable <$> sessionData m))) rest)
          (console m)
  else mk (sessionData m) (mkDisk (file (disk m)) rest)
          (console m ++ ["Ошибка при сохранении сессий:"]).

(** [new SessionManager()] over a file system. *)
Definition create (d : Disk) : t := loadSessions (mk ∅ d []).

(** [getUserState(userId)] *)
Definition getUserState (userId : Z) (m : t) : option UserState :=
  sessionData m !! userId.

(** [setUserState(userId, state)] *)
Definition setUserState (userId : Z) (state : UserState) (m : t) : t :=
  saveSessions (mk (<[userId := state]> (sessionData m)) (disk m) (console m)).

(** [updateUserState(userId, update)] *)
Definition updateUserState (userId : Z) (update : PartialState) (m : t) : t :=
  let data :=
    match sessionData m !! userId with
    | Some _ => sessionData m
    | None => <[userId := emptyState]> (sessionData m)
    end in
  let current := default emptyState (data !! userId) in
  saveSessions (mk (<[userId := spread current update]> data) (disk m) (console m)).

(** [deleteUserState(userId)] *)
Definition deleteUserState (userId : Z) (m : t) : t :=
  match sessionData m !! userId with
  | Some _ => saveSessions (mk (delete userId (sessionData m)) (disk m) (console m))
  | None => m
  end.

(** [clearAllSessions()] *)
Definition clearAllSessions (m : t) : t :=
  saveSessions (mk ∅ (disk m) (console m)).

(** The mutating operations of the class, as data. *)
Inductive mutation : Type :=
| SetUserState (userId : Z) (state : UserState)
| UpdateUserState (userId : Z) (update : PartialState)
| DeleteUserState (userId : Z)
| ClearAllSessions.

Definition apply (op : mutation) (m : t) : t :=
  match op with
  | SetUserState userId state => setUserState userId state m
  | UpdateUserState userId update => updateUserState userId update m
  | DeleteUserState userId => deleteUserState userId m
  | ClearAllSessions => clearAllSessions m
  end.

Definition run (ops : list mutation) (m : t) : t :=
  fold_left (fun acc op => apply op acc) ops m.

End SessionManager.

(** ** The transport, the content API and the handler monad *)

(** [Markup.button.callback(text, data)] *)
Record Button : Type := mkButton { label : string; data : string }.

(** A message sent with [ctx.replyWithMarkdown(text, Markup.inlineKeyboard(rows))]. *)
Record Message : Type := mkMessage { text : string; keyboard : list (list Button) }.

Inductive ApiCall : Type :=
| GetSimilarDiagnoses (query : string)
| GetSections (diagnosis : string)
| GetSection (diagnosis section : string).

(** The collaborators outside the process: what the content API answers
    ([None]: the call throws) and which [deleteMessage] calls throw. *)
Record Remote : Type := mkRemote
  { similarDiagnoses : string -> option (list string);
    sectionsOf : string -> option (list string);
    sectionContent : string -> string -> option string;
    deleteFails : Z -> bool }.

(** The state a handler runs in: the session manager, the context of the
    inbound event ([ctx.from?.id] and the mutable [ctx.userState]), and the
    record of what was sent, deleted and asked of the API.  The transport is
    taken to accept every message and to number it with [nextMessageId].

    The attached state and the stored state are two values.  The source
    replaces the stored object at every [updateUserState]; whenever it changes
    an object the two share (the array of message identifiers, the callback
    map) it hands that object to [updateUserState] before the store is read
    again, so the store never shows a change the model misses. *)
Record World : Type := mkWorld
  { manager : SessionManager.t;
    from_id : option Z;
    userState : option UserState;
    outbox : list Message;
    deleted : list Z;
    apiCalls : list ApiCall;
    nextMessageId : Z }.

Inductive Result (A : Type) : Type :=
| Returned (a : A)
| Thrown (error : string).
Arguments Returned {A} a.
Arguments Thrown {A} error.

(** A handler step: it returns or throws, and leaves a world behind. *)
Definition M (A : Type) : Type := World -> Result A * World.

Definition ret {A} (a : A) : M A := fun w => (Returned a, w).

Definition bind {A B} (c : M A) (k : A -> M B) : M B :=
  fun w =>
    match c w with
    | (Returned a, w') => k a w'
    | (Thrown e, w') => (Thrown e, w')
    end.

Definition throw {A} (e : string) : M A := fun w => (Thrown e, w).

(** [try { body } catch (error) { handler }] *)
Definition try_catch {A} (body : M A) (handler : string -> M A) : M A :=
  fun w =>
    match body w with
    | (Returned a, w') => (Returned a, w')
    | (Thrown e, w') => handler e w'
    end.

Declare Scope handler_scope.
Delimit Scope handler_scope with handler.
Notation "x <- c1 ;; c2" := (bind c1 (fun x => c2))
  (at level 100, c1 at next level, right associativity) : handler_scope.
Notation "c1 ;; c2" := (bind c1 (fun _ => c2))
  (at level 100, right associativity) : handler_scope.
Local Open Scope handler_scope.

(** [for (const x of l) { body }] *)
Fixpoint forOf {A} (l : list A) (body : A -> M unit) : M unit :=
  match l with
  | [] => ret tt
  | x :: l' => body x ;; forOf l' body
  end.

(** [await Promise.all(l.map(async (x) => f x))] for an [f] that never
    suspends before its effects: the calls run in order. *)
Fixpoint mapAll {A B} (f : A -> M B) (l : list A) : M (list B) :=
  match l with
  | [] => ret []
  | x :: l' => y <- f x ;; ys <- mapAll f l' ;; ret (y :: ys)
  end.

Definition get : M World := fun w => (Returned w, w).

(** [console.log(line, ...)] and [console.error(line, ...)]: the fixed part of
    the line is recorded. *)
Definition consoleLog (line : string) : M unit :=
  fun w => (Returned tt,
            mkWorld (SessionManager.log line (manager w)) (from_id w) (userState w)
                    (outbox w) (deleted w) (apiCalls w) (nextMessageId w)).

(** A call of a [SessionManager] method that returns nothing. *)
Definition onManager (f : SessionManager.t -> SessionManager.t) : M unit :=
  fun w => (Returned tt,
            mkWorld (f (manager w)) (from_id w) (userState w)
                    (outbox w) (deleted w) (apiCalls w) (nextMessageId w)).

(** An assignment to a field of [ctx.userState], which exists. *)
Definition onUserState (f : UserState -> UserState) : M unit :=
  fun w => (Returned tt,
            mkWorld (manager w) (from_id w) (f <$> userState w)
                    (outbox w) (deleted w) (apiCalls w) (nextMessageId w)).

(** [(await ctx.replyWithMarkdown(text, Markup.inlineKeyboard(rows))).message_id] *)
Definition replyWithMarkdown (text : string) (rows : list (list Button)) : M Z :=
  fun w => (Returned (nextMessageId w),
            mkWorld (manager w) (from_id w) (userState w)
                    (outbox w ++ [mkMessage text rows]) (deleted w) (apiCalls w)
                    (nextMessageId w + 1)).

Definition recordCall (c : ApiCall) : M unit :=
  fun w => (Returned tt,
            mkWorld (manager w) (from_id w) (userState w)
                    (outbox w) (deleted w) (apiCalls w ++ [c]) (nextMessageId w)).

Definition fromOption {A} (e : string) (o : option A) : M A :=
  match o with
  | Some a => ret a
  | None => throw e
  end.

(** The user id of the event when it is truthy: [ctx.from?.id] passing [!userId]. *)
Definition userIdOf (w : World) : option Z :=
  match from_id w with
  | Some id => if JS.truthy_number id then Some id else None
  | None => None
  end.

Definition newDiagnosisButton (caption : string) : Button :=
  mkButton caption "new_diagnosis".

Definition nl : string := String (ascii_of_nat 10) "".

(** [content.replace(re, "")] for a global [re] given by the length of its
    match at the head of a string: matches are removed left to right. *)
Fixpoint removeAll (matchLen : string -> option nat) (skip : nat) (s : string) : string :=
  match s with
  | EmptyString => EmptyString
  | String c s' =>
      match skip with
      | S k => removeAll matchLen k s'
      | O =>
          match matchLen s with
          | Some (S k) => removeAll matchLen k s'
          | _ => String c (removeAll matchLen O s')
          end
      end
  end.

Definition utf8 (bytes : list nat) : string :=
  string_of_list_ascii (List.map ascii_of_nat bytes).

(** The encodings of the characters [\s] matches. *)
Definition whitespace : list string :=
  List.map utf8
    (List.app
       [ [9]; [10]; [11]; [12]; [13]; [32]; [194; 160]; [225; 154; 128] ]
       (List.app
          (List.map (fun b => [226; 128; b]) (seq 128 11))
          [ [226; 128; 168]; [226; 128; 169]; [226; 128; 175]; [226; 129; 159];
            [227; 128; 128]; [239; 187; 191] ]))%nat.

(** [/###\s/] *)
Definition headingMarkerSpace (s : string) : option nat :=
  if JS.startsWith "###" s
  then match List.find (fun ws => JS.startsWith ws (String.substring 3 (String.length s) s))
                       whitespace with
       | Some ws => Some (3 + String.length ws)%nat
       | None => None
       end
  else None.

(** Whether [s], after its first [skip] bytes, is made of characters [\s]
    matches only. *)
Fixpoint isBlank (skip : nat) (s : string) : bool :=
  match s with
  | EmptyString => true
  | String _ s' =>
      match skip with
      | S k => isBlank k s'
      | O =>
          match List.find (fun ws => JS.startsWith ws s) whitespace with
          | Some ws => isBlank (String.length ws - 1) s'
          | None => false
          end
      end
  end.

Fixpoint trimEnd (s : string) : string :=
  match s with
  | EmptyString => EmptyString
  | String c s' => if isBlank O s then EmptyString else String c (trimEnd s')
  end.

Fixpoint trimStart (skip : nat) (s : string) : string :=
  match s with
  | EmptyString => EmptyString
  | String _ s' =>
      match skip with
      | S k => trimStart k s'
      | O =>
          match List.find (fun ws => JS.startsWith ws s) whitespace with
          | Some ws => trimStart (String.length ws - 1) s'
          | None => s
          end
      end
  end.

(** [s.trim()] *)
Definition trim (s : string) : string := trimEnd (trimStart O s).

(** [/###/] *)
Definition headingMarker (s : string) : option nat :=
  if JS.startsWith "###" s then Some 3%nat else None.

(** ** [class MedicalBot] *)

Inductive kind : Type := KDiagnosis | KSection.

Definition kindName (k : kind) : string :=
  match k with
  | KDiagnosis => "diagnosis"
  | KSection => "section"
  end.

(** [generateHash(text)]:
    [createHash("sha256").update(text).digest("hex").substring(0, 32)] *)
Definition generateHash (text : string) : string :=
  String.substring 0 32 (SHA256.sha256_hex text).

Definition set_messageIds (v : option (list Z)) (st : UserState) : UserState :=
  mkUserState (diagnosis st) (sections st) v (callbackMap st) (currentSection st).

Definition set_callbackMap (v : option CallbackMap) (st : UserState) : UserState :=
  mkUserState (diagnosis st) (sections st) (messageIds st) v (currentSection st).

Definition set_diagnosis (v : option string) (st : UserState) : UserState :=
  mkUserState v (sections st) (messageIds st) (callbackMap st) (currentSection st).

Definition set_sections (v : option (list string)) (st : UserState) : UserState :=
  mkUserState (diagnosis st) v (messageIds st) (callbackMap st) (currentSection st).

(** The state the middleware attaches for a user without a stored one. *)
Definition freshState : UserState :=
  mkUserState None None (Some []) (Some (CbObject ∅)) None.

(** The middleware of [setupMiddlewares].  [syncUserData] only talks to the
    relational store and swallows its failures; it leaves the world as is. *)
Definition middleware : M unit :=
  fun w =>
    match from_id w with
    | None => (Returned tt, w)
    | Some id =>
        let st := default freshState (SessionManager.getUserState id (manager w)) in
        (Returned tt,
         mkWorld (manager w) (from_id w) (Some st)
                 (outbox w) (deleted w) (apiCalls w) (nextMessageId w))
    end.

(** [ctx.userState?.callbackMap] *)
Definition ctxCallbackMap (w : World) : option CallbackMap :=
  match userState w with
  | Some st => callbackMap st
  | None => None
  end.

(** [ctx.userState?.messageIds] *)
Definition ctxMessageIds (w : World) : option (list Z) :=
  match userState w with
  | Some st => messageIds st
  | None => None
  end.

Section MedicalBot.

Variable remote : Remote.

(** [await ctx.deleteMessage(messageId)] *)
Definition deleteMessage (messageId : Z) : M unit :=
  fun w =>
    let w' := mkWorld (manager w) (from_id w) (userState w)
                      (outbox w) (deleted w ++ [messageId]) (apiCalls w)
                      (nextMessageId w) in
    if deleteFails remote messageId
    then (Thrown "deleteMessage", w')
    else (Returned tt, w').

Definition getSimilarDiagnoses (query : string) : M (list string) :=
  recordCall (GetSimilarDiagnoses query) ;;
  fromOption "Failed to get similar diagnoses" (similarDiagnoses remote query).

Definition getSections (diagnosis : string) : M (list string) :=
  recordCall (GetSections diagnosis) ;;
  fromOption "Failed to get diagnosis sections" (sectionsOf remote diagnosis).

Definition getSection (diagnosis section : string) : M string :=
  recordCall (GetSection diagnosis section) ;;
  fromOption "Failed to get section content" (sectionContent remote diagnosis section).

(** [storeCallbackMapping(ctx, originalValue, type)] *)
Definition storeCallbackMapping (originalValue : string) (type : kind) : M string :=
  w <- get ;;
  match userIdOf w, userState w with
  | Some userId, Some st =>
      let hash := generateHash originalValue in
      let key := kindName type +:+ ":" +:+ hash in
      let cb := cb_set (default (CbObject ∅) (callbackMap st)) key originalValue in
      onUserState (set_callbackMap (Some cb)) ;;
      onManager (SessionManager.updateUserState userId
                   (mkPartial None None None (Some (Some cb)) None)) ;;
      ret hash
  | _, _ => ret ""
  end.

(** [resolveCallbackMapping(ctx, callbackData)]: [None] is [null]. *)
Definition resolveCallbackMapping (callbackData : string) : M (option string) :=
  w <- get ;;
  ret match userIdOf w with
      | Some _ =>
          match ctxCallbackMap w with
          | Some cb =>
              match cb_get cb callbackData with
              | Some v => if JS.truthy_string v then Some v else None
              | None => None
              end
          | None => None
          end
      | None => None
      end.

(** [clearPreviousMessages(ctx)] *)
Definition clearPreviousMessages : M unit :=
  w <- get ;;
  match userIdOf w, ctxMessageIds w with
  | Some userId, Some (first :: others) =>
      try_catch
        (forOf (first :: others) (fun messageId =>
           try_catch (deleteMessage messageId)
                     (fun _ => consoleLog "Не удалось удалить сообщение")) ;;
         w' <- get ;;
         onManager (SessionManager.updateUserState userId
                      (mkPartial None None (Some (Some []))
                                 (Some (ctxCallbackMap w')) None)) ;;
         onUserState (set_messageIds (Some [])))
        (fun _ => consoleLog "Ошибка при удалении сообщений:")
  | _, _ => ret tt
  end.

(** [saveMessageId(ctx, messageId)] *)
Definition saveMessageId (messageId : Z) : M unit :=
  w <- get ;;
  match userIdOf w, userState w with
  | Some userId, Some st =>
      let ids := default [] (messageIds st) ++ [messageId] in
      onManager (SessionManager.updateUserState userId
                   (mkPartial None None (Some (Some ids)) None None)) ;;
      onUserState (set_messageIds (Some ids))
  | _, _ => ret tt
  end.

(** A reply whose identifier is recorded. *)
Definition replyAndSave (text : string) (rows : list (list Button)) : M unit :=
  messageId <- replyWithMarkdown text rows ;;
  saveMessageId messageId.

(** [sendErrorMessage(ctx, message)] *)
Definition sendErrorMessage (message : string) : M unit :=
  replyAndSave (message +:+ ". Пожалуйста, попробуйте снова.")
               [[newDiagnosisButton "Ввести новый диагноз"]].

(** [sendSearchError(ctx)] *)
Definition sendSearchError : M unit :=
  replyAndSave "Произошла ошибка при поиске диагнозов. Попробуйте позже."
               [[newDiagnosisButton "Ввести новый диагноз"]].

(** [sendLoadError(ctx)] *)
Definition sendLoadError : M unit :=
  replyAndSave "Произошла ошибка при загрузке информации. Попробуйте позже."
               [[newDiagnosisButton "Ввести новый диагноз"]].

(** [showNoResultsFound(ctx)] *)
Definition showNoResultsFound : M unit :=
  replyAndSave
    "По вашему запросу ничего не найдено. Попробуйте ввести другой диагноз или уточнить формулировку."
    [[newDiagnosisButton "Ввести новый диагноз"]].

(** [showNoSectionsAvailable(ctx)] *)
Definition showNoSectionsAvailable : M unit :=
  replyAndSave "Для выбранного диагноза нет доступной информации."
               [[newDiagnosisButton "Ввести новый диагноз"]].

(** [correctDiagnoses] of [showDiagnosisOptions]: the filter compares the
    last index of each name in itself with its first index in the list. *)
Definition correctDiagnoses (diagnoses : list string) : list string :=
  List.filter
    (fun diagnosis =>
       JS.String_lastIndexOf diagnosis diagnosis =? JS.Array_indexOf diagnoses diagnosis)
    diagnoses.

Definition diagnosisButton (diagnosis : string) : M (list Button) :=
  hash <- storeCallbackMapping diagnosis KDiagnosis ;;
  ret [mkButton diagnosis ("select_diagnosis:" +:+ hash)].

(** [showDiagnosisOptions(ctx, diagnoses)] *)
Definition showDiagnosisOptions (diagnoses : list string) : M unit :=
  buttons <- mapAll diagnosisButton (correctDiagnoses diagnoses) ;;
  replyAndSave "Найдены следующие диагнозы. Выберите подходящий:"
               (buttons ++ [[newDiagnosisButton "Ввести новый диагноз"]]).

(** [handleDiagnosisInput(ctx, userInput)] *)
Definition handleDiagnosisInput (userInput : string) : M unit :=
  w <- get ;;
  match userIdOf w with
  | None => ret tt
  | Some _ =>
      try_catch
        (replyAndSave "Ищу похожие диагнозы..." [] ;;
         similar <- getSimilarDiagnoses userInput ;;
         match similar with
         | [] => showNoResultsFound
         | _ :: _ => showDiagnosisOptions similar
         end)
        (fun _ =>
           consoleLog "Error getting similar diagnoses:" ;;
           sendSearchError)
  end.

(** The comparator of [displaySectionsList]. *)
Definition priority (section : string) : Z :=
  if String.eqb section "Лечение" || String.eqb section "Диагностика" then 0 else 1.

Definition bySectionPriority (a b : string) : Z := priority a - priority b.

(** [correctSections] of [displaySectionsList] *)
Definition correctSections (sections : list string) : list string :=
  JS.Array_sort bySectionPriority
    (List.filter (fun section => negb (String.eqb section "МКБ")) sections).

Definition sectionButton (section : string) : M Button :=
  hash <- storeCallbackMapping section KSection ;;
  ret (mkButton section ("select_section:" +:+ hash)).

(** [for (let i = 0; i < sectionButtons.length; i += 2)
       keyboard.push(sectionButtons.slice(i, i + 2))];
    [fuel] bounds the number of rounds. *)
Fixpoint pairRows (fuel i : nat) (sectionButtons : list Button) : list (list Button) :=
  match fuel with
  | O => []
  | S fuel' =>
      if (i <? length sectionButtons)%nat
      then JS.Array_slice sectionButtons i (i + 2) :: pairRows fuel' (i + 2) sectionButtons
      else []
  end.

(** [displaySectionsList(ctx, diagnosis, sections)] *)
Definition displaySectionsList (diagnosis : string) (sections : list string) : M unit :=
  sectionButtons <- mapAll sectionButton (correctSections sections) ;;
  let keyboard := pairRows (length sectionButtons) 0 sectionButtons in
  replyAndSave ("*" +:+ diagnosis +:+ "*" +:+ nl +:+ nl +:+ "Доступные разделы:")
               (keyboard ++ [[newDiagnosisButton "Ввести новый диагноз"]]).

(** [userState?.diagnosis] of the stored state, when truthy. *)
Definition storedDiagnosis (userId : Z) (w : World) : option string :=
  match SessionManager.getUserState userId (manager w) with
  | Some st =>
      match diagnosis st with
      | Some d => if JS.truthy_string d then Some d else None
      | None => None
      end
  | None => None
  end.

(** [showSections(ctx)] *)
Definition showSections : M unit :=
  w <- get ;;
  match userIdOf w with
  | None => ret tt
  | Some userId =>
      try_catch
        (w1 <- get ;;
         match storedDiagnosis userId w1 with
         | None => sendErrorMessage "Информация не найдена"
         | Some diagnosis =>
             sections <- getSections diagnosis ;;
             match sections with
             | [] => showNoSectionsAvailable
             | _ :: _ =>
                 onManager (SessionManager.updateUserState userId
                              (mkPartial None (Some (Some sections)) None None None)) ;;
                 onUserState (set_sections (Some sections)) ;;
                 displaySectionsList diagnosis sections
             end
         end)
        (fun _ =>
           consoleLog "Error getting sections:" ;;
           sendLoadError)
  end.

(** [processDiagnosisSelection(ctx, diagnosis)] *)
Definition processDiagnosisSelection (diagnosis : string) : M unit :=
  w <- get ;;
  match userIdOf w with
  | None => ret tt
  | Some userId =>
      onManager (SessionManager.updateUserState userId
                   (mkPartial (Some (Some diagnosis)) None None None None)) ;;
      onUserState (set_diagnosis (Some diagnosis)) ;;
      replyAndSave ("*" +:+ diagnosis +:+ "*" +:+ nl +:+ nl +:+ "Загружаю информацию...") [] ;;
      showSections
  end.

(** [handleDiagnosisSelection(ctx)], [hash] being the group the action's
    pattern captured. *)
Definition handleDiagnosisSelection (hash : string) : M unit :=
  clearPreviousMessages ;;
  diagnosis <- resolveCallbackMapping ("diagnosis:" +:+ hash) ;;
  match diagnosis with
  | None => sendErrorMessage "Диагноз не найден"
  | Some diagnosis => processDiagnosisSelection diagnosis
  end.

(** [content.replace(/###\s/g, "").replace(/###/g, "")] *)
Definition correctContent (content : string) : string :=
  removeAll headingMarker O (removeAll headingMarkerSpace O content).

(** [processSectionSelection(ctx, sectionTitle)] *)
Definition processSectionSelection (sectionTitle : string) : M unit :=
  w <- get ;;
  match userIdOf w with
  | None => ret tt
  | Some userId =>
      match storedDiagnosis userId w with
      | None => sendErrorMessage "Информация не найдена"
      | Some diagnosis =>
          onManager (SessionManager.updateUserState userId
                       (mkPartial None None None None (Some (Some sectionTitle)))) ;;
          replyAndSave ("*" +:+ sectionTitle +:+ "*" +:+ nl +:+ nl +:+ "Загружаю содержимое...") [] ;;
          try_catch
            (content <- getSection diagnosis sectionTitle ;;
             replyAndSave
               ("*" +:+ sectionTitle +:+ "*" +:+ nl +:+ nl +:+ correctContent content)
               [ [mkButton "Назад к разделам" "back_to_sections"];
                 [newDiagnosisButton "Ввести новый диагноз"] ])
            (fun _ =>
               consoleLog "Error loading section content:" ;;
               sendLoadError)
      end
  end.

(** [handleSectionSelection(ctx)], [hash] being the group the action's
    pattern captured. *)
Definition handleSectionSelection (hash : string) : M unit :=
  clearPreviousMessages ;;
  sectionTitle <- resolveCallbackMapping ("section:" +:+ hash) ;;
  match sectionTitle with
  | None => sendErrorMessage "Раздел не найден"
  | Some sectionTitle => processSectionSelection sectionTitle
  end.

(** [handleTextInput(ctx)], [messageText] being [ctx.message.text]. *)
Definition handleTextInput (messageText : string) : M unit :=
  let userInput := trim messageText in
  w <- get ;;
  match JS.startsWith "/" userInput, userIdOf w with
  | false, Some _ =>
      clearPreviousMessages ;;
      handleDiagnosisInput userInput
  | _, _ => ret tt
  end.

(** [handleBackToSections(ctx)] *)
Definition handleBackToSections : M unit :=
  clearPreviousMessages ;;
  showSections.

End MedicalBot.

(** An inbound event: the transport builds a context that has no user state
    yet, the middleware runs, then the handler registered for the event. *)
Definition dispatch {A} (handler : M A) : M A :=
  fun w =>
    (middleware ;; handler)
      (mkWorld (manager w) (from_id w) None
               (outbox w) (deleted w) (apiCalls w) (nextMessageId w)).

(** ** Process start-up, the last statements of [src/index.ts] *)

Module Startup.

(** The environment variables the module reads. *)
Record Env : Type := mkEnv
  { BOT_TOKEN : option string;
    API_BASE_URL : option string }.

(** How the module body ends: [process.exit(code)], or the bot constructed
    with a token and an API base URL and launched. *)
Inductive Outcome : Type :=
| Exit (code : Z)
| Launched (token apiBaseURL : string).

(** The module body from [const BOT_TOKEN] on: what it prints with
    [console.error] and how it ends. *)
Definition main (env : Env) : list string * Outcome :=
  let token := JS.or_string (BOT_TOKEN env) "" in
  let apiBaseURL := JS.or_string (API_BASE_URL env) "http://localhost" in
  if negb (JS.truthy_string token)
  then (["Please set BOT_TOKEN environment variable"], Exit 1)
  else if negb (JS.truthy_string apiBaseURL)
  then (["Please set API_BASE_URL environment variable"], Exit 1)
  else ([], Launched token apiBaseURL).

End Startup.

(** ** Vocabulary of the statements about the session store *)

Module SessionSpec.
Import SessionManager.

(** The outcome of the next [writeFileSync]. *)
Definition nextWriteOk (d : Disk) : bool :=
  match writes d with
  | [] => true
  | b :: _ => b
  end.

(** The store [updateUserState] leaves in memory. *)
Definition merged (userId : Z) (update : PartialState) (m : t) : gmap Z UserState :=
  <[userId := spread (default emptyState (sessionData m !! userId)) update]> (sessionData m).

(** A state whose callback map, if any, is the plain object the controller
    creates: the shape [saveSessions] writes as a JSON object. *)
Definition canonical (st : UserState) : Prop :=
  match callbackMap st with
  | Some (CbMap _ _) => False
  | _ => True
  end.

Definition canonicalStore (data : gmap Z UserState) : Prop :=
  map_Forall (fun _ st => canonical st) data.

Definition canonicalMutation (op : mutation) : Prop :=
  match op with
  | SetUserState _ st => canonical st
  | UpdateUserState _ update =>
      match p_callbackMap update with
      | Some (Some (CbMap _ _)) => False
      | _ => True
      end
  | DeleteUserState _ | ClearAllSessions => True
  end.

(** The store in memory is the one a restart would load, it is canonical, and
    every coming write succeeds. *)
Definition synced (m : t) : Prop :=
  sessionData (create (disk m)) = sessionData m /\
  canonicalStore (sessionData m) /\
  writes (disk m) = [].

End SessionSpec.

(** ** Vocabulary of the statements about the controller *)

(** The sections [displaySectionsList] puts first. *)
Definition isPriority (section : string) : bool :=
  String.eqb section "Лечение" || String.eqb section "Диагностика".

(** The sections [displaySectionsList] keeps. *)
Definition isShown (section : string) : bool := negb (String.eqb section "МКБ").

(** A list laid out two per row, the last row holding what remains. *)
Fixpoint inPairs {A} (l : list A) : list (list A) :=
  match l with
  | [] => []
  | [a] => [[a]]
  | a :: b :: l' => [a; b] :: inPairs l'
  end.

(** [ctx.userState?.messageIds?.length] is truthy: there are identifiers to
    clear. *)
Definition hasMessageIds (ids : option (list Z)) : bool :=
  match ids with
  | Some (_ :: _) => true
  | _ => false
  end.

(** [ctx.userState?.callbackMap?.[key]] *)
Definition lookupCallback (w : World) (key : string) : option string :=
  match ctxCallbackMap w with
  | Some cb => cb_get cb key
  | None => None
  end.

(** The string a key resolves to in a world: the entry of the callback map,
    provided the event carries a user id and the entry is not empty. *)
Definition resolved (w : World) (key : string) : option string :=
  match userIdOf w, lookupCallback w key with
  | Some _, Some v => if JS.truthy_string v then Some v else None
  | _, _ => None
  end.

(** The diagnosis stored for the user of the event, when set. *)
Definition currentDiagnosis (w : World) : option string :=
  match userIdOf w with
  | Some userId => storedDiagnosis userId w
  | None => None
  end.

(** The token [storeCallbackMapping] returns in a world: the hash when the
    event carries a user id and a user state is attached, the empty string
    otherwise. *)
Definition tokenOf (w : World) (originalValue : string) : string :=
  match userIdOf w, userState w with
  | Some _, Some _ => generateHash originalValue
  | _, _ => ""
  end.

(** The world [storeCallbackMapping] leaves behind, for each name of a list
    in turn. *)
Definition storeAll (type : kind) (l : list string) (w : World) : World :=
  fold_left (fun acc v => snd (storeCallbackMapping v type acc)) l w.

(** A session file [saveSessions] could have written from plain-object
    callback maps: a document without callback maps in the array form, or no
    file at all. *)
Definition canonicalFile (d : Disk) : Prop :=
  match file d with
  | Some (Document doc) =>
      map_Forall (fun _ st => match f_callbackMap st with
                              | Some (FArray _) => False
                              | _ => True
                              end) doc
  | Some Unreadable => False
  | None => True
  end.

(** The characters of [digest("hex")]. *)
Definition isHexDigit (c : ascii) : bool :=
  existsb (Ascii.eqb c) (list_ascii_of_string "0123456789abcdef").

Fixpoint allChars (p : ascii -> bool) (s : string) : bool :=
  match s with
  | EmptyString => true
  | String c s' => p c && allChars p s'
  end.

(** ** Scenarios used by the statements *)

(** A content API that answers every search with the query itself and knows
    one section per diagnosis, behind a transport that refuses every deletion,
    so that the keyboards sent earlier stay on screen. *)
Definition clinic : Remote :=
  mkRemote (fun query => Some [query])
           (fun diagnosis =>
              if String.eqb diagnosis "Грипп" then Some ["Лечение"] else Some ["Диагностика"])
           (fun _ _ => Some "### Покой")
           (fun _ => true).

(** The process right after start-up, without a session file, seen from an
    event of user [7]. *)
Definition firstEvent : World :=
  mkWorld (SessionManager.create (mkDisk None [])) (Some 7) None [] [] [] 1.

(** User [7] looks up "Грипп", opens it, then looks up "Ангина" and opens
    it: four events. *)
Definition afterTwoDiagnoses : World :=
  let w1 := snd (dispatch (handleTextInput clinic "Грипп") firstEvent) in
  let w2 := snd (dispatch (handleDiagnosisSelection clinic (generateHash "Грипп")) w1) in
  let w3 := snd (dispatch (handleTextInput clinic "Ангина") w2) in
  snd (dispatch (handleDiagnosisSelection clinic (generateHash "Ангина")) w3).

(** A content API that answers every search with the two candidates "A" and
    "B", behind a transport that deletes what it is asked to. *)
Definition twoCandidates : Remote :=
  mkRemote (fun _ => Some ["A"; "B"])
           (fun _ => Some ["Лечение"])
           (fun _ _ => Some "### Покой")
           (fun _ => false).

(** ** The remaining handlers of [class MedicalBot] *)

(** [welcomeText] of [sendWelcomeMessage]. *)
Definition welcomeText : string :=
  "👋 Здравствуйте, доктор!" +:+ nl +:+
  "Я — DocTime.MedX, ваша медицинская база знаний." +:+ nl +:+
  "Задайте вопрос — и я помогу найти актуальные клинические рекомендации, проверить протокол или подсказать по диагностике и лечению." +:+ nl +:+ nl +:+
  "🩺 Давайте начнём: какой запрос хотите разобрать?".

(** [sendWelcomeMessage(ctx)] *)
Definition sendWelcomeMessage : M unit :=
  replyAndSave welcomeText [[newDiagnosisButton "Ввести диагноз"]].

(** [askForNewDiagnosis(ctx)] *)
Definition askForNewDiagnosis : M unit :=
  replyAndSave "Введите название диагноза, который вас интересует:" [].

(** [handleStart(ctx)] *)
Definition handleStart (remote : Remote) : M unit :=
  clearPreviousMessages remote ;;
  sendWelcomeMessage.

(** [handleNewDiagnosisCommand(ctx)] *)
Definition handleNewDiagnosisCommand (remote : Remote) : M unit :=
  clearPreviousMessages remote ;;
  askForNewDiagnosis.

(** [handleNewDiagnosisAction(ctx)] *)
Definition handleNewDiagnosisAction (remote : Remote) : M unit :=
  clearPreviousMessages remote ;;
  askForNewDiagnosis.

(** [handleOtherMessages(ctx)]: the reply's identifier is not kept. *)
Definition handleOtherMessages (remote : Remote) : M unit :=
  clearPreviousMessages remote ;;
  _ <- replyWithMarkdown
         "Пожалуйста, используйте текстовые сообщения для ввода диагноза или команды меню."
         [] ;;
  ret tt.

(** ** Vocabulary of the statements about the message identifiers *)

(** The message identifiers stored for the user of the event. *)
Definition storedMessageIds (w : World) : option (list Z) :=
  match userIdOf w with
  | Some userId =>
      match SessionManager.getUserState userId (manager w) with
      | Some st => messageIds st
      | None => None
      end
  | None => None
  end.

(** The event has a usable user id and a user state, and the state of the
    context and the stored one list the same message identifiers, [ids]. *)
Definition inStep (w : World) (ids : list Z) : Prop :=
  userIdOf w <> None /\
  userState w <> None /\
  default [] (ctxMessageIds w) = ids /\
  default [] (storedMessageIds w) = ids.

(** From [w] to [w'] the messages [msgs] were sent, numbered from
    [nextMessageId w] on, and their identifiers were appended to the message
    identifiers of the user, in the context and in the store; no deletion was
    asked of the transport. *)
Definition Adds (w w' : World) (msgs : list Message) : Prop :=
  from_id w' = from_id w /\
  outbox w' = outbox w ++ msgs /\
  nextMessageId w' = nextMessageId w + Z.of_nat (length msgs) /\
  deleted w' = deleted w /\
  forall ids,
    inStep w ids ->
    inStep w' (ids ++ seqZ (nextMessageId w) (Z.of_nat (length msgs))).

(** A step that may throw and records what it sends. *)
Definition TracksT {A} (c : M A) : Prop :=
  forall w, exists r w' msgs, c w = (r, w') /\ Adds w w' msgs.

(** A step that returns and records what it sends. *)
Definition Tracks {A} (c : M A) : Prop :=
  forall w, exists a w' msgs, c w = (Returned a, w') /\ Adds w w' msgs.

(** What an event leaves when [handler] runs after the middleware in [w]:
    it returns; the deletions it asked for are those of the message
    identifiers that were stored for the user; and the message identifiers
    kept for the user, in the context and in the store, are those of the
    messages the event sent. *)
Definition RecordsAt (w : World) (handler : M unit) : Prop :=
  exists w' msgs,
    dispatch handler w = (Returned tt, w') /\
    from_id w' = from_id w /\
    outbox w' = outbox w ++ msgs /\
    nextMessageId w' = nextMessageId w + Z.of_nat (length msgs) /\
    deleted w' = deleted w ++ default [] (storedMessageIds w) /\
    inStep w' (seqZ (nextMessageId w) (Z.of_nat (length msgs))).

Definition RecordsItsReplies (handler : M unit) : Prop :=
  forall w, userIdOf w <> None -> RecordsAt w handler.

(** ** Vocabulary of the statements about the navigation state *)

(** [userState?.sections] of the stored state. *)
Definition storedSections (userId : Z) (w : World) : option (list string) :=
  match SessionManager.getUserState userId (manager w) with
  | Some st => sections st
  | None => None
  end.

(** The sections stored for the user of the event. *)
Definition currentSections (w : World) : option (list string) :=
  match userIdOf w with
  | Some userId => storedSections userId w
  | None => None
  end.

(** [callbackMap?.[key]] of the state stored for a user. *)
Definition storedCallback (userId : Z) (w : World) (key : string) : option string :=
  match SessionManager.getUserState userId (manager w) with
  | Some st =>
      match callbackMap st with
      | Some cb => cb_get cb key
      | None => None
      end
  | None => None
  end.

(** What a key will resolve to at the next event of the user: the entry of
    the stored callback map, when it is not empty. *)
Definition storedMapping (w : World) (key : string) : option string :=
  match userIdOf w with
  | Some userId =>
      match storedCallback userId w key with
      | Some v => if JS.truthy_string v then Some v else None
      | None => None
      end
  | None => None
  end.

(** From [w] to [w'] the messages [msgs] were sent and the calls [calls]
    made of the API, and no user's stored diagnosis or sections changed. *)
Definition Sends (w w' : World) (msgs : list Message) (calls : list ApiCall) : Prop :=
  from_id w' = from_id w /\
  (userState w' = None <-> userState w = None) /\
  outbox w' = outbox w ++ msgs /\
  apiCalls w' = apiCalls w ++ calls /\
  (forall userId, storedDiagnosis userId w' = storedDiagnosis userId w) /\
  (forall userId, storedSections userId w' = storedSections userId w).

(** The context and the store hold the same callback entries for the user
    of the event. *)
Definition sameCallbacks (w : World) : Prop :=
  match userIdOf w with
  | Some userId => forall key, lookupCallback w key = storedCallback userId w key
  | None => True
  end.

Definition errorMessage (message : string) : Message :=
  mkMessage (message +:+ ". Пожалуйста, попробуйте снова.")
            [[newDiagnosisButton "Ввести новый диагноз"]].

Definition searchingMessage : Message := mkMessage "Ищу похожие диагнозы..." [].

(** The keyboard row of a candidate diagnosis. *)
Definition diagnosisRow (diagnosis : string) : list Button :=
  [mkButton diagnosis ("select_diagnosis:" +:+ generateHash diagnosis)].

(** The message [handleDiagnosisInput] sends for what the API answered
    ([None]: the call failed). *)
Definition diagnosesMessage (answer : option (list string)) : Message :=
  match answer with
  | None =>
      mkMessage "Произошла ошибка при поиске диагнозов. Попробуйте позже."
                [[newDiagnosisButton "Ввести новый диагноз"]]
  | Some [] =>
      mkMessage
        "По вашему запросу ничего не найдено. Попробуйте ввести другой диагноз или уточнить формулировку."
        [[newDiagnosisButton "Ввести новый диагноз"]]
  | Some (d :: l) =>
      mkMessage "Найдены следующие диагнозы. Выберите подходящий:"
                (List.map diagnosisRow (d :: List.filter (String.eqb d) l) ++
                 [[newDiagnosisButton "Ввести новый диагноз"]])
  end.

Definition loadingMessage (diagnosis : string) : Message :=
  mkMessage ("*" +:+ diagnosis +:+ "*" +:+ nl +:+ nl +:+ "Загружаю информацию...") [].

(** The sections a keyboard shows, in its order. *)
Definition shownSections (sections : list string) : list string :=
  List.filter isPriority (List.filter isShown sections) ++
  List.filter (fun s => negb (isPriority s)) (List.filter isShown sections).

Definition sectionButtonOf (section : string) : Button :=
  mkButton section ("select_section:" +:+ generateHash section).

(** The message [showSections] sends for what the API answered. *)
Definition sectionsMessage (diagnosis : string) (answer : option (list string)) : Message :=
  match answer with
  | None =>
      mkMessage "Произошла ошибка при загрузке информации. Попробуйте позже."
                [[newDiagnosisButton "Ввести новый диагноз"]]
  | Some [] =>
      mkMessage "Для выбранного диагноза нет доступной информации."
                [[newDiagnosisButton "Ввести новый диагноз"]]
  | Some (s :: l) =>
      mkMessage ("*" +:+ diagnosis +:+ "*" +:+ nl +:+ nl +:+ "Доступные разделы:")
                (inPairs (List.map sectionButtonOf (shownSections (s :: l))) ++
                 [[newDiagnosisButton "Ввести новый диагноз"]])
  end.

(** The sections [showSections] leaves in the store for what the API answered. *)
Definition sectionsAfter (before : option (list string))
    (answer : option (list string)) : option (list string) :=
  match answer with
  | Some (s :: l) => Some (s :: l)
  | _ => before
  end.

(** The key [storeCallbackMapping] files a value under. *)
Definition keyOf (type : kind) (originalValue : string) : string :=
  kindName type +:+ ":" +:+ generateHash originalValue.

(** The callback entries after the values of a list were filed in turn: a
    later value takes the place of an earlier one with its key. *)
Definition lookupAfter (type : kind) (l : list string)
    (before : string -> option string) : string -> option string :=
  fold_left (fun found v key => if String.eqb (keyOf type v) key then Some v else found key)
            l before.

(** From [w] to [w'] no callback entry changed, in the context or in the
    store. *)
Definition KeepsCallbacks (w w' : World) : Prop :=
  ctxCallbackMap w' = ctxCallbackMap w /\
  forall userId key, storedCallback userId w' key = storedCallback userId w key.

(** The candidates a keyboard has a button for, by what the API answered. *)
Definition keptDiagnoses (answer : option (list string)) : list string :=
  match answer with
  | Some (d :: l) => d :: List.filter (String.eqb d) l
  | _ => []
  end.

(** The sections a keyboard has a button for, by what the API answered. *)
Definition keptSections (answer : option (list string)) : list string :=
  match answer with
  | Some (s :: l) => shownSections (s :: l)
  | _ => []
  end.

(** From [w] to [w'] the sections of [diagnosis] were asked of the API,
    once, and shown after the messages [notices]: the answer is displayed, a
    non-empty section list replaces the stored one, and every section the
    keyboard shows, unless it is the empty string or shares its token with
    another section of the keyboard, is what its button resolves to at the
    user's next event. *)
Definition SectionsShown (remote : Remote) (diagnosis : string) (notices : list Message)
    (w w' : World) : Prop :=
  outbox w' = outbox w ++ notices ++ [sectionsMessage diagnosis (sectionsOf remote diagnosis)] /\
  apiCalls w' = apiCalls w ++ [GetSections diagnosis] /\
  currentSections w' = sectionsAfter (currentSections w) (sectionsOf remote diagnosis) /\
  forall section,
    In section (keptSections (sectionsOf remote diagnosis)) ->
    section <> EmptyString ->
    (forall other, In other (keptSections (sectionsOf remote diagnosis)) ->
                   generateHash other = generateHash section -> other = section) ->
    storedMapping w' ("section:" +:+ generateHash section) = Some section.

(** From [w] to [w'] the one message [msg] was sent; the API was not called
    and the stored diagnosis and sections of the user are as before. *)
Definition OnlyReplies (msg : Message) (w w' : World) : Prop :=
  outbox w' = outbox w ++ [msg] /\
  apiCalls w' = apiCalls w /\
  currentDiagnosis w' = currentDiagnosis w /\
  currentSections w' = currentSections w.

(** ** The events [setupHandlers] registers a handler for *)

Inductive Event : Type :=
| Start
| NewDiagnosisCommand
| Text (messageText : string)
| DiagnosisSelection (hash : string)
| SectionSelection (hash : string)
| NewDiagnosisAction
| BackToSections
| OtherMessage.

(** The handler [setupHandlers] registers for an event. *)
Definition handlerOf (remote : Remote) (ev : Event) : M unit :=
  match ev with
  | Start => handleStart remote
  | NewDiagnosisCommand => handleNewDiagnosisCommand remote
  | Text messageText => handleTextInput remote messageText
  | DiagnosisSelection hash => handleDiagnosisSelection remote hash
  | SectionSelection hash => handleSectionSelection remote hash
  | NewDiagnosisAction => handleNewDiagnosisAction remote
  | BackToSections => handleBackToSections remote
  | OtherMessage => handleOtherMessages remote
  end.

(** The world after one event, and after the events of a list in order. *)
Definition after (remote : Remote) (ev : Event) (w : World) : World :=
  snd (dispatch (handlerOf remote ev) w).

Definition session (remote : Remote) (evs : list Event) (w : World) : World :=
  fold_left (fun acc ev => after remote ev acc) evs w.

(** A text the text handler returns on at once: a command. *)
Definition ignored (ev : Event) : bool :=
  match ev with
  | Text messageText => JS.startsWith "/" (trim messageText)
  | _ => false
  end.

(** The events whose handler keeps the identifiers of its replies. *)
Definition recorded (ev : Event) : bool :=
  match ev with
  | OtherMessage => false
  | _ => true
  end.

(** The identifiers the transport has been asked to delete or the store
    keeps for deletion at the next event of the user. *)
Definition accountedFor (w : World) : list Z :=
  deleted w ++ default [] (storedMessageIds w).

(** ** Vocabulary of the statements about the users of the store *)

(** A step that, run in an event of user [u] ([None]: no usable id), keeps
    the event's user and leaves the state stored for every other user as it
    was. *)
Definition ConfinedTo (u : option Z) {A} (c : M A) : Prop :=
  forall w,
    userIdOf w = u ->
    from_id (snd (c w)) = from_id w /\
    forall other,
      u <> Some other ->
      SessionManager.getUserState other (manager (snd (c w))) =
      SessionManager.getUserState other (manager w).

(** What the handlers send for an event that carries no usable user id. *)
Definition repliesWithoutUser (ev : Event) : list Message :=
  match ev with
  | Start => [mkMessage welcomeText [[newDiagnosisButton "Ввести диагноз"]]]
  | NewDiagnosisCommand | NewDiagnosisAction =>
      [mkMessage "Введите название диагноза, который вас интересует:" []]
  | Text _ | BackToSections => []
  | DiagnosisSelection _ => [errorMessage "Диагноз не найден"]
  | SectionSelection _ => [errorMessage "Раздел не найден"]
  | OtherMessage =>
      [mkMessage
         "Пожалуйста, используйте текстовые сообщения для ввода диагноза или команды меню."
         []]
  end.

(** [s.includes(t)] *)
Fixpoint includes (s t : string) : bool :=
  JS.startsWith t s ||
  match s with
  | EmptyString => false
  | String _ s' => includes s' t
  end.

(** ** [class APIRepository] of [src/repositories]

    The requests the class builds.  A string is the UTF-8 encoding of a
    well-formed JavaScript string, so [encodeURIComponent] never throws. *)

Module APIRepository.

Definition isAlnum (c : ascii) : bool :=
  let n := nat_of_ascii c in
  ((48 <=? n) && (n <=? 57) || (65 <=? n) && (n <=? 90) || (97 <=? n) && (n <=? 122))%nat.

(** The characters [encodeURIComponent] leaves as they are. *)
Definition unreserved (c : ascii) : bool :=
  isAlnum c || existsb (Ascii.eqb c) (list_ascii_of_string "-_.!~*'()").

Definition hexUpper (n : nat) : ascii :=
  nth n (list_ascii_of_string "0123456789ABCDEF") "0"%char.

(** The escape of a byte: a percent sign and two upper-case hexadecimal digits. *)
Definition percent (c : ascii) : string :=
  String "%" (String (hexUpper (nat_of_ascii c / 16)%nat)
                     (String (hexUpper (nat_of_ascii c mod 16)%nat) EmptyString)).

(** [encodeURIComponent(s)] *)
Fixpoint encodeURIComponent (s : string) : string :=
  match s with
  | EmptyString => EmptyString
  | String c s' =>
      (if unreserved c then String c EmptyString else percent c) +:+ encodeURIComponent s'
  end.

(** The serializer of [URLSearchParams] (application/x-www-form-urlencoded):
    a space becomes a plus sign, letters, digits and [*-._] stay, every other
    byte is escaped. *)
Definition formSafe (c : ascii) : bool :=
  isAlnum c || existsb (Ascii.eqb c) (list_ascii_of_string "*-._").

Fixpoint formEncode (s : string) : string :=
  match s with
  | EmptyString => EmptyString
  | String c s' =>
      (if Ascii.eqb c " " then "+"
       else if formSafe c then String c EmptyString
       else percent c) +:+ formEncode s'
  end.

(** [s.split(sep)] for a separator of one character. *)
Fixpoint splitOn (sep : ascii) (s : string) : list string :=
  match s with
  | EmptyString => [EmptyString]
  | String c s' =>
      if Ascii.eqb c sep then EmptyString :: splitOn sep s'
      else match splitOn sep s' with
           | segment :: rest => String c segment :: rest
           | [] => [String c EmptyString]
           end
  end.

(** [l.join(sep)] *)
Fixpoint joinWith (sep : string) (l : list string) : string :=
  match l with
  | [] => EmptyString
  | [x] => x
  | x :: l' => x +:+ sep +:+ joinWith sep l'
  end.

(** The dot segments of the URL parser. *)
Definition isSingleDot (segment : string) : bool :=
  existsb (String.eqb segment) ["."; "%2e"; "%2E"].

Definition isDoubleDot (segment : string) : bool :=
  existsb (String.eqb segment)
          [".."; ".%2e"; ".%2E"; "%2e."; "%2E."; "%2e%2e"; "%2e%2E"; "%2E%2e"; "%2E%2E"].

(** The path state of the URL parser, on the segments of a path made of
    characters the parser does not escape: a double-dot segment drops the last
    segment of the path so far, a single-dot segment is skipped, and either
    leaves an empty segment when it comes last. *)
Fixpoint pathState (segments path : list string) : list string :=
  match segments with
  | [] => path
  | segment :: rest =>
      let last := match rest with [] => true | _ :: _ => false end in
      if isDoubleDot segment
      then pathState rest (if last then removelast path ++ [EmptyString] else removelast path)
      else if isSingleDot segment
      then pathState rest (if last then path ++ [EmptyString] else path)
      else pathState rest (path ++ [segment])
  end.

(** [new URL(endpoint, baseUrl).pathname] for an endpoint that starts with a
    slash: the path of the base plays no part. *)
Definition pathname (endpoint : string) : string :=
  match endpoint with
  | String "/" rest => "/" +:+ joinWith "/" (pathState (splitOn "/" rest) [])
  | _ => endpoint
  end.

(** [url.search] after [url.searchParams.append(key, params[key])] for each
    key of [params]. *)
Definition search (params : list (string * string)) : string :=
  match params with
  | [] => EmptyString
  | _ :: _ =>
      "?" +:+ joinWith "&" (List.map (fun kv => formEncode (fst kv) +:+ "=" +:+ formEncode (snd kv))
                                     params)
  end.

(** What [getRequest] fetches: the path and the query of [url.toString()]. *)
Record Request : Type := mkRequest { path : string; query : string }.

Definition getRequest (endpoint : string) (params : list (string * string)) : Request :=
  mkRequest (pathname endpoint) (search params).

(** [getSimilarDiagnoses(diagnosis)] *)
Definition getSimilarDiagnoses (diagnosis : string) : Request :=
  getRequest "/diagnoses/similar" [("diagnosis", encodeURIComponent diagnosis)].

(** [getSections(diagnosis)] *)
Definition getSections (diagnosis : string) : Request :=
  getRequest ("/diagnoses/" +:+ encodeURIComponent diagnosis +:+ "/sections") [].

(** [getSection(diagnosis, section)] *)
Definition getSection (diagnosis section : string) : Request :=
  getRequest ("/diagnoses/" +:+ encodeURIComponent diagnosis +:+ "/sections/" +:+
              encodeURIComponent section) [].

(** Decoding of a query value, as a server does it once. *)
Definition unhex (c : ascii) : option nat :=
  let n := nat_of_ascii c in
  if ((48 <=? n) && (n <=? 57))%nat then Some (n - 48)%nat
  else if ((65 <=? n) && (n <=? 70))%nat then Some (n - 55)%nat
  else if ((97 <=? n) && (n <=? 102))%nat then Some (n - 87)%nat
  else None.

Fixpoint formDecode (skip : nat) (s : string) : string :=
  match s with
  | EmptyString => EmptyString
  | String c s' =>
      match skip with
      | S k => formDecode k s'
      | O =>
          let plain := String (if Ascii.eqb c "+" then " "%char else c) (formDecode O s') in
          if Ascii.eqb c "%"
          then match s' with
               | String h (String l _) =>
                   match unhex h, unhex l with
                   | Some a, Some b => String (ascii_of_nat (16 * a + b)) (formDecode 2 s')
                   | _, _ => plain
                   end
               | _ => plain
               end
          else plain
      end
  end.

End APIRepository.

(** ** Vocabulary of the statements about restarts *)



(** A step that keeps the event's user and changes no callback entry. *)
Definition KeepsAll {A} (c : M A) : Prop :=
  forall w, from_id (snd (c w)) = from_id w /\ KeepsCallbacks w (snd (c w)).

(** * Properties *)

(** ** The session store *)

Module SessionManagerFacts.
Import SessionManager SessionSpec.

Lemma sessionData_saveSessions m : sessionData (saveSessions m) = sessionData m.
Proof. unfold saveSessions. destruct (writes (disk m)) as [|[] ?]; reflexivity. Qed.

Lemma file_saveSessions m :
  file (disk (saveSessions m)) =
  if nextWriteOk (disk m)
  then Some (Document (serializable <$> sessionData m))
  else file (disk m).
Proof.
  unfold saveSessions, nextWriteOk. destruct (writes (disk m)) as [|[] ?]; reflexivity.
Qed.

Lemma sessionData_updateUserState userId update m :
  sessionData (updateUserState userId update m) = merged userId update m.
Proof.
  unfold updateUserState, merged. rewrite sessionData_saveSessions. cbn.
  destruct (sessionData m !! userId) as [st|] eqn:E.
  - rewrite E. reflexivity.
  - rewrite lookup_insert_eq. cbn. apply insert_insert_eq.
Qed.

Lemma updateUserState_unfold userId update m :
  updateUserState userId update m =
  saveSessions (mk (merged userId update m) (disk m) (console m)).
Proof.
  unfold updateUserState, merged.
  destruct (sessionData m !! userId) as [st|] eqn:E.
  - rewrite E. reflexivity.
  - rewrite lookup_insert_eq. cbn. rewrite insert_insert_eq. reflexivity.
Qed.

Lemma getUserState_updateUserState userId update m :
  getUserState userId (updateUserState userId update m) =
  Some (spread (default emptyState (getUserState userId m)) update).
Proof.
  unfold getUserState. rewrite sessionData_updateUserState.
  unfold merged. apply lookup_insert_eq.
Qed.

Lemma getUserState_updateUserState_ne userId other update m :
  userId <> other ->
  getUserState other (updateUserState userId update m) = getUserState other m.
Proof.
  intros Hne. unfold getUserState. rewrite sessionData_updateUserState.
  unfold merged. apply lookup_insert_ne. exact Hne.
Qed.

Lemma revive_serializable st : canonical st -> revive (serializable st) = st.
Proof.
  destruct st as [d s ids [[props|entries props]|] cs]; cbn; intros H;
    try reflexivity; contradiction.
Qed.

Lemma revive_serializable_store (data : gmap Z UserState) :
  canonicalStore data -> revive <$> (serializable <$> data) = data.
Proof.
  intros H. apply map_eq. intros uid. rewrite !lookup_fmap.
  destruct (data !! uid) as [st|] eqn:E; cbn; [|reflexivity].
  f_equal. apply revive_serializable. exact (H uid st E).
Qed.

Lemma canonical_spread st update :
  canonical st ->
  canonicalMutation (UpdateUserState 0 update) ->
  canonical (spread st update).
Proof.
  unfold canonical. cbn.
  destruct (p_callbackMap update) as [[[?|? ?]|]|]; cbn; tauto.
Qed.

Lemma canonicalStore_apply op m :
  canonicalStore (sessionData m) ->
  canonicalMutation op ->
  canonicalStore (sessionData (apply op m)).
Proof.
  intros Hm Hop. destruct op as [uid st|uid update|uid|]; cbn.
  - unfold setUserState. rewrite sessionData_saveSessions. cbn.
    apply map_Forall_insert_2; assumption.
  - rewrite sessionData_updateUserState. unfold merged.
    apply map_Forall_insert_2; [|assumption].
    apply canonical_spread; [|exact Hop].
    destruct (sessionData m !! uid) as [st|] eqn:E; cbn.
    + exact (Hm uid st E).
    + exact I.
  - unfold deleteUserState. destruct (sessionData m !! uid); [|assumption].
    rewrite sessionData_saveSessions. cbn. apply map_Forall_delete. assumption.
  - unfold clearAllSessions. rewrite sessionData_saveSessions. cbn.
    apply map_Forall_empty.
Qed.

Lemma canonicalStore_run ops : forall m,
  canonicalStore (sessionData m) ->
  Forall canonicalMutation ops ->
  canonicalStore (sessionData (run ops m)).
Proof.
  induction ops as [|op ops IH]; intros m Hm Hops; cbn.
  - exact Hm.
  - inversion Hops; subst. apply IH; [|assumption].
    apply canonicalStore_apply; assumption.
Qed.

(** A restart over the file a successful [saveSessions] wrote. *)
Lemma create_after_save m :
  nextWriteOk (disk m) = true ->
  sessionData (create (disk (saveSessions m))) = revive <$> (serializable <$> sessionData m).
Proof.
  intros Hok. unfold create, loadSessions. cbn.
  rewrite file_saveSessions, Hok. reflexivity.
Qed.

End SessionManagerFacts.

(** C9: [updateUserState(userId, update)] shallow-merges [update] into the
    user's state, an empty state being created first when there is none: every
    field the partial names ends up equal to the partial's value, whole field
    by whole field; every field it does not name keeps its value; the states of
    the other users are untouched; and the store is handed to [saveSessions] at
    once, so that the file holds the whole new store whenever the write
    succeeds. *)
Theorem C9_updateUserState_shallow_merge
    (m : SessionManager.t) (userId : Z) (update : PartialState) :
  let m' := SessionManager.updateUserState userId update m in
  let old := default emptyState (SessionManager.getUserState userId m) in
  (exists st',
      SessionManager.getUserState userId m' = Some st' /\
      diagnosis st' =
        match p_diagnosis update with Some v => v | None => diagnosis old end /\
      sections st' =
        match p_sections update with Some v => v | None => sections old end /\
      messageIds st' =
        match p_messageIds update with Some v => v | None => messageIds old end /\
      callbackMap st' =
        match p_callbackMap update with Some v => v | None => callbackMap old end /\
      currentSection st' =
        match p_currentSection update with Some v => v | None => currentSection old end) /\
  (forall other, other <> userId ->
      SessionManager.getUserState other m' = SessionManager.getUserState other m) /\
  m' = SessionManager.saveSessions
         (SessionManager.mk (SessionSpec.merged userId update m)
                            (SessionManager.disk m) (SessionManager.console m)) /\
  file (SessionManager.disk m') =
    if SessionSpec.nextWriteOk (SessionManager.disk m)
    then Some (Document (SessionManager.serializable <$> SessionManager.sessionData m'))
    else file (SessionManager.disk m).
Proof.
  cbv zeta. split; [|split; [|split]].
  - eexists. split.
    + apply SessionManagerFacts.getUserState_updateUserState.
    + cbn. repeat split.
  - intros other Hne.
    apply SessionManagerFacts.getUserState_updateUserState_ne. congruence.
  - apply SessionManagerFacts.updateUserState_unfold.
  - rewrite SessionManagerFacts.sessionData_updateUserState.
    rewrite SessionManagerFacts.updateUserState_unfold.
    rewrite SessionManagerFacts.file_saveSessions. reflexivity.
Qed.

(** C7: after any sequence of store mutations, once the store is serialized
    to the file and a new manager loads that file, the reloaded store is the one
    held in memory before the restart; in particular every user's callback map
    is the same.  The callback maps are the plain objects the controller
    creates, which [saveSessions] writes in one format, as a JSON object. *)
Theorem C7_session_file_round_trip
    (m : SessionManager.t) (ops : list SessionManager.mutation) :
  SessionSpec.canonicalStore (SessionManager.sessionData m) ->
  Forall SessionSpec.canonicalMutation ops ->
  let before := SessionManager.run ops m in
  SessionSpec.nextWriteOk (SessionManager.disk before) = true ->
  let restarted := SessionManager.create (SessionManager.disk (SessionManager.saveSessions before)) in
  SessionManager.sessionData restarted = SessionManager.sessionData before /\
  forall userId,
    callbackMap <$> SessionManager.getUserState userId restarted =
    callbackMap <$> SessionManager.getUserState userId before.
Proof.
  intros Hm Hops before Hok restarted.
  assert (Heq : SessionManager.sessionData restarted = SessionManager.sessionData before).
  { unfold restarted. rewrite SessionManagerFacts.create_after_save by exact Hok.
    apply SessionManagerFacts.revive_serializable_store.
    apply SessionManagerFacts.canonicalStore_run; assumption. }
  split; [exact Heq|].
  intros userId. unfold SessionManager.getUserState. rewrite Heq. reflexivity.
Qed.

(** ** The JavaScript primitives *)

Module JSFacts.
Import JS.

Lemma startsWith_refl s : startsWith s s = true.
Proof. induction s as [|c s IH]; cbn; [reflexivity|]. rewrite Ascii.eqb_refl. exact IH. Qed.

Lemma startsWith_longer t : forall s,
  (String.length s < String.length t)%nat -> startsWith t s = false.
Proof.
  induction t as [|a t IH]; intros [|b s] H; cbn in *; try lia; try reflexivity.
  destruct (Ascii.eqb a b); [|reflexivity]. apply IH. lia.
Qed.

Lemma lastIndexOf_from_longer t : forall s i,
  (String.length s < String.length t)%nat -> lastIndexOf_from t s i = -1.
Proof.
  intros s. induction s as [|c s IH]; intros i H; cbn [lastIndexOf_from].
  - rewrite startsWith_longer by exact H. reflexivity.
  - rewrite IH by (cbn in H; lia). cbn.
    rewrite startsWith_longer by exact H. reflexivity.
Qed.

(** A string occurs in itself at position [0] and nowhere later. *)
Lemma String_lastIndexOf_self s : String_lastIndexOf s s = 0.
Proof.
  unfold String_lastIndexOf. destruct s as [|c s]; cbn [lastIndexOf_from].
  - reflexivity.
  - rewrite lastIndexOf_from_longer by (cbn; lia). cbn [Z.leb Z.compare].
    rewrite startsWith_refl. reflexivity.
Qed.

Lemma indexOf_from_range x l : forall i,
  indexOf_from x l i = -1 \/ i <= indexOf_from x l i.
Proof.
  induction l as [|y l IH]; intros i; cbn; [left; reflexivity|].
  destruct (String.eqb y x); [right; lia|].
  destruct (IH (i + 1)) as [H|H]; [left; exact H|right; lia].
Qed.

(** Only the elements equal to the first one have first index [0]. *)
Lemma Array_indexOf_zero y l x :
  (0 =? Array_indexOf (y :: l) x) = String.eqb y x.
Proof.
  unfold Array_indexOf. cbn [indexOf_from]. destruct (String.eqb y x); [reflexivity|].
  destruct (indexOf_from_range x l (0 + 1)) as [H|H]; apply Z.eqb_neq; lia.
Qed.

Lemma sort_insert_first {A} (cmp : A -> A -> Z) x l :
  (forall y, cmp x y <= 0) -> sort_insert cmp x l = x :: l.
Proof.
  intros H. destruct l as [|y l]; cbn; [reflexivity|].
  destruct (Z.leb_spec (cmp x y) 0); [reflexivity|]. specialize (H y). lia.
Qed.

Lemma sort_insert_after {A} (cmp : A -> A -> Z) x front : forall back,
  Forall (fun y => 0 < cmp x y) front ->
  match back with [] => True | y :: _ => cmp x y <= 0 end ->
  sort_insert cmp x (front ++ back) = front ++ x :: back.
Proof.
  induction front as [|y front IH]; intros back Hfront Hback; cbn.
  - destruct back as [|y back]; cbn; [reflexivity|].
    destruct (Z.leb_spec (cmp x y) 0); [reflexivity|lia].
  - inversion Hfront as [|? ? Hy Hrest]; subst.
    destruct (Z.leb_spec (cmp x y) 0); [lia|].
    f_equal. apply IH; assumption.
Qed.

Lemma inPairs_step {A} (a : A) rest :
  firstn 2 (a :: rest) :: inPairs (skipn 2 (a :: rest)) = inPairs (a :: rest).
Proof. destruct rest as [|b rest]; reflexivity. Qed.

End JSFacts.

(** ** The controller *)

Arguments generateHash : simpl never.
Arguments SessionManager.updateUserState : simpl never.

Module ControllerFacts.

(** *** [storeCallbackMapping] *)

Lemma storeCallbackMapping_result v k w :
  fst (storeCallbackMapping v k w) = Returned (tokenOf w v).
Proof.
  unfold storeCallbackMapping, tokenOf, bind, get.
  destruct (userIdOf w), (userState w); reflexivity.
Qed.

Lemma storeCallbackMapping_frame v k w :
  let w' := snd (storeCallbackMapping v k w) in
  from_id w' = from_id w /\ outbox w' = outbox w /\ deleted w' = deleted w /\
  apiCalls w' = apiCalls w /\ nextMessageId w' = nextMessageId w /\
  (userState w' = None <-> userState w = None).
Proof.
  unfold storeCallbackMapping, bind, get.
  destruct (userIdOf w), (userState w) eqn:E; cbn; rewrite ?E; cbn;
    repeat split; congruence.
Qed.

Lemma userIdOf_from_id w w' : from_id w' = from_id w -> userIdOf w' = userIdOf w.
Proof. unfold userIdOf. intros ->. reflexivity. Qed.

Lemma tokenOf_storeCallbackMapping v k w x :
  tokenOf (snd (storeCallbackMapping v k w)) x = tokenOf w x.
Proof.
  destruct (storeCallbackMapping_frame v k w) as (Hid & _ & _ & _ & _ & Hst).
  unfold tokenOf. rewrite (userIdOf_from_id _ _ Hid).
  destruct (userIdOf w); [|reflexivity].
  destruct (userState w) eqn:E, (userState (snd (storeCallbackMapping v k w))) eqn:E';
    try reflexivity.
  - destruct Hst as [H _]. specialize (H eq_refl). discriminate.
  - destruct Hst as [_ H]. specialize (H eq_refl). discriminate.
Qed.

Lemma storeCallbackMapping_eq v k w :
  storeCallbackMapping v k w = (Returned (tokenOf w v), snd (storeCallbackMapping v k w)).
Proof.
  rewrite <- (storeCallbackMapping_result v k w).
  destruct (storeCallbackMapping v k w); reflexivity.
Qed.

Lemma storeAll_frame k l : forall w,
  let w' := storeAll k l w in
  from_id w' = from_id w /\ outbox w' = outbox w /\ deleted w' = deleted w /\
  apiCalls w' = apiCalls w /\ nextMessageId w' = nextMessageId w /\
  (userState w' = None <-> userState w = None).
Proof.
  induction l as [|v l IH]; intros w; cbn.
  - repeat split; auto.
  - destruct (IH (snd (storeCallbackMapping v k w))) as (a & b & c & d & e & f).
    destruct (storeCallbackMapping_frame v k w) as (a' & b' & c' & d' & e' & f').
    unfold storeAll in *. cbn in *.
    repeat split; try congruence; tauto.
Qed.

Lemma tokenOf_storeAll k l x : forall w, tokenOf (storeAll k l w) x = tokenOf w x.
Proof.
  induction l as [|v l IH]; intros w; [reflexivity|].
  unfold storeAll in *. cbn [fold_left]. rewrite IH. apply tokenOf_storeCallbackMapping.
Qed.

Lemma mapAll_sectionButton l : forall w,
  mapAll sectionButton l w =
  (Returned (List.map (fun s => mkButton s ("select_section:" +:+ tokenOf w s)) l),
   storeAll KSection l w).
Proof.
  induction l as [|v l IH]; intros w; [reflexivity|].
  cbn [mapAll List.map]. unfold bind at 1. unfold sectionButton at 1.
  unfold bind at 1. rewrite storeCallbackMapping_eq. cbn [ret].
  unfold bind at 1. rewrite IH. cbn [ret].
  unfold ret. erewrite map_ext; [reflexivity|].
  intros s. cbn beta. rewrite tokenOf_storeCallbackMapping. reflexivity.
Qed.

Lemma mapAll_diagnosisButton l : forall w,
  mapAll diagnosisButton l w =
  (Returned (List.map (fun d => [mkButton d ("select_diagnosis:" +:+ tokenOf w d)]) l),
   storeAll KDiagnosis l w).
Proof.
  induction l as [|v l IH]; intros w; [reflexivity|].
  cbn [mapAll List.map]. unfold bind at 1. unfold diagnosisButton at 1.
  unfold bind at 1. rewrite storeCallbackMapping_eq. cbn [ret].
  unfold bind at 1. rewrite IH. cbn [ret].
  unfold ret. erewrite map_ext; [reflexivity|].
  intros s. cbn beta. rewrite tokenOf_storeCallbackMapping. reflexivity.
Qed.

(** *** [saveMessageId] and the replies *)

Lemma saveMessageId_frame messageId w :
  exists w',
    saveMessageId messageId w = (Returned tt, w') /\
    from_id w' = from_id w /\ outbox w' = outbox w /\ deleted w' = deleted w /\
    apiCalls w' = apiCalls w /\ nextMessageId w' = nextMessageId w.
Proof.
  unfold saveMessageId, bind, get.
  destruct (userIdOf w), (userState w); cbn; eexists; repeat split.
Qed.

Lemma replyAndSave_frame text rows w :
  exists w',
    replyAndSave text rows w = (Returned tt, w') /\
    from_id w' = from_id w /\ outbox w' = outbox w ++ [mkMessage text rows] /\
    deleted w' = deleted w /\ apiCalls w' = apiCalls w /\
    nextMessageId w' = nextMessageId w + 1.
Proof.
  unfold replyAndSave, bind at 1. cbn [replyWithMarkdown].
  match goal with |- context [saveMessageId ?i ?w0] =>
    destruct (saveMessageId_frame i w0) as (w' & Heq & a & b & c & d & e) end.
  exists w'. rewrite Heq. cbn in *. repeat split; assumption.
Qed.

End ControllerFacts.

Module LayoutFacts.

Lemma concat_inPairs_both {A} (l : list A) :
  concat (inPairs l) = l /\ forall a, concat (inPairs (a :: l)) = a :: l.
Proof.
  induction l as [|b l [IH1 IH2]]; [split; reflexivity|]. split.
  - apply IH2.
  - intros a. cbn [inPairs concat]. cbn. rewrite IH1. reflexivity.
Qed.

Lemma concat_inPairs {A} (l : list A) : concat (inPairs l) = l.
Proof. apply concat_inPairs_both. Qed.

(** The loop of [displaySectionsList] has fuel enough and lays its buttons
    out two per row. *)
Lemma pairRows_from fuel : forall i (l : list Button),
  (length (skipn i l) <= fuel)%nat ->
  pairRows fuel i l = inPairs (skipn i l).
Proof.
  induction fuel as [|fuel IH]; intros i l Hfuel; cbn [pairRows].
  - destruct (skipn i l); [reflexivity|cbn in Hfuel; lia].
  - destruct (Nat.ltb_spec i (length l)) as [Hlt|Hge].
    + unfold JS.Array_slice. replace (i + 2 - i)%nat with 2%nat by lia.
      rewrite IH.
      * replace (i + 2)%nat with (2 + i)%nat by lia. rewrite <- skipn_skipn.
        destruct (skipn i l) as [|a rest] eqn:E.
        -- apply (f_equal (@length _)) in E. rewrite length_skipn in E. cbn in E. lia.
        -- apply JSFacts.inPairs_step.
      * rewrite length_skipn in *. lia.
    + rewrite skipn_all2 by lia. reflexivity.
Qed.

Lemma pairRows_inPairs (l : list Button) : pairRows (length l) 0 l = inPairs l.
Proof. apply (pairRows_from (length l) 0%nat l). cbn [skipn]. apply Nat.le_refl. Qed.

Lemma priority_spec s : priority s = if isPriority s then 0 else 1.
Proof. reflexivity. Qed.

(** The stable sort by priority is the priority sections, in their order,
    followed by the others, in theirs. *)
Lemma Array_sort_bySectionPriority l :
  JS.Array_sort bySectionPriority l =
  List.filter isPriority l ++ List.filter (fun s => negb (isPriority s)) l.
Proof.
  induction l as [|x l IH]; [reflexivity|].
  cbn [JS.Array_sort List.filter]. rewrite IH.
  destruct (isPriority x) eqn:Hx; cbn [negb].
  - apply JSFacts.sort_insert_first. intros y.
    unfold bySectionPriority. rewrite !priority_spec, Hx. destruct (isPriority y); lia.
  - apply JSFacts.sort_insert_after.
    + apply Forall_forall. intros y Hy. apply list_elem_of_In in Hy.
      apply filter_In in Hy as [_ Hy].
      unfold bySectionPriority. rewrite !priority_spec, Hx, Hy. lia.
    + destruct (List.filter (fun s => negb (isPriority s)) l) as [|y rest] eqn:E; [exact I|].
      assert (Hy : In y (List.filter (fun s => negb (isPriority s)) l))
        by (rewrite E; left; reflexivity).
      apply filter_In in Hy as [_ Hy]. apply negb_true_iff in Hy.
      unfold bySectionPriority. rewrite !priority_spec, Hx, Hy. lia.
Qed.

Lemma correctSections_spec sections :
  correctSections sections =
  List.filter isPriority (List.filter isShown sections) ++
  List.filter (fun s => negb (isPriority s)) (List.filter isShown sections).
Proof. unfold correctSections. apply Array_sort_bySectionPriority. Qed.

(** The filter of [showDiagnosisOptions] keeps the first candidate and its
    repetitions, and nothing else. *)
Lemma correctDiagnoses_cons d l :
  correctDiagnoses (d :: l) = d :: List.filter (String.eqb d) l.
Proof.
  unfold correctDiagnoses.
  assert (H : forall l',
    List.filter (fun x => JS.String_lastIndexOf x x =? JS.Array_indexOf (d :: l) x) l' =
    List.filter (String.eqb d) l').
  { intros l'. apply filter_ext. intros x.
    rewrite JSFacts.String_lastIndexOf_self. apply JSFacts.Array_indexOf_zero. }
  rewrite H. cbn. rewrite String.eqb_refl. reflexivity.
Qed.

End LayoutFacts.

(** C5: for every section list, [displaySectionsList] sends one message
    whose keyboard holds, before the closing row, one button for each section
    other than "МКБ": the sections "Лечение" and "Диагностика" come before all
    the others, each group keeps the order it had in the list, and the buttons
    stand two per row.  The list МКБ, Лечение, Диагностика, Прочее is shown as
    Лечение and Диагностика on one row and Прочее on the next. *)
Theorem C5_displaySectionsList_layout :
  (forall (w : World) (diagnosis : string) (sections : list string),
      exists w' rows,
        displaySectionsList diagnosis sections w = (Returned tt, w') /\
        outbox w' =
          outbox w ++
          [mkMessage ("*" +:+ diagnosis +:+ "*" +:+ nl +:+ nl +:+ "Доступные разделы:")
                     (rows ++ [[newDiagnosisButton "Ввести новый диагноз"]])] /\
        rows = inPairs (concat rows) /\
        List.map label (concat rows) =
          List.filter isPriority (List.filter isShown sections) ++
          List.filter (fun s => negb (isPriority s)) (List.filter isShown sections) /\
        ~ In "МКБ" (List.map label (concat rows)) /\
        Forall (fun b => data b = "select_section:" +:+ tokenOf w (label b)) (concat rows)) /\
  (forall (w : World) (diagnosis : string),
      exists w' rows,
        displaySectionsList diagnosis ["МКБ"; "Лечение"; "Диагностика"; "Прочее"] w =
          (Returned tt, w') /\
        outbox w' =
          outbox w ++
          [mkMessage ("*" +:+ diagnosis +:+ "*" +:+ nl +:+ nl +:+ "Доступные разделы:")
                     (rows ++ [[newDiagnosisButton "Ввести новый диагноз"]])] /\
        List.map (List.map label) rows = [["Лечение"; "Диагностика"]; ["Прочее"]]).
Proof.
  assert (General : forall (w : World) (diagnosis : string) (sections : list string),
    exists w',
      displaySectionsList diagnosis sections w = (Returned tt, w') /\
      outbox w' =
        outbox w ++
        [mkMessage ("*" +:+ diagnosis +:+ "*" +:+ nl +:+ nl +:+ "Доступные разделы:")
           (inPairs (List.map (fun s => mkButton s ("select_section:" +:+ tokenOf w s))
                              (correctSections sections))
            ++ [[newDiagnosisButton "Ввести новый диагноз"]])]).
  { intros w diagnosis sections. unfold displaySectionsList, bind at 1.
    rewrite ControllerFacts.mapAll_sectionButton.
    rewrite LayoutFacts.pairRows_inPairs.
    match goal with |- context [replyAndSave ?t ?r ?w0] =>
      destruct (ControllerFacts.replyAndSave_frame t r w0) as (w' & Heq & _ & Hout & _) end.
    exists w'. split; [exact Heq|]. rewrite Hout.
    destruct (ControllerFacts.storeAll_frame KSection (correctSections sections) w)
      as (_ & -> & _). reflexivity. }
  split.
  - intros w diagnosis sections.
    destruct (General w diagnosis sections) as (w' & Heq & Hout).
    exists w', (inPairs (List.map (fun s => mkButton s ("select_section:" +:+ tokenOf w s))
                                  (correctSections sections))).
    rewrite LayoutFacts.concat_inPairs.
    assert (Hlabels :
      List.map label (List.map (fun s => mkButton s ("select_section:" +:+ tokenOf w s))
                               (correctSections sections)) = correctSections sections).
    { rewrite List.map_map. cbn. apply List.map_id. }
    repeat split; try assumption.
    + rewrite Hlabels. apply LayoutFacts.correctSections_spec.
    + rewrite Hlabels, LayoutFacts.correctSections_spec. intros Hin.
      apply in_app_or in Hin as [Hin|Hin];
        apply filter_In in Hin as [Hin _]; apply filter_In in Hin as [_ Hin];
        discriminate Hin.
    + apply Forall_forall. intros b Hb. apply list_elem_of_In in Hb.
      apply in_map_iff in Hb as (s & <- & _). reflexivity.
  - intros w diagnosis.
    destruct (General w diagnosis ["МКБ"; "Лечение"; "Диагностика"; "Прочее"])
      as (w' & Heq & Hout).
    eexists w', _. split; [exact Heq|]. split; [exact Hout|]. reflexivity.
Qed.

(** C1 (the code departs from the claim): on the candidates A and B the
    controller shows a button for A only.  The filter of [showDiagnosisOptions]
    keeps the first candidate and its repetitions, whatever the list. *)
Theorem C1_only_first_candidate_gets_a_button :
  let remote := mkRemote (fun _ => Some ["A"; "B"]) (fun _ => None)
                         (fun _ _ => None) (fun _ => false) in
  let w := mkWorld (SessionManager.create (mkDisk None [])) (Some 7)
                   (Some freshState) [] [] [] 1 in
  List.map keyboard (outbox (snd (handleDiagnosisInput remote "A" w))) =
    [ [];
      [ [mkButton "A" "select_diagnosis:559aead08264d5795d3909718cdd05ab"];
        [newDiagnosisButton "Ввести новый диагноз"] ] ] /\
  forall d l, correctDiagnoses (d :: l) = d :: List.filter (String.eqb d) l.
Proof.
  cbv zeta. split.
  - vm_compute. reflexivity.
  - apply LayoutFacts.correctDiagnoses_cons.
Qed.

(** C3 (the code departs from the claim): with a bot token and no API base
    URL in the environment the module prints nothing, exits nowhere, and
    constructs and launches the bot against "http://localhost"; the check of the
    API base URL never fires.  A missing bot token is fatal. *)
Theorem C3_missing_api_url_is_not_fatal :
  Startup.main (Startup.mkEnv (Some "123456:token") None) =
    ([], Startup.Launched "123456:token" "http://localhost") /\
  (forall env,
      fst (Startup.main env) <> ["Please set API_BASE_URL environment variable"]) /\
  (forall url,
      Startup.main (Startup.mkEnv None url) =
        (["Please set BOT_TOKEN environment variable"], Startup.Exit 1)).
Proof.
  split; [reflexivity|]. split.
  - intros [[[|c t]|] [[|c' u]|]]; cbn; discriminate.
  - intros url. reflexivity.
Qed.

(** C10: when the event carries no usable user id, or no user state is
    attached, [storeCallbackMapping] stores nothing, leaves the world as it is
    and returns the empty string, and the buttons built from it carry the bare
    prefixes "select_diagnosis:" and "select_section:". *)
Theorem C10_no_user_no_mapping (w : World) (originalValue : string) (type : kind) :
  userIdOf w = None \/ userState w = None ->
  storeCallbackMapping originalValue type w = (Returned "", w) /\
  diagnosisButton originalValue w =
    (Returned [mkButton originalValue "select_diagnosis:"], w) /\
  sectionButton originalValue w =
    (Returned (mkButton originalValue "select_section:"), w).
Proof.
  intros H.
  assert (Hstore : forall k, storeCallbackMapping originalValue k w = (Returned "", w)).
  { intros k. unfold storeCallbackMapping, bind, get.
    destruct H as [-> | ->]; [reflexivity|]. destruct (userIdOf w); reflexivity. }
  split; [apply Hstore|]. split.
  - unfold diagnosisButton, bind. rewrite Hstore. reflexivity.
  - unfold sectionButton, bind. rewrite Hstore. reflexivity.
Qed.

Lemma C10_no_user_no_mapping_witness :
  let w := mkWorld (SessionManager.create (mkDisk None [])) None None [] [] [] 1 in
  (userIdOf w = None \/ userState w = None) /\
  storeCallbackMapping "Грипп" KDiagnosis w = (Returned "", w) /\
  diagnosisButton "Грипп" w = (Returned [mkButton "Грипп" "select_diagnosis:"], w) /\
  sectionButton "Грипп" w = (Returned (mkButton "Грипп" "select_section:"), w).
Proof.
  cbv zeta. split.
  - left. reflexivity.
  - apply C10_no_user_no_mapping. left. reflexivity.
Defined.

Module HandlerFacts.

(** The deletion loop of [clearPreviousMessages] returns whatever the
    transport does with each message; it touches nothing but the record of
    deletions and the console. *)
Lemma deleteLoop_frame remote l : forall w,
  exists w',
    forOf l (fun messageId =>
               try_catch (deleteMessage remote messageId)
                         (fun _ => consoleLog "Не удалось удалить сообщение")) w
      = (Returned tt, w') /\
    from_id w' = from_id w /\ userState w' = userState w /\
    outbox w' = outbox w /\ apiCalls w' = apiCalls w /\
    nextMessageId w' = nextMessageId w /\
    deleted w' = deleted w ++ l /\
    SessionManager.sessionData (manager w') = SessionManager.sessionData (manager w) /\
    SessionManager.disk (manager w') = SessionManager.disk (manager w).
Proof.
  induction l as [|messageId l IH]; intros w.
  - exists w. cbn. rewrite app_nil_r. repeat split.
  - cbn [forOf]. unfold bind at 1, try_catch at 1, deleteMessage at 1.
    destruct (deleteFails remote messageId).
    + cbn [consoleLog].
      match goal with |- context [forOf l ?body ?w0] =>
        destruct (IH w0) as (w' & Heq & a & b & c & d & e & f & g & h) end.
      exists w'. rewrite Heq. cbn in *. rewrite f, <- app_assoc.
      repeat split; assumption.
    + match goal with |- context [forOf l ?body ?w0] =>
        destruct (IH w0) as (w' & Heq & a & b & c & d & e & f & g & h) end.
      exists w'. rewrite Heq. cbn in *. rewrite f, <- app_assoc.
      repeat split; assumption.
Qed.

(** What [clearPreviousMessages] does when there is something to clear. *)
Lemma clearPreviousMessages_clears remote w userId first others :
  userIdOf w = Some userId ->
  ctxMessageIds w = Some (first :: others) ->
  exists w1 w',
    clearPreviousMessages remote w = (Returned tt, w') /\
    SessionManager.sessionData (manager w1) = SessionManager.sessionData (manager w) /\
    SessionManager.disk (manager w1) = SessionManager.disk (manager w) /\
    manager w' =
      SessionManager.updateUserState userId
        (mkPartial None None (Some (Some [])) (Some (ctxCallbackMap w)) None)
        (manager w1) /\
    userState w' = set_messageIds (Some []) <$> userState w /\
    from_id w' = from_id w /\ outbox w' = outbox w /\ apiCalls w' = apiCalls w /\
    nextMessageId w' = nextMessageId w /\
    deleted w' = deleted w ++ first :: others.
Proof.
  intros Hid Hids. unfold clearPreviousMessages, bind at 1, get at 1.
  rewrite Hid, Hids. unfold try_catch at 1, bind at 1.
  destruct (deleteLoop_frame remote (first :: others) w)
    as (w1 & Heq & a & b & c & d & e & f & g & h).
  rewrite Heq. exists w1. eexists. split; [reflexivity|]. cbn.
  unfold ctxCallbackMap. rewrite b.
  repeat split; assumption.
Qed.

(** What [clearPreviousMessages] does otherwise. *)
Lemma clearPreviousMessages_nothing remote w :
  userIdOf w = None \/ hasMessageIds (ctxMessageIds w) = false ->
  clearPreviousMessages remote w = (Returned tt, w).
Proof.
  intros H. unfold clearPreviousMessages, bind at 1, get at 1.
  destruct (userIdOf w); [|reflexivity].
  destruct H as [H|H]; [discriminate|].
  destruct (ctxMessageIds w) as [[|? ?]|]; try reflexivity. discriminate.
Qed.

Lemma storedDiagnosis_updateUserState userId update m w w' :
  manager w' = SessionManager.updateUserState userId update m ->
  SessionManager.sessionData m = SessionManager.sessionData (manager w) ->
  p_diagnosis update = None ->
  storedDiagnosis userId w' = storedDiagnosis userId w.
Proof.
  intros Hm Hdata Hupd. unfold storedDiagnosis. rewrite Hm.
  rewrite SessionManagerFacts.getUserState_updateUserState.
  unfold SessionManager.getUserState. rewrite Hdata.
  cbn. rewrite Hupd. cbn.
  destruct (SessionManager.sessionData (manager w) !! userId); reflexivity.
Qed.

(** [clearPreviousMessages] always returns; it sends nothing, asks nothing
    of the API, and changes neither the callback map of the context nor the
    diagnosis stored for the user. *)
Lemma clearPreviousMessages_frame remote w :
  exists w',
    clearPreviousMessages remote w = (Returned tt, w') /\
    from_id w' = from_id w /\ outbox w' = outbox w /\ apiCalls w' = apiCalls w /\
    nextMessageId w' = nextMessageId w /\
    ctxCallbackMap w' = ctxCallbackMap w /\
    (userState w' = None <-> userState w = None) /\
    currentDiagnosis w' = currentDiagnosis w.
Proof.
  destruct (userIdOf w) as [userId|] eqn:Hid.
  - destruct (ctxMessageIds w) as [[|first others]|] eqn:Hids.
    + exists w. rewrite clearPreviousMessages_nothing by (right; rewrite Hids; reflexivity).
      repeat split; auto.
    + destruct (clearPreviousMessages_clears remote w userId first others Hid Hids)
        as (w1 & w' & Heq & Hdata & Hdisk & Hm & Hst & a & b & c & d & e).
      exists w'. split; [exact Heq|].
      repeat split; try assumption.
      * unfold ctxCallbackMap. rewrite Hst. destruct (userState w); reflexivity.
      * rewrite Hst. destruct (userState w); cbn; congruence.
      * rewrite Hst. destruct (userState w); cbn; congruence.
      * unfold currentDiagnosis. rewrite (ControllerFacts.userIdOf_from_id _ _ a), Hid.
        eapply storedDiagnosis_updateUserState; [exact Hm|exact Hdata|reflexivity].
    + exists w. rewrite clearPreviousMessages_nothing by (right; rewrite Hids; reflexivity).
      repeat split; auto.
  - exists w. rewrite clearPreviousMessages_nothing by (left; exact Hid).
    repeat split; auto.
Qed.

Lemma resolveCallbackMapping_eq callbackData w :
  resolveCallbackMapping callbackData w = (Returned (resolved w callbackData), w).
Proof.
  unfold resolveCallbackMapping, resolved, lookupCallback, bind, get, ret.
  destruct (userIdOf w); [|reflexivity].
  destruct (ctxCallbackMap w) as [cb|]; [|reflexivity].
  destruct (cb_get cb callbackData); reflexivity.
Qed.

Lemma resolved_frame w w' key :
  from_id w' = from_id w -> ctxCallbackMap w' = ctxCallbackMap w ->
  resolved w' key = resolved w key.
Proof.
  intros Hid Hcb. unfold resolved, lookupCallback.
  rewrite (ControllerFacts.userIdOf_from_id _ _ Hid), Hcb. reflexivity.
Qed.

End HandlerFacts.

Module SectionFacts.
Import HandlerFacts ControllerFacts.

Ltac reply_step :=
  match goal with
  | |- context [replyAndSave ?t ?r ?w0] =>
      let w' := fresh "w" in
      let Heq := fresh "Heq" in
      destruct (replyAndSave_frame t r w0) as (w' & Heq & ? & ? & ? & ? & ?);
      rewrite Heq
  end.

(** The three ways [processSectionSelection] ends for a user with an id. *)
Lemma processSectionSelection_cases remote sectionTitle w userId :
  userIdOf w = Some userId ->
  exists w',
    processSectionSelection remote sectionTitle w = (Returned tt, w') /\
    match storedDiagnosis userId w with
    | None =>
        apiCalls w' = apiCalls w /\
        outbox w' =
          outbox w ++
          [mkMessage "Информация не найдена. Пожалуйста, попробуйте снова."
                     [[newDiagnosisButton "Ввести новый диагноз"]]]
    | Some diagnosis =>
        apiCalls w' = apiCalls w ++ [GetSection diagnosis sectionTitle] /\
        outbox w' =
          outbox w ++
          [mkMessage ("*" +:+ sectionTitle +:+ "*" +:+ nl +:+ nl +:+ "Загружаю содержимое...") [];
           match sectionContent remote diagnosis sectionTitle with
           | Some content =>
               mkMessage
                 ("*" +:+ sectionTitle +:+ "*" +:+ nl +:+ nl +:+ correctContent content)
                 [ [mkButton "Назад к разделам" "back_to_sections"];
                   [newDiagnosisButton "Ввести новый диагноз"] ]
           | None =>
               mkMessage "Произошла ошибка при загрузке информации. Попробуйте позже."
                         [[newDiagnosisButton "Ввести новый диагноз"]]
           end]
    end.
Proof.
  intros Hid. unfold processSectionSelection, bind at 1, get at 1. rewrite Hid.
  destruct (storedDiagnosis userId w) as [diagnosis|].
  - unfold bind at 1. cbn [onManager]. unfold bind at 1. reply_step.
    unfold try_catch, getSection, bind at 1, bind at 1. cbn [recordCall].
    destruct (sectionContent remote diagnosis sectionTitle) as [content|];
      cbn [fromOption ret throw].
    + reply_step. eexists. split; [reflexivity|].
      cbn in *. split; [congruence|].
      repeat match goal with H : outbox _ = _ |- _ => rewrite H end.
      rewrite <- app_assoc. reflexivity.
    + unfold bind at 1. cbn [consoleLog]. unfold sendLoadError. reply_step.
      eexists. split; [reflexivity|].
      cbn in *. split; [congruence|].
      repeat match goal with H : outbox _ = _ |- _ => rewrite H end.
      rewrite <- app_assoc. reflexivity.
  - unfold sendErrorMessage. reply_step. eexists. split; [reflexivity|].
    split; assumption.
Qed.

(** The three ways [handleSectionSelection] ends. *)
Lemma handleSectionSelection_cases remote hash w :
  exists w',
    handleSectionSelection remote hash w = (Returned tt, w') /\
    match resolved w ("section:" +:+ hash), currentDiagnosis w with
    | None, _ =>
        apiCalls w' = apiCalls w /\
        outbox w' =
          outbox w ++
          [mkMessage "Раздел не найден. Пожалуйста, попробуйте снова."
                     [[newDiagnosisButton "Ввести новый диагноз"]]]
    | Some _, None =>
        apiCalls w' = apiCalls w /\
        outbox w' =
          outbox w ++
          [mkMessage "Информация не найдена. Пожалуйста, попробуйте снова."
                     [[newDiagnosisButton "Ввести новый диагноз"]]]
    | Some sectionTitle, Some diagnosis =>
        apiCalls w' = apiCalls w ++ [GetSection diagnosis sectionTitle] /\
        outbox w' =
          outbox w ++
          [mkMessage ("*" +:+ sectionTitle +:+ "*" +:+ nl +:+ nl +:+ "Загружаю содержимое...") [];
           match sectionContent remote diagnosis sectionTitle with
           | Some content =>
               mkMessage
                 ("*" +:+ sectionTitle +:+ "*" +:+ nl +:+ nl +:+ correctContent content)
                 [ [mkButton "Назад к разделам" "back_to_sections"];
                   [newDiagnosisButton "Ввести новый диагноз"] ]
           | None =>
               mkMessage "Произошла ошибка при загрузке информации. Попробуйте позже."
                         [[newDiagnosisButton "Ввести новый диагноз"]]
           end]
    end.
Proof.
  unfold handleSectionSelection, bind at 1.
  destruct (clearPreviousMessages_frame remote w)
    as (w1 & Heq & Hid & Hout & Hcalls & Hnext & Hcb & Hst & Hdiag).
  rewrite Heq. unfold bind at 1. rewrite resolveCallbackMapping_eq.
  rewrite (resolved_frame w w1 _ Hid Hcb). rewrite <- Hdiag, <- Hcalls, <- Hout.
  destruct (resolved w ("section:" +:+ hash)) as [sectionTitle|] eqn:Hres.
  - assert (Huser : exists userId, userIdOf w1 = Some userId).
    { rewrite (userIdOf_from_id _ _ Hid). unfold resolved in Hres.
      destruct (userIdOf w) as [userId|]; [eauto|discriminate]. }
    destruct Huser as [userId Huser].
    destruct (processSectionSelection_cases remote sectionTitle w1 userId Huser)
      as (w' & Heq' & Hcases).
    exists w'. split; [exact Heq'|].
    unfold currentDiagnosis. rewrite Huser. exact Hcases.
  - unfold sendErrorMessage. reply_step. eexists. split; [reflexivity|].
    destruct (currentDiagnosis w1); split; assumption.
Qed.

End SectionFacts.

(** C6: for every user state attached to an event that carries a user id,
    [clearPreviousMessages] returns, whichever deletions the transport refused,
    and leaves the state without message identifiers: a list that was there is
    empty afterwards.  When there was something to clear, every identifier had
    its deletion attempted and the stored state holds the empty list too;
    otherwise nothing changes. *)
Theorem C6_clearPreviousMessages_empties_messageIds
    (remote : Remote) (w : World) (userId : Z) (st : UserState) :
  userIdOf w = Some userId ->
  userState w = Some st ->
  exists w',
    clearPreviousMessages remote w = (Returned tt, w') /\
    hasMessageIds (ctxMessageIds w') = false /\
    ctxMessageIds w' = match messageIds st with Some _ => Some [] | None => None end /\
    if hasMessageIds (messageIds st)
    then messageIds <$> SessionManager.getUserState userId (manager w') = Some (Some []) /\
         deleted w' = deleted w ++ default [] (messageIds st)
    else w' = w.
Proof.
  intros Hid Hst.
  assert (Hctx : ctxMessageIds w = messageIds st).
  { unfold ctxMessageIds. rewrite Hst. reflexivity. }
  destruct (messageIds st) as [[|first others]|] eqn:Hids.
  - exists w. rewrite HandlerFacts.clearPreviousMessages_nothing
      by (right; rewrite Hctx; reflexivity).
    rewrite Hctx. repeat split.
  - destruct (HandlerFacts.clearPreviousMessages_clears remote w userId first others Hid Hctx)
      as (w1 & w' & Heq & _ & _ & Hm & Hst' & _ & _ & _ & _ & Hdel).
    exists w'. split; [exact Heq|].
    assert (Hctx' : ctxMessageIds w' = Some []).
    { unfold ctxMessageIds. rewrite Hst', Hst. reflexivity. }
    rewrite Hctx'. cbn. repeat split.
    + rewrite Hm, SessionManagerFacts.getUserState_updateUserState. reflexivity.
    + exact Hdel.
  - exists w. rewrite HandlerFacts.clearPreviousMessages_nothing
      by (right; rewrite Hctx; reflexivity).
    rewrite Hctx. repeat split.
Qed.

Lemma C6_clearPreviousMessages_empties_messageIds_witness :
  let remote := mkRemote (fun _ => None) (fun _ => None) (fun _ _ => None)
                         (fun messageId => messageId =? 11) in
  let st := mkUserState None None (Some [10; 11; 12]) (Some (CbObject ∅)) None in
  let w := mkWorld (SessionManager.create (mkDisk None [false])) (Some 7) (Some st)
                   [] [] [] 13 in
  userIdOf w = Some 7 /\
  userState w = Some st /\
  exists w',
    clearPreviousMessages remote w = (Returned tt, w') /\
    hasMessageIds (ctxMessageIds w') = false /\
    ctxMessageIds w' = match messageIds st with Some _ => Some [] | None => None end /\
    if hasMessageIds (messageIds st)
    then messageIds <$> SessionManager.getUserState 7 (manager w') = Some (Some []) /\
         deleted w' = deleted w ++ default [] (messageIds st)
    else w' = w.
Proof.
  cbv zeta. split; [reflexivity|]. split; [reflexivity|].
  apply C6_clearPreviousMessages_empties_messageIds; reflexivity.
Defined.

(** C8: when the key [section:<hash>] is absent from the callback map of the
    event's user state, [handleSectionSelection] returns without throwing, its
    one reply is the fixed "not found" message, which is not the message of an
    API failure, and the content API is not called. *)
Theorem C8_unknown_section_hash_is_not_found
    (remote : Remote) (w : World) (hash : string) :
  lookupCallback w ("section:" +:+ hash) = None ->
  exists w',
    handleSectionSelection remote hash w = (Returned tt, w') /\
    outbox w' =
      outbox w ++
      [mkMessage "Раздел не найден. Пожалуйста, попробуйте снова."
                 [[newDiagnosisButton "Ввести новый диагноз"]]] /\
    apiCalls w' = apiCalls w /\
    "Раздел не найден. Пожалуйста, попробуйте снова." <>
      "Произошла ошибка при загрузке информации. Попробуйте позже.".
Proof.
  intros Habsent.
  destruct (SectionFacts.handleSectionSelection_cases remote hash w) as (w' & Heq & Hcases).
  assert (Hres : resolved w ("section:" +:+ hash) = None).
  { unfold resolved. rewrite Habsent. destruct (userIdOf w); reflexivity. }
  rewrite Hres in Hcases. destruct Hcases as [Hcalls Hout].
  exists w'. repeat split; try assumption. discriminate.
Qed.

Lemma C8_unknown_section_hash_is_not_found_witness :
  let remote := mkRemote (fun _ => None) (fun _ => None) (fun _ _ => Some "text")
                         (fun _ => false) in
  let st := mkUserState (Some "Грипп") (Some ["Лечение"]) (Some [])
                        (Some (CbObject ∅)) None in
  let w := mkWorld (SessionManager.create (mkDisk None [])) (Some 7) (Some st)
                   [] [] [] 1 in
  lookupCallback w ("section:" +:+ "0123456789abcdef0123456789abcdef") = None /\
  exists w',
    handleSectionSelection remote "0123456789abcdef0123456789abcdef" w = (Returned tt, w') /\
    outbox w' =
      outbox w ++
      [mkMessage "Раздел не найден. Пожалуйста, попробуйте снова."
                 [[newDiagnosisButton "Ввести новый диагноз"]]] /\
    apiCalls w' = apiCalls w /\
    "Раздел не найден. Пожалуйста, попробуйте снова." <>
      "Произошла ошибка при загрузке информации. Попробуйте позже.".
Proof.
  cbv zeta. split; [reflexivity|].
  apply C8_unknown_section_hash_is_not_found. reflexivity.
Defined.

(** C2, amended: on [select_section:<hash>] the controller asks the API for
    the section's content exactly when the hash resolves, under the key
    [section:<hash>] of the user's callback map, to a title and a diagnosis is
    stored for the user; it then sends a loading notice and the content, or the
    fixed failure message when the API call fails.  When the hash does not
    resolve, or no diagnosis is stored, it sends one fixed error message and
    asks nothing of the API.  The user's current sections play no part. *)
Theorem C2_section_selection_preconditions
    (remote : Remote) (w : World) (hash : string) :
  exists w',
    handleSectionSelection remote hash w = (Returned tt, w') /\
    match resolved w ("section:" +:+ hash), currentDiagnosis w with
    | Some sectionTitle, Some diagnosis =>
        apiCalls w' = apiCalls w ++ [GetSection diagnosis sectionTitle] /\
        outbox w' =
          outbox w ++
          [mkMessage ("*" +:+ sectionTitle +:+ "*" +:+ nl +:+ nl +:+ "Загружаю содержимое...") [];
           match sectionContent remote diagnosis sectionTitle with
           | Some content =>
               mkMessage
                 ("*" +:+ sectionTitle +:+ "*" +:+ nl +:+ nl +:+ correctContent content)
                 [ [mkButton "Назад к разделам" "back_to_sections"];
                   [newDiagnosisButton "Ввести новый диагноз"] ]
           | None =>
               mkMessage "Произошла ошибка при загрузке информации. Попробуйте позже."
                         [[newDiagnosisButton "Ввести новый диагноз"]]
           end]
    | Some _, None =>
        apiCalls w' = apiCalls w /\
        outbox w' =
          outbox w ++
          [mkMessage "Информация не найдена. Пожалуйста, попробуйте снова."
                     [[newDiagnosisButton "Ввести новый диагноз"]]]
    | None, _ =>
        apiCalls w' = apiCalls w /\
        outbox w' =
          outbox w ++
          [mkMessage "Раздел не найден. Пожалуйста, попробуйте снова."
                     [[newDiagnosisButton "Ввести новый диагноз"]]]
    end.
Proof.
  destruct (SectionFacts.handleSectionSelection_cases remote hash w) as (w' & Heq & Hcases).
  exists w'. split; [exact Heq|].
  destruct (resolved w ("section:" +:+ hash)), (currentDiagnosis w); exact Hcases.
Qed.

(** C2, as stated, fails: after user 7 has opened "Грипп", whose section is
    "Лечение", and then "Ангина", whose section is "Диагностика", the stored
    sections are those of "Ангина" and "Лечение" is not one of them; the button
    of "Лечение" still resolves, and pressing it fetches and displays the content
    of "Лечение" for "Ангина". *)
Lemma C2_counterexample :
  let w := afterTwoDiagnoses in
  let w' := snd (dispatch (handleSectionSelection clinic (generateHash "Лечение")) w) in
  (SessionManager.getUserState 7 (manager w) ≫= sections) = Some ["Диагностика"] /\
  ~ In "Лечение" ["Диагностика"] /\
  (SessionManager.getUserState 7 (manager w) ≫= diagnosis) = Some "Ангина" /\
  apiCalls w' = apiCalls w ++ [GetSection "Ангина" "Лечение"] /\
  outbox w' =
    outbox w ++
    [mkMessage ("*Лечение*" +:+ nl +:+ nl +:+ "Загружаю содержимое...") [];
     mkMessage ("*Лечение*" +:+ nl +:+ nl +:+ "Покой")
               [ [mkButton "Назад к разделам" "back_to_sections"];
                 [newDiagnosisButton "Ввести новый диагноз"] ]].
Proof.
  cbv zeta. split; [vm_compute; reflexivity|]. split.
  - intros [H|[]]. discriminate H.
  - split; [vm_compute; reflexivity|]. split; vm_compute; reflexivity.
Qed.

Module MappingFacts.
Import ControllerFacts HandlerFacts.

Lemma cb_get_cb_set cb key value key' :
  cb_get (cb_set cb key value) key' =
  if String.eqb key key' then Some value else cb_get cb key'.
Proof.
  destruct (String.eqb_spec key key') as [->|Hne]; destruct cb; cbn.
  - apply lookup_insert_eq.
  - apply lookup_insert_eq.
  - apply lookup_insert_ne. exact Hne.
  - apply lookup_insert_ne. exact Hne.
Qed.

Lemma key_eqb (prefix a b : string) :
  String.eqb (prefix +:+ a) (prefix +:+ b) = String.eqb a b.
Proof.
  induction prefix as [|c prefix IH]; [reflexivity|].
  change (String c prefix +:+ a) with (String c (prefix +:+ a)).
  change (String c prefix +:+ b) with (String c (prefix +:+ b)).
  cbn [String.eqb]. rewrite Ascii.eqb_refl. exact IH.
Qed.

Lemma userIdOf_Some w userId : userIdOf w = Some userId -> from_id w = Some userId.
Proof.
  unfold userIdOf. destruct (from_id w) as [id|]; [|discriminate].
  destruct (JS.truthy_number id); [|discriminate]. congruence.
Qed.

(** The world [storeCallbackMapping] leaves for a user with a state: the
    entry is written into the callback map of the context, and that map is
    handed to the store. *)
Lemma storeCallbackMapping_state v k w userId st :
  userIdOf w = Some userId ->
  userState w = Some st ->
  let cb := cb_set (default (CbObject ∅) (callbackMap st))
                   (kindName k +:+ ":" +:+ generateHash v) v in
  let w' := snd (storeCallbackMapping v k w) in
  userState w' = Some (set_callbackMap (Some cb) st) /\
  manager w' =
    SessionManager.updateUserState userId
      (mkPartial None None None (Some (Some cb)) None) (manager w) /\
  from_id w' = from_id w.
Proof.
  intros Hid Hst. unfold storeCallbackMapping, bind, get. rewrite Hid, Hst. cbn.
  rewrite Hst. repeat split.
Qed.

End MappingFacts.

Lemma C7_session_file_round_trip_witness :
  let m := SessionManager.create (mkDisk None [true; false]) in
  let ops :=
    [ SessionManager.UpdateUserState 7
        (mkPartial None None (Some (Some [1]))
           (Some (Some (CbObject {[ "diagnosis:592bc3ad04c60638462f4dc30f68998a" := "Грипп" ]})))
           None);
      SessionManager.SetUserState 8 (mkUserState (Some "Ангина") None (Some []) None None);
      SessionManager.DeleteUserState 9;
      SessionManager.UpdateUserState 8
        (mkPartial None (Some (Some ["Диагностика"])) None None None) ] in
  SessionSpec.canonicalStore (SessionManager.sessionData m) /\
  Forall SessionSpec.canonicalMutation ops /\
  let before := SessionManager.run ops m in
  SessionSpec.nextWriteOk (SessionManager.disk before) = true /\
  let restarted := SessionManager.create (SessionManager.disk (SessionManager.saveSessions before)) in
  SessionManager.sessionData restarted = SessionManager.sessionData before /\
  forall userId,
    callbackMap <$> SessionManager.getUserState userId restarted =
    callbackMap <$> SessionManager.getUserState userId before.
Proof.
  cbv zeta.
  assert (Hm : SessionSpec.canonicalStore
                 (SessionManager.sessionData (SessionManager.create (mkDisk None [true; false]))))
    by exact (map_Forall_empty _).
  split; [exact Hm|].
  assert (Hops : Forall SessionSpec.canonicalMutation
    [ SessionManager.UpdateUserState 7
        (mkPartial None None (Some (Some [1]))
           (Some (Some (CbObject {[ "diagnosis:592bc3ad04c60638462f4dc30f68998a" := "Грипп" ]})))
           None);
      SessionManager.SetUserState 8 (mkUserState (Some "Ангина") None (Some []) None None);
      SessionManager.DeleteUserState 9;
      SessionManager.UpdateUserState 8
        (mkPartial None (Some (Some ["Диагностика"])) None None None) ])
    by (repeat constructor).
  split; [exact Hops|].
  assert (Hok : SessionSpec.nextWriteOk
            (SessionManager.disk
               (SessionManager.run
                  [ SessionManager.UpdateUserState 7
                      (mkPartial None None (Some (Some [1]))
                         (Some (Some (CbObject {[ "diagnosis:592bc3ad04c60638462f4dc30f68998a" := "Грипп" ]})))
                         None);
                    SessionManager.SetUserState 8 (mkUserState (Some "Ангина") None (Some []) None None);
                    SessionManager.DeleteUserState 9;
                    SessionManager.UpdateUserState 8
                      (mkPartial None (Some (Some ["Диагностика"])) None None None) ]
                  (SessionManager.create (mkDisk None [true; false])))) = true)
    by (vm_compute; reflexivity).
  split; [exact Hok|].
  exact (C7_session_file_round_trip _ _ Hm Hops Hok).
Defined.

(** ** Further properties of the store, the hash index and the controller *)

Module RestartFacts.
Import SessionManager SessionSpec.

Lemma synced_saveSessions data m :
  canonicalStore data ->
  writes (disk m) = [] ->
  synced (saveSessions (mk data (disk m) (console m))).
Proof.
  intros Hdata Hwrites. unfold synced.
  assert (Hok : nextWriteOk (disk (mk data (disk m) (console m))) = true)
    by (unfold nextWriteOk; cbn; rewrite Hwrites; reflexivity).
  rewrite SessionManagerFacts.create_after_save by exact Hok.
  rewrite !SessionManagerFacts.sessionData_saveSessions. cbn [sessionData].
  split; [apply SessionManagerFacts.revive_serializable_store; exact Hdata|].
  split; [exact Hdata|].
  unfold saveSessions. cbn. rewrite Hwrites. reflexivity.
Qed.

Lemma synced_apply op m :
  synced m -> canonicalMutation op -> synced (apply op m).
Proof.
  intros (Hload & Hcanon & Hwrites) Hop.
  pose proof (SessionManagerFacts.canonicalStore_apply op m Hcanon Hop) as Hnext.
  destruct op as [uid st|uid update|uid|]; cbn [apply] in *.
  - unfold setUserState in *. rewrite SessionManagerFacts.sessionData_saveSessions in Hnext.
    apply synced_saveSessions; assumption.
  - rewrite SessionManagerFacts.updateUserState_unfold in *.
    rewrite SessionManagerFacts.sessionData_saveSessions in Hnext.
    apply synced_saveSessions; assumption.
  - unfold deleteUserState in *. destruct (sessionData m !! uid).
    + rewrite SessionManagerFacts.sessionData_saveSessions in Hnext.
      apply synced_saveSessions; assumption.
    + repeat split; assumption.
  - unfold clearAllSessions in *.
    rewrite SessionManagerFacts.sessionData_saveSessions in Hnext.
    apply synced_saveSessions; assumption.
Qed.

Lemma synced_run ops : forall m,
  synced m -> Forall canonicalMutation ops -> synced (run ops m).
Proof.
  induction ops as [|op ops IH]; intros m Hm Hops; [exact Hm|].
  inversion Hops; subst. cbn. apply IH; [|assumption].
  apply synced_apply; assumption.
Qed.

Lemma synced_create d :
  canonicalFile d -> writes d = [] -> synced (create d).
Proof.
  unfold canonicalFile, synced, create, loadSessions. cbn.
  destruct (file d) as [[doc|]|] eqn:E; cbn; rewrite ?E; cbn; intros Hfile Hwrites.
  - split; [reflexivity|]. split; [|exact Hwrites].
    intros uid st Hst. rewrite lookup_fmap in Hst.
    destruct (doc !! uid) as [fst|] eqn:Hdoc; [|discriminate].
    cbn in Hst. injection Hst as <-. specialize (Hfile uid fst Hdoc). cbn in Hfile.
    unfold canonical. cbn. destruct (f_callbackMap fst) as [[?|?]|]; tauto.
  - contradiction.
  - split; [reflexivity|]. split; [apply map_Forall_empty|exact Hwrites].
Qed.

End RestartFacts.

(** X1.  A process started over a canonical session file (or none), whose writes
    all succeed, can be restarted after any sequence of mutations: the new
    process loads the store the old one held. *)
Theorem restart_after_mutations (d : Disk) (ops : list SessionManager.mutation) :
  canonicalFile d ->
  writes d = [] ->
  Forall SessionSpec.canonicalMutation ops ->
  let before := SessionManager.run ops (SessionManager.create d) in
  SessionManager.sessionData (SessionManager.create (SessionManager.disk before)) =
  SessionManager.sessionData before.
Proof.
  intros Hfile Hwrites Hops before.
  apply (RestartFacts.synced_run ops (SessionManager.create d)); [|exact Hops].
  apply RestartFacts.synced_create; assumption.
Qed.

Lemma restart_after_mutations_witness :
  let d := mkDisk None [] in
  let ops :=
    [ SessionManager.UpdateUserState 7
        (mkPartial (Some (Some "Грипп")) None (Some (Some [3; 4])) None None);
      SessionManager.DeleteUserState 8;
      SessionManager.SetUserState 9 (mkUserState None None (Some []) (Some (CbObject ∅)) None) ] in
  canonicalFile d /\
  writes d = [] /\
  Forall SessionSpec.canonicalMutation ops /\
  let before := SessionManager.run ops (SessionManager.create d) in
  SessionManager.sessionData (SessionManager.create (SessionManager.disk before)) =
  SessionManager.sessionData before.
Proof.
  cbv zeta.
  assert (Hops : Forall SessionSpec.canonicalMutation
    [ SessionManager.UpdateUserState 7
        (mkPartial (Some (Some "Грипп")) None (Some (Some [3; 4])) None None);
      SessionManager.DeleteUserState 8;
      SessionManager.SetUserState 9 (mkUserState None None (Some []) (Some (CbObject ∅)) None) ])
    by (repeat constructor).
  split; [exact I|]. split; [reflexivity|]. split; [exact Hops|].
  exact (restart_after_mutations (mkDisk None []) _ I eq_refl Hops).
Defined.

Module TokenFacts.

Lemma length_append a b :
  String.length (a +:+ b) = (String.length a + String.length b)%nat.
Proof.
  induction a as [|c a IH]; [reflexivity|].
  change (String c a +:+ b) with (String c (a +:+ b)).
  cbn [String.length]. rewrite IH. reflexivity.
Qed.

Lemma allChars_append p a b :
  allChars p (a +:+ b) = allChars p a && allChars p b.
Proof.
  induction a as [|c a IH]; [reflexivity|].
  change (String c a +:+ b) with (String c (a +:+ b)).
  cbn [allChars]. rewrite IH. apply andb_assoc.
Qed.

Lemma length_substring_exact s : forall m,
  (m <= String.length s)%nat -> String.length (String.substring 0 m s) = m.
Proof.
  induction s as [|c s IH]; intros [|m] H; cbn in *; try reflexivity; try lia.
  rewrite IH by lia. reflexivity.
Qed.

Lemma allChars_substring p s : forall n m,
  allChars p s = true -> allChars p (String.substring n m s) = true.
Proof.
  induction s as [|c s IH]; intros [|n] [|m] H; cbn in *; try reflexivity;
    apply andb_true_iff in H as [Hc Hs].
  - rewrite Hc. apply (IH 0%nat m Hs).
  - apply (IH n 0%nat Hs).
  - apply (IH n (S m) Hs).
Qed.

Lemma hexdigit_isHexDigit n : isHexDigit (SHA256.hexdigit n) = true.
Proof.
  destruct n as [|p|p]; try reflexivity.
  do 4 (destruct p as [p|p|]; try reflexivity).
Qed.

Lemma hex32_shape x :
  String.length (SHA256.hex32 x) = 8%nat /\ allChars isHexDigit (SHA256.hex32 x) = true.
Proof.
  split; [reflexivity|].
  unfold SHA256.hex32. cbn [seq rev app List.map string_of_list_ascii allChars].
  rewrite !hexdigit_isHexDigit. reflexivity.
Qed.

Lemma sha256_hex_shape text :
  String.length (SHA256.sha256_hex text) = 64%nat /\
  allChars isHexDigit (SHA256.sha256_hex text) = true.
Proof.
  unfold SHA256.sha256_hex, SHA256.hex. split.
  - rewrite !length_append.
    repeat match goal with |- context [String.length (SHA256.hex32 ?x)] =>
      rewrite (proj1 (hex32_shape x)) end.
    reflexivity.
  - rewrite !allChars_append.
    repeat match goal with |- context [allChars isHexDigit (SHA256.hex32 ?x)] =>
      rewrite (proj2 (hex32_shape x)) end.
    reflexivity.
Qed.

End TokenFacts.

(** X2.  The token of every text is made of exactly 32 hexadecimal digits, and it
    is the first half of the SHA-256 digest of the text: "A" has the token that
    begins the digest 559aead0...8fdffd. *)
Theorem generateHash_is_32_hex_digits :
  (forall text,
      String.length (generateHash text) = 32%nat /\
      allChars isHexDigit (generateHash text) = true) /\
  generateHash "A" = "559aead08264d5795d3909718cdd05ab" /\
  SHA256.sha256_hex "abc" =
    "ba7816bf8f01cfea414140de5dae2223b00361a396177a9cb410ff61f20015ad".
Proof.
  split; [|split; vm_compute; reflexivity].
  intros text. destruct (TokenFacts.sha256_hex_shape text) as [Hlen Hhex].
  unfold generateHash. split.
  - apply TokenFacts.length_substring_exact. rewrite Hlen. repeat constructor.
  - apply TokenFacts.allChars_substring. exact Hhex.
Qed.

Module ContentFacts.

Lemma includes_cons c s t :
  includes (String c s) t = JS.startsWith t (String c s) || includes s t.
Proof. reflexivity. Qed.

Lemma includes_head s t : includes s t = false -> JS.startsWith t s = false.
Proof. destruct s; cbn [includes]; intros H; apply orb_false_iff in H; tauto. Qed.

Lemma marker_starts_with_hash s :
  JS.startsWith "###" s = true -> JS.startsWith "#" s = true.
Proof.
  destruct s as [|c s]; [discriminate|]. cbn [JS.startsWith].
  destruct (Ascii.eqb "#" c); [reflexivity|discriminate].
Qed.

Lemma no_hash_no_marker s : includes s "#" = false -> includes s "###" = false.
Proof.
  induction s as [|c s IH]; [reflexivity|].
  rewrite !includes_cons. intros H. apply orb_false_iff in H as [H1 H2].
  apply orb_false_iff. split; [|apply IH, H2].
  destruct (JS.startsWith "###" (String c s)) eqn:E; [|reflexivity].
  apply marker_starts_with_hash in E. congruence.
Qed.

(** A replacement whose pattern needs the marker changes nothing where the
    marker does not occur. *)
Lemma removeAll_without_marker matchLen s :
  (forall x, JS.startsWith "###" x = false -> matchLen x = None) ->
  includes s "###" = false ->
  removeAll matchLen O s = s.
Proof.
  intros Hm. induction s as [|c s IH]; [reflexivity|].
  rewrite includes_cons. intros H. apply orb_false_iff in H as [H1 H2].
  cbn [removeAll]. rewrite (Hm _ H1), IH by exact H2. reflexivity.
Qed.

Lemma headingMarkerSpace_needs_marker x :
  JS.startsWith "###" x = false -> headingMarkerSpace x = None.
Proof. intros H. unfold headingMarkerSpace. rewrite H. reflexivity. Qed.

Lemma headingMarker_needs_marker x :
  JS.startsWith "###" x = false -> headingMarker x = None.
Proof. intros H. unfold headingMarker. rewrite H. reflexivity. Qed.

(** Where the second replacement keeps the head of a string, no marker
    starts at the head of its result. *)
Lemma no_marker_at_head s :
  JS.startsWith "###" s = false ->
  JS.startsWith "###" (removeAll headingMarker O s) = false.
Proof.
  intros H.
  assert (Hkeep : forall c x,
    JS.startsWith "###" (String c x) = false ->
    removeAll headingMarker O (String c x) = String c (removeAll headingMarker O x)).
  { intros c x Hx. cbn [removeAll]. rewrite (headingMarker_needs_marker _ Hx). reflexivity. }
  destruct s as [|c1 s1]; [reflexivity|].
  rewrite (Hkeep _ _ H). cbn [JS.startsWith] in *.
  destruct (Ascii.eqb "#" c1); [|reflexivity].
  destruct s1 as [|c2 s2]; [reflexivity|].
  assert (H2 : JS.startsWith "###" (String c2 s2) = false).
  { cbn [JS.startsWith] in *. destruct (Ascii.eqb "#" c2); [|reflexivity].
    destruct s2 as [|c3 s3]; [reflexivity|]. cbn [JS.startsWith].
    destruct (Ascii.eqb "#" c3); [discriminate H|reflexivity]. }
  rewrite (Hkeep _ _ H2). cbn [JS.startsWith] in *.
  destruct (Ascii.eqb "#" c2); [|reflexivity].
  destruct s2 as [|c3 s3]; [reflexivity|].
  assert (H3 : JS.startsWith "###" (String c3 s3) = false).
  { cbn [JS.startsWith] in *. destruct (Ascii.eqb "#" c3); [discriminate H|reflexivity]. }
  rewrite (Hkeep _ _ H3). cbn [JS.startsWith] in *.
  destruct (Ascii.eqb "#" c3); [discriminate H|reflexivity].
Qed.

Lemma removeAll_headingMarker_clean s : forall skip,
  includes (removeAll headingMarker skip s) "###" = false.
Proof.
  induction s as [|c s IH]; intros skip; [destruct skip; reflexivity|].
  destruct skip as [|k]; cbn [removeAll]; [|apply IH].
  destruct (JS.startsWith "###" (String c s)) eqn:E.
  - unfold headingMarker. rewrite E. apply IH.
  - rewrite (headingMarker_needs_marker _ E), includes_cons.
    apply orb_false_iff. split; [|apply IH].
    pose proof (no_marker_at_head _ E) as H. cbn [removeAll] in H.
    rewrite (headingMarker_needs_marker _ E) in H. exact H.
Qed.

End ContentFacts.

(** X3.  Of the content of a section, as displayed: the marker "###" never
    occurs in it, whatever the content was; content in which the marker does
    not occur is displayed as it is; and a heading line "### " followed by a
    text without "#" is displayed as the text.  So "### Heading" and
    "###Heading" are both shown as "Heading". *)
Theorem correctContent_strips_heading_markers :
  (forall content, includes (correctContent content) "###" = false) /\
  (forall content, includes content "###" = false -> correctContent content = content) /\
  (forall heading,
      includes heading "#" = false -> correctContent ("### " +:+ heading) = heading) /\
  correctContent "###Heading" = "Heading".
Proof.
  split; [|split; [|split]].
  - intros content. apply ContentFacts.removeAll_headingMarker_clean.
  - intros content H. unfold correctContent.
    rewrite (ContentFacts.removeAll_without_marker headingMarkerSpace content
               ContentFacts.headingMarkerSpace_needs_marker H).
    apply ContentFacts.removeAll_without_marker;
      [apply ContentFacts.headingMarker_needs_marker|exact H].
  - intros heading H. apply ContentFacts.no_hash_no_marker in H. unfold correctContent.
    change ("### " +:+ heading) with (String "#" (String "#" (String "#" (String " " heading)))).
    assert (Hm : headingMarkerSpace (String "#" (String "#" (String "#" (String " " heading))))
                 = Some 4%nat) by reflexivity.
    cbn [removeAll]. rewrite Hm.
    rewrite (ContentFacts.removeAll_without_marker headingMarkerSpace heading
               ContentFacts.headingMarkerSpace_needs_marker H).
    apply ContentFacts.removeAll_without_marker;
      [apply ContentFacts.headingMarker_needs_marker|exact H].
  - vm_compute. reflexivity.
Qed.

(** X4.  At the start of an event of a user with a usable id, once the middleware
    has attached the stored state (or a fresh one) and [clearPreviousMessages]
    has run, neither the attached state nor the stored one has message
    identifiers left. *)
Theorem clearPreviousMessages_after_middleware
    (remote : Remote) (w : World) (userId : Z) :
  userIdOf w = Some userId ->
  exists w',
    dispatch (clearPreviousMessages remote) w = (Returned tt, w') /\
    hasMessageIds (ctxMessageIds w') = false /\
    hasMessageIds (SessionManager.getUserState userId (manager w') ≫= messageIds) = false.
Proof.
  intros Hid. pose proof (MappingFacts.userIdOf_Some _ _ Hid) as Hfrom.
  unfold dispatch, bind at 1, middleware. cbn [from_id manager]. rewrite Hfrom.
  cbn [outbox deleted apiCalls nextMessageId].
  set (st := default freshState (SessionManager.getUserState userId (manager w))).
  set (w0 := mkWorld _ _ (Some st) _ _ _ _).
  assert (Hid0 : userIdOf w0 = Some userId).
  { unfold userIdOf in *. cbn [from_id w0]. rewrite Hfrom in *. exact Hid. }
  destruct (hasMessageIds (messageIds st)) eqn:Hids.
  - destruct (messageIds st) as [[|first others]|] eqn:Hst; try discriminate.
    destruct (HandlerFacts.clearPreviousMessages_clears remote w0 userId first others Hid0)
      as (w1 & w' & Heq & _ & _ & Hm & Hst' & _).
    { unfold ctxMessageIds. cbn. exact Hst. }
    exists w'. split; [exact Heq|]. split.
    + unfold ctxMessageIds. rewrite Hst'. reflexivity.
    + rewrite Hm, SessionManagerFacts.getUserState_updateUserState. reflexivity.
  - exists w0. split.
    + apply HandlerFacts.clearPreviousMessages_nothing. right. exact Hids.
    + split; [exact Hids|].
      cbn [manager w0]. unfold st in Hids.
      destruct (SessionManager.getUserState userId (manager w)) as [stored|]; cbn in *.
      * exact Hids.
      * reflexivity.
Qed.

Lemma clearPreviousMessages_after_middleware_witness :
  let remote := mkRemote (fun _ => None) (fun _ => None) (fun _ _ => None) (fun _ => true) in
  let w := snd (dispatch (handleTextInput clinic "Грипп") firstEvent) in
  userIdOf w = Some 7 /\
  exists w',
    dispatch (clearPreviousMessages remote) w = (Returned tt, w') /\
    hasMessageIds (ctxMessageIds w') = false /\
    hasMessageIds (SessionManager.getUserState 7 (manager w') ≫= messageIds) = false.
Proof.
  cbv zeta. split; [reflexivity|].
  apply clearPreviousMessages_after_middleware. reflexivity.
Defined.

Module LegacyFacts.
Import SessionManager.

Lemma Map_of_pairs_rev (pairs : list (string * string)) :
  Map_of_pairs pairs = list_to_map (rev pairs).
Proof.
  unfold Map_of_pairs, list_to_map. symmetry.
  apply (fold_left_rev_right
           (fun (kv : string * string) (acc : gmap string string) => <[kv.1 := kv.2]> acc)).
Qed.

(** [new Map(Array.from(map.entries()))] is the map again. *)
Lemma Map_of_pairs_to_list (entries : gmap string string) :
  Map_of_pairs (map_to_list entries) = entries.
Proof.
  rewrite Map_of_pairs_rev.
  rewrite <- (list_to_map_to_list entries) at 2.
  apply list_to_map_proper.
  - rewrite <- (Permutation_rev (map_to_list entries)). apply NoDup_fst_map_to_list.
  - symmetry. apply Permutation_rev.
Qed.

End LegacyFacts.

(** X5.  A callback map in the array form is loaded as a [Map].  Saving and
    loading keeps its entries and drops the mappings the controller has stored
    on it since, which are own properties of the object; and no loaded entry is
    ever found by the controller's lookup, which reads properties. *)
Theorem legacy_callback_map_loses_mappings
    (st : UserState) (entries props : gmap string string) (key : string) :
  callbackMap st = Some (CbMap entries props) ->
  callbackMap (SessionManager.revive (SessionManager.serializable st)) =
    Some (CbMap entries ∅) /\
  cb_get (CbMap entries ∅) key = None.
Proof.
  intros H. unfold SessionManager.revive, SessionManager.serializable. cbn.
  rewrite H. rewrite LegacyFacts.Map_of_pairs_to_list. split; [reflexivity|].
  apply lookup_empty.
Qed.

Lemma legacy_callback_map_loses_mappings_witness :
  let entries : gmap string string := {[ "section:2f90c44f3e776738e573a9481afaf8d8" := "Лечение" ]} in
  let props : gmap string string := {[ "diagnosis:592bc3ad04c60638462f4dc30f68998a" := "Грипп" ]} in
  let st := mkUserState None None None (Some (CbMap entries props)) None in
  callbackMap st = Some (CbMap entries props) /\
  callbackMap (SessionManager.revive (SessionManager.serializable st)) =
    Some (CbMap entries ∅) /\
  cb_get (CbMap entries ∅) "section:2f90c44f3e776738e573a9481afaf8d8" = None.
Proof.
  cbv zeta. split; [reflexivity|].
  apply legacy_callback_map_loses_mappings with
    (props := {[ "diagnosis:592bc3ad04c60638462f4dc30f68998a" := "Грипп" ]}).
  reflexivity.
Defined.

(** ** The record of the message identifiers *)

Module TrackingFacts.

Lemma Adds_refl w : Adds w w [].
Proof.
  unfold Adds. cbn. rewrite app_nil_r, Z.add_0_r.
  split; [reflexivity|]. split; [reflexivity|]. split; [reflexivity|].
  split; [reflexivity|].
  intros ids H. rewrite app_nil_r. exact H.
Qed.

Lemma Adds_trans w w1 w2 m1 m2 :
  Adds w w1 m1 -> Adds w1 w2 m2 -> Adds w w2 (m1 ++ m2).
Proof.
  intros (a & b & c & e & d) (a' & b' & c' & e' & d'). unfold Adds.
  rewrite a', a, b', b, c', c, e', e, length_app, Nat2Z.inj_add, <- app_assoc, Z.add_assoc.
  split; [reflexivity|]. split; [reflexivity|]. split; [reflexivity|].
  split; [reflexivity|].
  intros ids H.
  rewrite seqZ_app by lia. rewrite app_assoc. rewrite <- c. apply d', d, H.
Qed.

(** The identifiers kept for a user in the store, none counting as empty. *)
Lemma idsAt_updateUserState userId other update m :
  p_messageIds update = None ->
  default [] (match SessionManager.getUserState other
                      (SessionManager.updateUserState userId update m) with
              | Some st => messageIds st
              | None => None
              end) =
  default [] (match SessionManager.getUserState other m with
              | Some st => messageIds st
              | None => None
              end).
Proof.
  intros Hupd. destruct (decide (userId = other)) as [->|Hne].
  - rewrite SessionManagerFacts.getUserState_updateUserState. cbn. rewrite Hupd. cbn.
    destruct (SessionManager.getUserState other m); reflexivity.
  - rewrite SessionManagerFacts.getUserState_updateUserState_ne by exact Hne. reflexivity.
Qed.

(** A step that sends nothing and touches no message identifier. *)
Lemma Adds_quiet w w' :
  from_id w' = from_id w ->
  outbox w' = outbox w ->
  nextMessageId w' = nextMessageId w ->
  deleted w' = deleted w ->
  (userState w' = None <-> userState w = None) ->
  ctxMessageIds w' = ctxMessageIds w ->
  (forall userId,
      default [] (match SessionManager.getUserState userId (manager w') with
                  | Some st => messageIds st
                  | None => None
                  end) =
      default [] (match SessionManager.getUserState userId (manager w) with
                  | Some st => messageIds st
                  | None => None
                  end)) ->
  Adds w w' [].
Proof.
  intros Hid Hout Hnext Hdel Hst Hctx Hstored. unfold Adds. cbn.
  rewrite Hid, Hout, Hnext, Hdel, app_nil_r, Z.add_0_r.
  split; [reflexivity|]. split; [reflexivity|]. split; [reflexivity|].
  split; [reflexivity|].
  intros ids (Huser & Hstate & Hc & Hs). rewrite app_nil_r.
  unfold inStep, storedMessageIds in *.
  rewrite (ControllerFacts.userIdOf_from_id _ _ Hid), Hctx.
  repeat split; try assumption.
  - tauto.
  - destruct (userIdOf w) as [userId|]; [|exact Hs]. rewrite Hstored. exact Hs.
Qed.

Lemma replyAndSave_Adds text rows w :
  exists w', replyAndSave text rows w = (Returned tt, w') /\ Adds w w' [mkMessage text rows].
Proof.
  unfold replyAndSave, bind at 1. cbn [replyWithMarkdown].
  unfold saveMessageId, bind at 1, get at 1.
  set (w0 := mkWorld _ _ _ (outbox w ++ _) _ _ _).
  assert (Hid0 : userIdOf w0 = userIdOf w) by reflexivity.
  rewrite Hid0. cbn [userState w0].
  destruct (userIdOf w) as [userId|] eqn:Hid.
  - destruct (userState w) as [st|] eqn:Hst.
    + eexists. split; [reflexivity|]. unfold Adds. cbn.
      split; [reflexivity|]. split; [reflexivity|]. split; [reflexivity|].
      split; [reflexivity|].
      intros ids0 (_ & _ & Hc & _).
      unfold inStep, storedMessageIds, ctxMessageIds, userIdOf in *. cbn.
      unfold ctxMessageIds in Hc. rewrite Hst in Hc.
      destruct (from_id w) as [id|]; [|discriminate].
      destruct (JS.truthy_number id); [|discriminate]. injection Hid as ->.
      rewrite SessionManagerFacts.getUserState_updateUserState. cbn.
      rewrite Hc. repeat split; discriminate.
    + eexists. split; [reflexivity|]. unfold Adds. cbn.
      split; [reflexivity|]. split; [reflexivity|]. split; [reflexivity|].
      split; [reflexivity|].
      intros ids0 (_ & H & _). congruence.
  - eexists. split; [reflexivity|]. unfold Adds. cbn.
    split; [reflexivity|]. split; [reflexivity|]. split; [reflexivity|].
    split; [reflexivity|].
    intros ids0 (H & _). congruence.
Qed.

Lemma Tracks_TracksT {A} (c : M A) : Tracks c -> TracksT c.
Proof. intros H w. destruct (H w) as (a & w' & msgs & Heq & Hadds). eauto. Qed.

Lemma Tracks_ret {A} (a : A) : Tracks (ret a).
Proof. intros w. exists a, w, []. split; [reflexivity|apply Adds_refl]. Qed.

Lemma Tracks_get : Tracks get.
Proof. intros w. exists w, w, []. split; [reflexivity|apply Adds_refl]. Qed.

Lemma TracksT_throw {A} e : TracksT (@throw A e).
Proof. intros w. exists (Thrown e), w, []. split; [reflexivity|apply Adds_refl]. Qed.

Lemma Tracks_bind {A B} (c : M A) (k : A -> M B) :
  Tracks c -> (forall a, Tracks (k a)) -> Tracks (bind c k).
Proof.
  intros Hc Hk w. destruct (Hc w) as (a & w1 & m1 & Heq & H1).
  destruct (Hk a w1) as (b & w2 & m2 & Heq' & H2).
  exists b, w2, (m1 ++ m2). unfold bind. rewrite Heq, Heq'.
  split; [reflexivity|]. eapply Adds_trans; eassumption.
Qed.

Lemma TracksT_bind {A B} (c : M A) (k : A -> M B) :
  TracksT c -> (forall a, TracksT (k a)) -> TracksT (bind c k).
Proof.
  intros Hc Hk w. destruct (Hc w) as ([a|e] & w1 & m1 & Heq & H1).
  - destruct (Hk a w1) as (r & w2 & m2 & Heq' & H2).
    exists r, w2, (m1 ++ m2). unfold bind. rewrite Heq, Heq'.
    split; [reflexivity|]. eapply Adds_trans; eassumption.
  - exists (Thrown e), w1, m1. unfold bind. rewrite Heq. split; [reflexivity|exact H1].
Qed.

Lemma Tracks_try_catch {A} (body : M A) (handler : string -> M A) :
  TracksT body -> (forall e, Tracks (handler e)) -> Tracks (try_catch body handler).
Proof.
  intros Hb Hh w. destruct (Hb w) as ([a|e] & w1 & m1 & Heq & H1).
  - exists a, w1, m1. unfold try_catch. rewrite Heq. split; [reflexivity|exact H1].
  - destruct (Hh e w1) as (b & w2 & m2 & Heq' & H2).
    exists b, w2, (m1 ++ m2). unfold try_catch. rewrite Heq, Heq'.
    split; [reflexivity|]. eapply Adds_trans; eassumption.
Qed.

Lemma Tracks_replyAndSave text rows : Tracks (replyAndSave text rows).
Proof.
  intros w. destruct (replyAndSave_Adds text rows w) as (w' & Heq & H). eauto.
Qed.

Lemma Tracks_consoleLog line : Tracks (consoleLog line).
Proof.
  intros w. eexists tt, _, []. split; [reflexivity|].
  apply Adds_quiet; reflexivity.
Qed.

Lemma Tracks_recordCall c : Tracks (recordCall c).
Proof.
  intros w. eexists tt, _, []. split; [reflexivity|].
  apply Adds_quiet; reflexivity.
Qed.

Lemma TracksT_fromOption {A} e (o : option A) : TracksT (fromOption e o).
Proof.
  destruct o; [apply Tracks_TracksT, Tracks_ret|apply TracksT_throw].
Qed.

(** [updateUserState] with a partial that does not name [messageIds]. *)
Lemma Tracks_updateUserState userId update :
  p_messageIds update = None ->
  Tracks (onManager (SessionManager.updateUserState userId update)).
Proof.
  intros Hupd w. eexists tt, _, []. split; [reflexivity|].
  apply Adds_quiet; try reflexivity.
  intros other. cbn [manager]. apply idsAt_updateUserState. exact Hupd.
Qed.

(** An assignment to a field of [ctx.userState] other than [messageIds]. *)
Lemma Tracks_onUserState f :
  (forall st, messageIds (f st) = messageIds st) ->
  Tracks (onUserState f).
Proof.
  intros Hf w. eexists tt, _, []. split; [reflexivity|].
  apply Adds_quiet; try reflexivity.
  - cbn. destruct (userState w); cbn; split; congruence.
  - unfold ctxMessageIds. cbn. destruct (userState w); cbn; [apply Hf|reflexivity].
Qed.

Lemma Tracks_storeCallbackMapping v k : Tracks (storeCallbackMapping v k).
Proof.
  unfold storeCallbackMapping. apply Tracks_bind; [apply Tracks_get|]. intros w0.
  destruct (userIdOf w0); [|apply Tracks_ret].
  destruct (userState w0); [|apply Tracks_ret].
  apply Tracks_bind; [apply Tracks_onUserState; reflexivity|]. intros _.
  apply Tracks_bind; [apply Tracks_updateUserState; reflexivity|]. intros _.
  apply Tracks_ret.
Qed.

Lemma Tracks_mapAll {A B} (f : A -> M B) l :
  (forall x, Tracks (f x)) -> Tracks (mapAll f l).
Proof.
  intros Hf. induction l as [|x l IH]; cbn [mapAll]; [apply Tracks_ret|].
  apply Tracks_bind; [apply Hf|]. intros y.
  apply Tracks_bind; [exact IH|]. intros ys. apply Tracks_ret.
Qed.

End TrackingFacts.

Module LifecycleFacts.
Import TrackingFacts.

Ltac tracks :=
  repeat first
    [ apply Tracks_ret
    | apply Tracks_get
    | apply Tracks_replyAndSave
    | apply Tracks_consoleLog
    | apply Tracks_recordCall
    | apply Tracks_storeCallbackMapping
    | apply Tracks_updateUserState; reflexivity
    | apply Tracks_onUserState; reflexivity
    | apply Tracks_mapAll; intros
    | apply Tracks_try_catch; [tracksT|intros]
    | apply Tracks_bind; [|intros]
    | match goal with |- Tracks (match ?x with _ => _ end) => destruct x end ]
with tracksT :=
  repeat first
    [ apply TracksT_fromOption
    | apply TracksT_throw
    | apply Tracks_TracksT; solve [tracks]
    | apply TracksT_bind; [|intros]
    | match goal with |- TracksT (match ?x with _ => _ end) => destruct x end ].

Lemma Tracks_sendWelcomeMessage : Tracks sendWelcomeMessage.
Proof. unfold sendWelcomeMessage. tracks. Qed.

Lemma Tracks_askForNewDiagnosis : Tracks askForNewDiagnosis.
Proof. unfold askForNewDiagnosis. tracks. Qed.

Lemma Tracks_showDiagnosisOptions l : Tracks (showDiagnosisOptions l).
Proof. unfold showDiagnosisOptions, diagnosisButton. tracks. Qed.

Lemma Tracks_handleDiagnosisInput remote q : Tracks (handleDiagnosisInput remote q).
Proof.
  unfold handleDiagnosisInput, getSimilarDiagnoses, showNoResultsFound, sendSearchError.
  tracks; try apply Tracks_showDiagnosisOptions.
Qed.

Lemma Tracks_displaySectionsList d l : Tracks (displaySectionsList d l).
Proof. unfold displaySectionsList, sectionButton. tracks. Qed.

Lemma Tracks_showSections remote : Tracks (showSections remote).
Proof.
  unfold showSections, getSections, sendErrorMessage, showNoSectionsAvailable, sendLoadError.
  tracks; try apply Tracks_displaySectionsList.
Qed.

Lemma Tracks_processDiagnosisSelection remote d :
  Tracks (processDiagnosisSelection remote d).
Proof.
  unfold processDiagnosisSelection. tracks; try apply Tracks_showSections.
Qed.

Lemma Tracks_processSectionSelection remote t :
  Tracks (processSectionSelection remote t).
Proof.
  unfold processSectionSelection, getSection, sendErrorMessage, sendLoadError. tracks.
Qed.

Lemma Tracks_resolveCallbackMapping key : Tracks (resolveCallbackMapping key).
Proof. unfold resolveCallbackMapping. tracks. Qed.

(** [clearPreviousMessages] asks for the deletion of the identifiers a
    context and a store agree on, brings both to the empty list, and sends
    nothing. *)
Lemma clearPreviousMessages_resets remote w ids :
  inStep w ids ->
  exists w1,
    clearPreviousMessages remote w = (Returned tt, w1) /\
    inStep w1 [] /\
    from_id w1 = from_id w /\ outbox w1 = outbox w /\
    nextMessageId w1 = nextMessageId w /\
    deleted w1 = deleted w ++ ids.
Proof.
  intros (Huser & Hstate & Hc & Hs).
  destruct (userIdOf w) as [userId|] eqn:Hid; [|congruence].
  destruct (ctxMessageIds w) as [[|first others]|] eqn:Hids.
  - exists w. rewrite HandlerFacts.clearPreviousMessages_nothing
      by (right; rewrite Hids; reflexivity).
    cbn in Hc. subst ids. unfold inStep. rewrite Hid, Hids, app_nil_r. repeat split; auto.
  - destruct (HandlerFacts.clearPreviousMessages_clears remote w userId first others Hid Hids)
      as (w1 & w' & Heq & _ & _ & Hm & Hst' & a & b & _ & d & e).
    exists w'. split; [exact Heq|]. cbn in Hc. subst ids. split; [|auto].
    unfold inStep, storedMessageIds, ctxMessageIds.
    rewrite (ControllerFacts.userIdOf_from_id _ _ a), Hid, Hst', Hm.
    rewrite SessionManagerFacts.getUserState_updateUserState.
    destruct (userState w); [|congruence]. cbn. repeat split; discriminate.
  - exists w. rewrite HandlerFacts.clearPreviousMessages_nothing
      by (right; rewrite Hids; reflexivity).
    cbn in Hc. subst ids. unfold inStep. rewrite Hid, Hids, app_nil_r. repeat split; auto.
Qed.

(** The middleware leaves the context and the store in agreement. *)
Lemma middleware_inStep w :
  userIdOf w <> None ->
  exists w0,
    middleware (mkWorld (manager w) (from_id w) None
                        (outbox w) (deleted w) (apiCalls w) (nextMessageId w))
      = (Returned tt, w0) /\
    inStep w0 (default [] (storedMessageIds w)) /\
    from_id w0 = from_id w /\ outbox w0 = outbox w /\
    nextMessageId w0 = nextMessageId w /\
    deleted w0 = deleted w.
Proof.
  intros Huser. unfold middleware. cbn [from_id manager].
  destruct (userIdOf w) as [userId|] eqn:Hid; [|congruence].
  pose proof (MappingFacts.userIdOf_Some _ _ Hid) as Hfrom. rewrite Hfrom.
  eexists. split; [reflexivity|]. split; [|auto].
  unfold inStep, storedMessageIds, ctxMessageIds, userIdOf. cbn.
  unfold userIdOf in Hid. rewrite Hfrom in *. rewrite Hid.
  split; [discriminate|]. split; [discriminate|].
  unfold SessionManager.getUserState.
  destruct (SessionManager.sessionData (manager w) !! userId); split; reflexivity.
Qed.

(** Every handler made of [clearPreviousMessages] and a step that records
    what it sends deletes what was stored and leaves exactly the identifiers of
    the event's messages. *)
Lemma RecordsItsReplies_clear_then remote (rest : M unit) :
  Tracks rest ->
  RecordsItsReplies (bind (clearPreviousMessages remote) (fun _ => rest)).
Proof.
  intros Hrest w Huser.
  destruct (middleware_inStep w Huser) as (w0 & Hmid & Hstep0 & a0 & b0 & c0 & d0).
  destruct (clearPreviousMessages_resets remote w0 _ Hstep0)
    as (w1 & Hclear & Hstep1 & a1 & b1 & c1 & d1).
  destruct (Hrest w1) as ([] & w' & msgs & Heq & (a2 & b2 & c2 & d2 & Hadds)).
  exists w', msgs. unfold dispatch, bind. rewrite Hmid. fold (@bind unit unit).
  unfold bind. rewrite Hclear, Heq.
  split; [reflexivity|]. split; [congruence|]. split; [congruence|].
  split; [congruence|]. split; [congruence|].
  specialize (Hadds [] Hstep1). cbn [app] in Hadds. rewrite c1, c0 in Hadds. exact Hadds.
Qed.

End LifecycleFacts.

(** ** The navigation state across the handlers *)

Module NavigationFacts.
Import ControllerFacts HandlerFacts.

Lemma Sends_refl w : Sends w w [] [].
Proof. unfold Sends. rewrite !app_nil_r. tauto. Qed.

Lemma Sends_trans w w1 w2 m1 m2 c1 c2 :
  Sends w w1 m1 c1 -> Sends w1 w2 m2 c2 -> Sends w w2 (m1 ++ m2) (c1 ++ c2).
Proof.
  intros (a & b & c & d & e & f) (a' & b' & c' & d' & e' & f'). unfold Sends.
  rewrite a', a, c', c, d', d, <- !app_assoc.
  split; [reflexivity|]. split; [tauto|]. split; [reflexivity|]. split; [reflexivity|].
  split; intros userId; [rewrite e', e|rewrite f', f]; reflexivity.
Qed.

Lemma storedDiagnosis_data userId w w' :
  SessionManager.sessionData (manager w') = SessionManager.sessionData (manager w) ->
  storedDiagnosis userId w' = storedDiagnosis userId w.
Proof. intros H. unfold storedDiagnosis, SessionManager.getUserState. rewrite H. reflexivity. Qed.

Lemma storedSections_data userId w w' :
  SessionManager.sessionData (manager w') = SessionManager.sessionData (manager w) ->
  storedSections userId w' = storedSections userId w.
Proof. intros H. unfold storedSections, SessionManager.getUserState. rewrite H. reflexivity. Qed.

Lemma storedCallback_data userId w w' key :
  SessionManager.sessionData (manager w') = SessionManager.sessionData (manager w) ->
  storedCallback userId w' key = storedCallback userId w key.
Proof. intros H. unfold storedCallback, SessionManager.getUserState. rewrite H. reflexivity. Qed.

Lemma storedDiagnosis_update userId other update w w' :
  manager w' = SessionManager.updateUserState userId update (manager w) ->
  p_diagnosis update = None ->
  storedDiagnosis other w' = storedDiagnosis other w.
Proof.
  intros Hm Hupd. destruct (decide (userId = other)) as [->|Hne].
  - eapply storedDiagnosis_updateUserState; [exact Hm|reflexivity|exact Hupd].
  - unfold storedDiagnosis. rewrite Hm.
    rewrite SessionManagerFacts.getUserState_updateUserState_ne by exact Hne. reflexivity.
Qed.

Lemma storedSections_update userId other update w w' :
  manager w' = SessionManager.updateUserState userId update (manager w) ->
  p_sections update = None ->
  storedSections other w' = storedSections other w.
Proof.
  intros Hm Hupd. unfold storedSections. rewrite Hm.
  destruct (decide (userId = other)) as [->|Hne].
  - rewrite SessionManagerFacts.getUserState_updateUserState. cbn. rewrite Hupd. cbn.
    destruct (SessionManager.getUserState other (manager w)); reflexivity.
  - rewrite SessionManagerFacts.getUserState_updateUserState_ne by exact Hne. reflexivity.
Qed.

Lemma storedCallback_update userId other update w w' key :
  manager w' = SessionManager.updateUserState userId update (manager w) ->
  p_callbackMap update = None ->
  storedCallback other w' key = storedCallback other w key.
Proof.
  intros Hm Hupd. unfold storedCallback. rewrite Hm.
  destruct (decide (userId = other)) as [->|Hne].
  - rewrite SessionManagerFacts.getUserState_updateUserState. cbn. rewrite Hupd. cbn.
    destruct (SessionManager.getUserState other (manager w)); reflexivity.
  - rewrite SessionManagerFacts.getUserState_updateUserState_ne by exact Hne. reflexivity.
Qed.

Lemma Sends_userIdOf w w' msgs calls : Sends w w' msgs calls -> userIdOf w' = userIdOf w.
Proof. intros (a & _). apply userIdOf_from_id. exact a. Qed.

Lemma Sends_tokenOf w w' msgs calls x : Sends w w' msgs calls -> tokenOf w' x = tokenOf w x.
Proof.
  intros H. pose proof (Sends_userIdOf _ _ _ _ H) as Hid. destruct H as (_ & Hst & _).
  unfold tokenOf. rewrite Hid. destruct (userIdOf w); [|reflexivity].
  destruct (userState w) eqn:E, (userState w') eqn:E'; try reflexivity.
  - destruct Hst as [H _]. specialize (H eq_refl). discriminate.
  - destruct Hst as [_ H]. specialize (H eq_refl). discriminate.
Qed.

Lemma Sends_currentDiagnosis w w' msgs calls :
  Sends w w' msgs calls -> currentDiagnosis w' = currentDiagnosis w.
Proof.
  intros H. pose proof (Sends_userIdOf _ _ _ _ H) as Hid.
  destruct H as (_ & _ & _ & _ & Hd & _).
  unfold currentDiagnosis. rewrite Hid. destruct (userIdOf w); [apply Hd|reflexivity].
Qed.

Lemma Sends_currentSections w w' msgs calls :
  Sends w w' msgs calls -> currentSections w' = currentSections w.
Proof.
  intros H. pose proof (Sends_userIdOf _ _ _ _ H) as Hid.
  destruct H as (_ & _ & _ & _ & _ & Hs).
  unfold currentSections. rewrite Hid. destruct (userIdOf w); [apply Hs|reflexivity].
Qed.

(** A reply: one message, the callback entries of the context and of the
    store untouched. *)
Lemma replyAndSave_Sends text rows w :
  exists w',
    replyAndSave text rows w = (Returned tt, w') /\
    Sends w w' [mkMessage text rows] [] /\
    ctxCallbackMap w' = ctxCallbackMap w /\
    (forall userId key, storedCallback userId w' key = storedCallback userId w key).
Proof.
  unfold replyAndSave, bind at 1. cbn [replyWithMarkdown].
  unfold saveMessageId, bind at 1, get at 1.
  set (w0 := mkWorld _ _ _ (outbox w ++ _) _ _ _).
  assert (Hid0 : userIdOf w0 = userIdOf w) by reflexivity.
  rewrite Hid0. cbn [userState w0].
  destruct (userIdOf w) as [userId|]; [destruct (userState w) as [st|] eqn:Hst|].
  - eexists. split; [reflexivity|]. cbn. unfold Sends, ctxCallbackMap. cbn.
    rewrite Hst, app_nil_r. cbn.
    split; [|split; [reflexivity|]].
    + split; [reflexivity|]. split; [split; discriminate|].
      split; [reflexivity|]. split; [reflexivity|].
      split; intros other.
      * eapply (storedDiagnosis_update userId); [reflexivity|reflexivity].
      * eapply (storedSections_update userId); [reflexivity|reflexivity].
    + intros other key. eapply (storedCallback_update userId); [reflexivity|reflexivity].
  - eexists. split; [reflexivity|]. unfold Sends, ctxCallbackMap. cbn.
    rewrite Hst, app_nil_r. tauto.
  - eexists. split; [reflexivity|]. unfold Sends, ctxCallbackMap. cbn.
    rewrite app_nil_r. tauto.
Qed.

Lemma consoleLog_Sends line w :
  exists w',
    consoleLog line w = (Returned tt, w') /\
    Sends w w' [] [] /\
    ctxCallbackMap w' = ctxCallbackMap w /\
    (forall userId key, storedCallback userId w' key = storedCallback userId w key).
Proof.
  eexists. split; [reflexivity|]. unfold Sends, ctxCallbackMap. cbn.
  rewrite !app_nil_r. tauto.
Qed.

Lemma storeCallbackMapping_Sends v k w :
  Sends w (snd (storeCallbackMapping v k w)) [] [].
Proof.
  unfold storeCallbackMapping, bind, get.
  destruct (userIdOf w) as [userId|]; [destruct (userState w) as [st|] eqn:Hst|];
    try apply Sends_refl.
  cbn. unfold Sends. cbn. rewrite Hst, !app_nil_r. cbn.
  split; [reflexivity|]. split; [split; discriminate|].
  split; [reflexivity|]. split; [reflexivity|].
  split; intros other.
  - eapply (storedDiagnosis_update userId); [reflexivity|reflexivity].
  - eapply (storedSections_update userId); [reflexivity|reflexivity].
Qed.

Lemma storeAll_Sends k l : forall w, Sends w (storeAll k l w) [] [].
Proof.
  induction l as [|v l IH]; intros w; [apply Sends_refl|].
  change (@nil Message) with (@nil Message ++ []).
  change (@nil ApiCall) with (@nil ApiCall ++ []).
  eapply Sends_trans; [apply (storeCallbackMapping_Sends v k w)|].
  apply IH.
Qed.

End NavigationFacts.

(** ** Events in sequence *)

Module SessionFlowFacts.
Import TrackingFacts LifecycleFacts.

Lemma dispatch_ext {A} (h1 h2 : M A) w :
  (forall w0, from_id w0 = from_id w -> h1 w0 = h2 w0) ->
  dispatch h1 w = dispatch h2 w.
Proof.
  intros H. unfold dispatch, bind, middleware. cbn.
  destruct (from_id w) eqn:Hfrom; apply H; cbn; congruence.
Qed.

Lemma handleTextInput_runs remote messageText w0 :
  JS.startsWith "/" (trim messageText) = false ->
  userIdOf w0 <> None ->
  handleTextInput remote messageText w0 =
  bind (clearPreviousMessages remote)
       (fun _ => handleDiagnosisInput remote (trim messageText)) w0.
Proof.
  intros Hcmd Huser. unfold handleTextInput, bind at 1, get at 1. rewrite Hcmd.
  destruct (userIdOf w0); [reflexivity|congruence].
Qed.

Lemma handleTextInput_ignores remote messageText w0 :
  JS.startsWith "/" (trim messageText) = true \/ userIdOf w0 = None ->
  handleTextInput remote messageText w0 = (Returned tt, w0).
Proof.
  intros H. unfold handleTextInput, bind at 1, get at 1.
  destruct (JS.startsWith "/" (trim messageText)); [reflexivity|].
  destruct H as [H|H]; [discriminate|]. rewrite H. reflexivity.
Qed.

Lemma RecordsAt_event remote ev w :
  ignored ev = false -> recorded ev = true -> userIdOf w <> None ->
  RecordsAt w (handlerOf remote ev).
Proof.
  intros Hign Hrec Huser. destruct ev; cbn [handlerOf]; try discriminate.
  - apply RecordsItsReplies_clear_then; [apply Tracks_sendWelcomeMessage|exact Huser].
  - apply RecordsItsReplies_clear_then; [apply Tracks_askForNewDiagnosis|exact Huser].
  - cbn in Hign.
    destruct (RecordsItsReplies_clear_then remote _
                (Tracks_handleDiagnosisInput remote (trim messageText)) w Huser)
      as (w' & msgs & Heq & rest).
    exists w', msgs. split; [|exact rest]. rewrite <- Heq.
    apply dispatch_ext. intros w0 Hfrom. apply handleTextInput_runs; [exact Hign|].
    rewrite (ControllerFacts.userIdOf_from_id _ _ Hfrom). exact Huser.
  - apply RecordsItsReplies_clear_then; [|exact Huser].
    apply Tracks_bind; [apply Tracks_resolveCallbackMapping|]. intros [d|].
    + apply Tracks_processDiagnosisSelection.
    + apply Tracks_replyAndSave.
  - apply RecordsItsReplies_clear_then; [|exact Huser].
    apply Tracks_bind; [apply Tracks_resolveCallbackMapping|]. intros [t|].
    + apply Tracks_processSectionSelection.
    + apply Tracks_replyAndSave.
  - apply RecordsItsReplies_clear_then; [apply Tracks_askForNewDiagnosis|exact Huser].
  - apply RecordsItsReplies_clear_then; [apply Tracks_showSections|exact Huser].
Qed.

(** A command handed to the text handler: the middleware attaches the state
    and nothing else happens. *)
Lemma ignored_event remote ev w :
  ignored ev = true ->
  exists w',
    dispatch (handlerOf remote ev) w = (Returned tt, w') /\
    manager w' = manager w /\ from_id w' = from_id w /\ outbox w' = outbox w /\
    deleted w' = deleted w /\ apiCalls w' = apiCalls w /\
    nextMessageId w' = nextMessageId w.
Proof.
  intros Hign. destruct ev; try discriminate. cbn in Hign. cbn [handlerOf].
  unfold dispatch, bind at 1, middleware. cbn [from_id manager].
  destruct (from_id w).
  - rewrite handleTextInput_ignores by (left; exact Hign). eexists. split; [reflexivity|].
    cbn. tauto.
  - rewrite handleTextInput_ignores by (left; exact Hign). eexists. split; [reflexivity|].
    cbn. tauto.
Qed.

(** The reply of [handleOtherMessages]. *)
Lemma other_message remote w :
  userIdOf w <> None ->
  exists w',
    dispatch (handleOtherMessages remote) w = (Returned tt, w') /\
    from_id w' = from_id w /\
    outbox w' = outbox w ++
      [mkMessage
         "Пожалуйста, используйте текстовые сообщения для ввода диагноза или команды меню."
         []] /\
    nextMessageId w' = nextMessageId w + 1 /\
    deleted w' = deleted w ++ default [] (storedMessageIds w) /\
    inStep w' [].
Proof.
  intros Huser.
  destruct (middleware_inStep w Huser) as (w0 & Hmid & Hstep0 & a0 & b0 & c0 & d0).
  destruct (clearPreviousMessages_resets remote w0 _ Hstep0)
    as (w1 & Hclear & Hstep1 & a1 & b1 & c1 & d1).
  unfold dispatch, bind at 1. rewrite Hmid.
  unfold handleOtherMessages, bind at 1. rewrite Hclear.
  unfold bind, replyWithMarkdown, ret.
  eexists. split; [reflexivity|]. cbn.
  split; [congruence|]. split; [congruence|]. split; [congruence|]. split; [congruence|].
  exact Hstep1.
Qed.

Lemma after_from_id remote ev w :
  userIdOf w <> None -> from_id (after remote ev w) = from_id w.
Proof.
  intros Huser. unfold after.
  destruct (ignored ev) eqn:Hign.
  - destruct (ignored_event remote ev w Hign) as (w' & Heq & _ & a & _).
    rewrite Heq. exact a.
  - destruct (recorded ev) eqn:Hrec.
    + destruct (RecordsAt_event remote ev w Hign Hrec Huser) as (w' & msgs & Heq & a & _).
      rewrite Heq. exact a.
    + destruct ev; try discriminate.
      destruct (other_message remote w Huser) as (w' & Heq & a & _).
      cbn [handlerOf]. rewrite Heq. exact a.
Qed.

(** What one event adds to the identifiers accounted for. *)
Lemma after_accountedFor remote ev w :
  userIdOf w <> None ->
  exists msgs,
    outbox (after remote ev w) = outbox w ++ msgs /\
    nextMessageId (after remote ev w) = nextMessageId w + Z.of_nat (length msgs) /\
    accountedFor (after remote ev w) =
      accountedFor w ++
      (if recorded ev then seqZ (nextMessageId w) (Z.of_nat (length msgs)) else []).
Proof.
  intros Huser. unfold after, accountedFor.
  destruct (ignored ev) eqn:Hign.
  - destruct (ignored_event remote ev w Hign) as (w' & Heq & m & a & b & c & _ & e).
    rewrite Heq. exists []. cbn [snd length]. rewrite b, c, e, !app_nil_r, Z.add_0_r.
    split; [reflexivity|]. split; [reflexivity|].
    unfold storedMessageIds. rewrite (ControllerFacts.userIdOf_from_id _ _ a), m.
    destruct (recorded ev); cbn; rewrite app_nil_r; reflexivity.
  - destruct (recorded ev) eqn:Hrec.
    + destruct (RecordsAt_event remote ev w Hign Hrec Huser)
        as (w' & msgs & Heq & a & b & c & d & (_ & _ & _ & Hs)).
      rewrite Heq. exists msgs. cbn [snd]. rewrite Hs, d, <- app_assoc. auto.
    + destruct ev; try discriminate.
      destruct (other_message remote w Huser) as (w' & Heq & a & b & c & d & (_ & _ & _ & Hs)).
      cbn [handlerOf]. rewrite Heq. eexists. cbn [snd]. split; [exact b|].
      split; [exact c|]. rewrite Hs, d, !app_nil_r. reflexivity.
Qed.

Lemma session_from_id remote evs : forall w,
  userIdOf w <> None -> from_id (session remote evs w) = from_id w.
Proof.
  induction evs as [|ev evs IH]; intros w Huser; [reflexivity|].
  cbn [session fold_left]. fold (session remote evs (after remote ev w)).
  pose proof (after_from_id remote ev w Huser) as Hfrom.
  rewrite IH; [exact Hfrom|].
  rewrite (ControllerFacts.userIdOf_from_id _ _ Hfrom). exact Huser.
Qed.

End SessionFlowFacts.

Module SessionInvariantFacts.
Import SessionFlowFacts.

Lemma userIdOf_after remote ev w :
  userIdOf w <> None -> userIdOf (after remote ev w) <> None.
Proof.
  intros Huser.
  rewrite (ControllerFacts.userIdOf_from_id _ _ (after_from_id remote ev w Huser)).
  exact Huser.
Qed.

Lemma session_recorded remote evs : forall w,
  userIdOf w <> None ->
  Forall (fun ev => recorded ev = true) evs ->
  exists msgs,
    outbox (session remote evs w) = outbox w ++ msgs /\
    nextMessageId (session remote evs w) = nextMessageId w + Z.of_nat (length msgs) /\
    accountedFor (session remote evs w) =
      accountedFor w ++ seqZ (nextMessageId w) (Z.of_nat (length msgs)).
Proof.
  induction evs as [|ev evs IH]; intros w Huser Hall.
  - exists []. cbn. rewrite !app_nil_r, Z.add_0_r. auto.
  - inversion Hall as [|? ? Hrec Hrest]; subst.
    cbn [session fold_left]. fold (session remote evs (after remote ev w)).
    destruct (after_accountedFor remote ev w Huser) as (m1 & a1 & b1 & c1).
    destruct (IH (after remote ev w) (userIdOf_after remote ev w Huser) Hrest)
      as (m2 & a2 & b2 & c2).
    exists (m1 ++ m2). rewrite a2, b2, c2, a1, b1, c1, Hrec.
    rewrite length_app, Nat2Z.inj_add, <- !app_assoc, Z.add_assoc.
    rewrite (seqZ_app (nextMessageId w)) by lia. auto.
Qed.

Lemma session_bounds remote evs : forall w,
  userIdOf w <> None ->
  nextMessageId w <= nextMessageId (session remote evs w) /\
  forall id, In id (accountedFor (session remote evs w)) ->
             In id (accountedFor w) \/ nextMessageId w <= id.
Proof.
  induction evs as [|ev evs IH]; intros w Huser.
  - cbn. split; [lia|auto].
  - cbn [session fold_left]. fold (session remote evs (after remote ev w)).
    destruct (after_accountedFor remote ev w Huser) as (m1 & a1 & b1 & c1).
    destruct (IH (after remote ev w) (userIdOf_after remote ev w Huser)) as (Hle & Hin).
    split; [lia|]. intros id Hid. destruct (Hin id Hid) as [H|H]; [|right; lia].
    rewrite c1 in H. apply in_app_or in H. destruct H as [H|H]; [left; exact H|right].
    destruct (recorded ev); [|destruct H].
    apply list_elem_of_In, elem_of_seqZ in H. lia.
Qed.

End SessionInvariantFacts.

(** X6.  An event of a user with a usable id that reaches any handler but
    the one for non-text messages, a command handed to the text handler
    apart, returns; the deletions it asks of the transport are exactly those
    of the message identifiers stored for the user; and afterwards the
    context and the store both list exactly the identifiers of the messages
    the event sent, in order. *)
Theorem event_deletes_stored_and_records_sent
    (remote : Remote) (ev : Event) (w : World) :
  userIdOf w <> None ->
  ignored ev = false ->
  recorded ev = true ->
  exists w' msgs,
    dispatch (handlerOf remote ev) w = (Returned tt, w') /\
    outbox w' = outbox w ++ msgs /\
    deleted w' = deleted w ++ default [] (storedMessageIds w) /\
    default [] (ctxMessageIds w') = seqZ (nextMessageId w) (Z.of_nat (length msgs)) /\
    default [] (storedMessageIds w') = seqZ (nextMessageId w) (Z.of_nat (length msgs)).
Proof.
  intros Huser Hign Hrec.
  destruct (SessionFlowFacts.RecordsAt_event remote ev w Hign Hrec Huser)
    as (w' & msgs & Heq & _ & b & _ & d & (_ & _ & Hc & Hs)).
  exists w', msgs. auto.
Qed.

Lemma event_deletes_stored_and_records_sent_witness :
  exists w' msgs,
    dispatch (handlerOf clinic (DiagnosisSelection (generateHash "Ангина"))) afterTwoDiagnoses
      = (Returned tt, w') /\
    outbox w' = outbox afterTwoDiagnoses ++ msgs /\
    deleted w' = deleted afterTwoDiagnoses ++ default [] (storedMessageIds afterTwoDiagnoses) /\
    default [] (ctxMessageIds w') =
      seqZ (nextMessageId afterTwoDiagnoses) (Z.of_nat (length msgs)) /\
    default [] (storedMessageIds w') =
      seqZ (nextMessageId afterTwoDiagnoses) (Z.of_nat (length msgs)).
Proof.
  apply (event_deletes_stored_and_records_sent
           clinic (DiagnosisSelection (generateHash "Ангина")) afterTwoDiagnoses).
  - vm_compute. discriminate.
  - reflexivity.
  - reflexivity.
Defined.

(** X7.  Over any sequence of events of one user that never reaches the
    handler for non-text messages, no reply is lost track of: every message
    the bot sent has either been put to the transport for deletion or is
    stored for deletion at the user's next event. *)
Theorem session_accounts_for_every_reply
    (remote : Remote) (evs : list Event) (w : World) :
  userIdOf w <> None ->
  Forall (fun ev => recorded ev = true) evs ->
  exists msgs,
    outbox (session remote evs w) = outbox w ++ msgs /\
    accountedFor (session remote evs w) =
      accountedFor w ++ seqZ (nextMessageId w) (Z.of_nat (length msgs)).
Proof.
  intros Huser Hall.
  destruct (SessionInvariantFacts.session_recorded remote evs w Huser Hall)
    as (msgs & a & _ & c).
  exists msgs. auto.
Qed.

Lemma session_accounts_for_every_reply_witness :
  exists msgs,
    outbox (session clinic [Start; Text "Грипп"; Text "/help"; BackToSections] firstEvent)
      = outbox firstEvent ++ msgs /\
    accountedFor (session clinic [Start; Text "Грипп"; Text "/help"; BackToSections] firstEvent)
      = accountedFor firstEvent ++
        seqZ (nextMessageId firstEvent) (Z.of_nat (length msgs)).
Proof.
  apply (session_accounts_for_every_reply
           clinic [Start; Text "Грипп"; Text "/help"; BackToSections] firstEvent).
  - vm_compute. discriminate.
  - repeat constructor.
Defined.

(** X8.  The reply to a non-text message is sent under the next message
    identifier and is kept nowhere: whatever events of the user follow, the
    transport is never asked to delete it and the store never lists it.  The
    identifiers known so far are taken to be older than the next one. *)
Theorem other_message_reply_is_never_deleted
    (remote : Remote) (evs : list Event) (w : World) :
  userIdOf w <> None ->
  Forall (fun id => id < nextMessageId w) (accountedFor w) ->
  outbox (after remote OtherMessage w) = outbox w ++
    [mkMessage
       "Пожалуйста, используйте текстовые сообщения для ввода диагноза или команды меню."
       []] /\
  nextMessageId (after remote OtherMessage w) = nextMessageId w + 1 /\
  ~ In (nextMessageId w) (accountedFor (session remote evs (after remote OtherMessage w))).
Proof.
  intros Huser Hold.
  destruct (SessionFlowFacts.other_message remote w Huser)
    as (w' & Heq & a & b & c & d & (_ & _ & _ & Hs)).
  assert (Hafter : after remote OtherMessage w = w')
    by (unfold after; cbn [handlerOf]; rewrite Heq; reflexivity).
  rewrite Hafter. split; [exact b|]. split; [exact c|].
  assert (Huser' : userIdOf w' <> None)
    by (rewrite (ControllerFacts.userIdOf_from_id _ _ a); exact Huser).
  destruct (SessionInvariantFacts.session_bounds remote evs w' Huser') as (_ & Hin).
  intros Hid. destruct (Hin _ Hid) as [H|H]; [|lia].
  unfold accountedFor in H. rewrite Hs, d, app_nil_r in H.
  rewrite Forall_forall in Hold. apply list_elem_of_In, Hold in H. lia.
Qed.

Lemma other_message_reply_is_never_deleted_witness :
  outbox (after clinic OtherMessage firstEvent) = outbox firstEvent ++
    [mkMessage
       "Пожалуйста, используйте текстовые сообщения для ввода диагноза или команды меню."
       []] /\
  nextMessageId (after clinic OtherMessage firstEvent) = nextMessageId firstEvent + 1 /\
  ~ In (nextMessageId firstEvent)
       (accountedFor (session clinic [Start; Text "Грипп"] (after clinic OtherMessage firstEvent))).
Proof.
  apply (other_message_reply_is_never_deleted clinic [Start; Text "Грипп"] firstEvent).
  - vm_compute. discriminate.
  - vm_compute. constructor.
Defined.

(** ** The callback entries across the handlers *)

Module CallbackFacts.
Import ControllerFacts HandlerFacts MappingFacts NavigationFacts.

Lemma Keeps_refl w : KeepsCallbacks w w.
Proof. split; reflexivity. Qed.

Lemma Keeps_trans w w1 w2 :
  KeepsCallbacks w w1 -> KeepsCallbacks w1 w2 -> KeepsCallbacks w w2.
Proof.
  intros (a & b) (a' & b'). split; [congruence|].
  intros userId key. rewrite b', b. reflexivity.
Qed.

Lemma Keeps_lookup w w' key :
  KeepsCallbacks w w' -> lookupCallback w' key = lookupCallback w key.
Proof. intros (a & _). unfold lookupCallback. rewrite a. reflexivity. Qed.

Lemma Keeps_sameCallbacks w w' :
  from_id w' = from_id w -> KeepsCallbacks w w' -> sameCallbacks w -> sameCallbacks w'.
Proof.
  intros Hid Hk. unfold sameCallbacks. rewrite (userIdOf_from_id _ _ Hid).
  destruct (userIdOf w) as [userId|]; [|auto].
  intros H key. rewrite (Keeps_lookup _ _ _ Hk). destruct Hk as (_ & b).
  rewrite b. apply H.
Qed.

Lemma sameCallbacks_mapping w key :
  sameCallbacks w -> resolved w key = storedMapping w key.
Proof.
  unfold sameCallbacks, resolved, storedMapping.
  destruct (userIdOf w) as [userId|]; [|reflexivity].
  intros H. rewrite H. reflexivity.
Qed.

(** [storeCallbackMapping] for a user with a state: the entry is added, and
    the store holds what the context holds. *)
Lemma storeCallbackMapping_lookup v k w userId :
  userIdOf w = Some userId ->
  userState w <> None ->
  (forall key,
      lookupCallback (snd (storeCallbackMapping v k w)) key =
      if String.eqb (keyOf k v) key then Some v else lookupCallback w key) /\
  sameCallbacks (snd (storeCallbackMapping v k w)).
Proof.
  intros Hid Hst. destruct (userState w) as [st|] eqn:Est; [|congruence].
  destruct (storeCallbackMapping_state v k w userId st Hid Est) as (Hst' & Hm & Hfrom).
  set (w' := snd (storeCallbackMapping v k w)) in *.
  assert (Hlookup : forall key,
    lookupCallback w' key =
    if String.eqb (keyOf k v) key then Some v else lookupCallback w key).
  { intros key. unfold lookupCallback, ctxCallbackMap. rewrite Hst', Est.
    cbn [callbackMap set_callbackMap]. rewrite cb_get_cb_set. unfold keyOf.
    destruct (String.eqb _ key); [reflexivity|].
    destruct (callbackMap st); [reflexivity|]. cbn. apply lookup_empty. }
  split; [exact Hlookup|].
  unfold sameCallbacks. rewrite (userIdOf_from_id _ _ Hfrom), Hid. intros key.
  unfold storedCallback. rewrite Hm, SessionManagerFacts.getUserState_updateUserState.
  cbn [spread callbackMap spread_field p_callbackMap].
  unfold lookupCallback, ctxCallbackMap. rewrite Hst'. reflexivity.
Qed.

Lemma lookupAfter_ext k l : forall before before',
  (forall key, before key = before' key) ->
  forall key, lookupAfter k l before key = lookupAfter k l before' key.
Proof.
  induction l as [|v l IH]; intros before before' H key; [apply H|].
  unfold lookupAfter in *. cbn [fold_left]. apply IH.
  intros key'. rewrite H. reflexivity.
Qed.

Lemma storeAll_lookup k l : forall w userId,
  userIdOf w = Some userId ->
  userState w <> None ->
  sameCallbacks w ->
  (forall key,
      lookupCallback (storeAll k l w) key = lookupAfter k l (lookupCallback w) key) /\
  sameCallbacks (storeAll k l w).
Proof.
  induction l as [|v l IH]; intros w userId Hid Hst Hsame.
  - split; [reflexivity|exact Hsame].
  - destruct (storeCallbackMapping_lookup v k w userId Hid Hst) as (Hl & Hs).
    destruct (storeCallbackMapping_frame v k w) as (Hfrom & _ & _ & _ & _ & Hnone).
    unfold storeAll, lookupAfter in *. cbn [fold_left].
    set (w1 := snd (storeCallbackMapping v k w)) in *.
    destruct (IH w1 userId) as (IHl & IHs).
    + rewrite (userIdOf_from_id _ _ Hfrom). exact Hid.
    + tauto.
    + exact Hs.
    + split; [|exact IHs]. intros key. rewrite IHl.
      apply (lookupAfter_ext k l). intros key'. apply Hl.
Qed.

End CallbackFacts.

Module LookupFacts.
Import MappingFacts.

Lemma lookupAfter_snoc k l v before key :
  lookupAfter k (l ++ [v]) before key =
  if String.eqb (keyOf k v) key then Some v else lookupAfter k l before key.
Proof. unfold lookupAfter. rewrite fold_left_app. reflexivity. Qed.

(** A key none of the values is filed under keeps its entry. *)
Lemma lookupAfter_other k l before key :
  (forall v, In v l -> keyOf k v <> key) ->
  lookupAfter k l before key = before key.
Proof.
  induction l as [|v l IH] using rev_ind; intros H; [reflexivity|].
  rewrite lookupAfter_snoc.
  destruct (String.eqb_spec (keyOf k v) key) as [E|_].
  - exfalso. apply (H v); [apply in_or_app; right; left; reflexivity|exact E].
  - apply IH. intros v' Hin. apply H, in_or_app. left. exact Hin.
Qed.

Lemma keyOf_eqb k a b :
  String.eqb (keyOf k a) (keyOf k b) = String.eqb (generateHash a) (generateHash b).
Proof. unfold keyOf. rewrite key_eqb. apply (key_eqb ":"). Qed.

(** A value of the list is found under its key, provided no other value of
    the list has its token. *)
Lemma lookupAfter_unique k l before v :
  In v l ->
  (forall v', In v' l -> generateHash v' = generateHash v -> v' = v) ->
  lookupAfter k l before (keyOf k v) = Some v.
Proof.
  induction l as [|x l IH] using rev_ind; intros Hin Huniq; [destruct Hin|].
  rewrite lookupAfter_snoc, keyOf_eqb.
  destruct (String.eqb_spec (generateHash x) (generateHash v)) as [E|Hne].
  - f_equal. apply Huniq; [apply in_or_app; right; left; reflexivity|exact E].
  - apply IH.
    + apply in_app_or in Hin. destruct Hin as [Hin|[->|[]]]; [exact Hin|congruence].
    + intros v' Hin'. apply Huniq, in_or_app. left. exact Hin'.
Qed.

Lemma keyOf_kinds a b : keyOf KDiagnosis a <> keyOf KSection b.
Proof.
  unfold keyOf.
  change (kindName KDiagnosis +:+ ":" +:+ generateHash a)
    with (String "d" ("iagnosis" +:+ ":" +:+ generateHash a)).
  change (kindName KSection +:+ ":" +:+ generateHash b)
    with (String "s" ("ection" +:+ ":" +:+ generateHash b)).
  discriminate.
Qed.

Lemma keyOf_diagnosis d : keyOf KDiagnosis d = "diagnosis:" +:+ generateHash d.
Proof. reflexivity. Qed.

Lemma keyOf_section s : keyOf KSection s = "section:" +:+ generateHash s.
Proof. reflexivity. Qed.

End LookupFacts.

Module StepFacts.
Import ControllerFacts HandlerFacts MappingFacts NavigationFacts CallbackFacts LayoutFacts.

Lemma reply_step text rows w :
  exists w',
    replyAndSave text rows w = (Returned tt, w') /\
    Sends w w' [mkMessage text rows] [] /\ KeepsCallbacks w w'.
Proof.
  destruct (replyAndSave_Sends text rows w) as (w' & Heq & S & a & b).
  exists w'. unfold KeepsCallbacks. auto.
Qed.

Lemma log_step line w :
  exists w',
    consoleLog line w = (Returned tt, w') /\
    Sends w w' [] [] /\ KeepsCallbacks w w'.
Proof.
  destruct (consoleLog_Sends line w) as (w' & Heq & S & a & b).
  exists w'. unfold KeepsCallbacks. auto.
Qed.

Lemma call_step {A} c e (o : option A) w :
  exists w',
    bind (recordCall c) (fun _ => fromOption e o) w =
      (match o with Some a => Returned a | None => Thrown e end, w') /\
    Sends w w' [] [c] /\ KeepsCallbacks w w'.
Proof.
  unfold bind, recordCall.
  destruct o; eexists; (split; [reflexivity|]);
    unfold Sends, KeepsCallbacks, ctxCallbackMap; cbn; rewrite app_nil_r; tauto.
Qed.

Lemma Sends_state w w' msgs calls :
  Sends w w' msgs calls -> userState w <> None -> userState w' <> None.
Proof. intros (_ & H & _). tauto. Qed.

Lemma tokenOf_attached w userId x :
  userIdOf w = Some userId -> userState w <> None -> tokenOf w x = generateHash x.
Proof.
  intros Hid Hst. unfold tokenOf. rewrite Hid.
  destruct (userState w); [reflexivity|congruence].
Qed.

Lemma storeAll_step k l w userId :
  userIdOf w = Some userId ->
  userState w <> None ->
  sameCallbacks w ->
  Sends w (storeAll k l w) [] [] /\
  sameCallbacks (storeAll k l w) /\
  forall key, lookupCallback (storeAll k l w) key = lookupAfter k l (lookupCallback w) key.
Proof.
  intros Hid Hst Hsame.
  destruct (storeAll_lookup k l w userId Hid Hst Hsame) as (a & b).
  split; [apply storeAll_Sends|]. split; assumption.
Qed.

Lemma displaySectionsList_outcome d secs w userId :
  userIdOf w = Some userId ->
  userState w <> None ->
  sameCallbacks w ->
  exists w',
    displaySectionsList d secs w = (Returned tt, w') /\
    Sends w w'
      [mkMessage ("*" +:+ d +:+ "*" +:+ nl +:+ nl +:+ "Доступные разделы:")
                 (inPairs (List.map sectionButtonOf (shownSections secs)) ++
                  [[newDiagnosisButton "Ввести новый диагноз"]])] [] /\
    sameCallbacks w' /\
    forall key,
      lookupCallback w' key = lookupAfter KSection (shownSections secs) (lookupCallback w) key.
Proof.
  intros Hid Hst Hsame. unfold displaySectionsList, bind at 1.
  rewrite mapAll_sectionButton, pairRows_inPairs.
  rewrite (map_ext _ sectionButtonOf)
    by (intros s; unfold sectionButtonOf; rewrite (tokenOf_attached w userId); auto).
  rewrite correctSections_spec. fold (shownSections secs).
  destruct (storeAll_step KSection (shownSections secs) w userId Hid Hst Hsame)
    as (S1 & Hsame1 & Hl1).
  match goal with |- context [replyAndSave ?t ?r ?w0] =>
    destruct (reply_step t r w0) as (w' & Heq & S2 & K2) end.
  exists w'. split; [exact Heq|]. split; [|split].
  - apply (Sends_trans _ _ _ [] _ [] [] S1 S2).
  - eapply Keeps_sameCallbacks; [apply S2|exact K2|exact Hsame1].
  - intros key. rewrite (Keeps_lookup _ _ _ K2). apply Hl1.
Qed.

Lemma showDiagnosisOptions_outcome d l w userId :
  userIdOf w = Some userId ->
  userState w <> None ->
  sameCallbacks w ->
  exists w',
    showDiagnosisOptions (d :: l) w = (Returned tt, w') /\
    Sends w w' [diagnosesMessage (Some (d :: l))] [] /\
    sameCallbacks w' /\
    forall key,
      lookupCallback w' key =
      lookupAfter KDiagnosis (d :: List.filter (String.eqb d) l) (lookupCallback w) key.
Proof.
  intros Hid Hst Hsame. unfold showDiagnosisOptions, bind at 1.
  rewrite mapAll_diagnosisButton, correctDiagnoses_cons.
  rewrite (map_ext _ diagnosisRow)
    by (intros s; unfold diagnosisRow; rewrite (tokenOf_attached w userId); auto).
  destruct (storeAll_step KDiagnosis (d :: List.filter (String.eqb d) l) w userId Hid Hst Hsame)
    as (S1 & Hsame1 & Hl1).
  match goal with |- context [replyAndSave ?t ?r ?w0] =>
    destruct (reply_step t r w0) as (w' & Heq & S2 & K2) end.
  exists w'. split; [exact Heq|]. split; [|split].
  - apply (Sends_trans _ _ _ [] _ [] [] S1 S2).
  - eapply Keeps_sameCallbacks; [apply S2|exact K2|exact Hsame1].
  - intros key. rewrite (Keeps_lookup _ _ _ K2). apply Hl1.
Qed.

End StepFacts.

Module OutcomeFacts.
Import ControllerFacts HandlerFacts MappingFacts NavigationFacts CallbackFacts StepFacts.

Lemma handleDiagnosisInput_outcome remote q w userId :
  userIdOf w = Some userId ->
  userState w <> None ->
  sameCallbacks w ->
  exists w',
    handleDiagnosisInput remote q w = (Returned tt, w') /\
    Sends w w' [searchingMessage; diagnosesMessage (similarDiagnoses remote q)]
          [GetSimilarDiagnoses q] /\
    sameCallbacks w' /\
    forall key,
      lookupCallback w' key =
      lookupAfter KDiagnosis (keptDiagnoses (similarDiagnoses remote q)) (lookupCallback w) key.
Proof.
  intros Hid Hst Hsame.
  unfold handleDiagnosisInput, bind at 1, get at 1. rewrite Hid.
  unfold try_catch, bind at 1.
  destruct (reply_step "Ищу похожие диагнозы..." [] w) as (w1 & Heq1 & S1 & K1).
  rewrite Heq1. unfold bind at 1, getSimilarDiagnoses.
  destruct (call_step (GetSimilarDiagnoses q) "Failed to get similar diagnoses"
                      (similarDiagnoses remote q) w1) as (w2 & Heq2 & S2 & K2).
  rewrite Heq2.
  pose proof (Sends_trans _ _ _ _ _ _ _ S1 S2) as S12.
  pose proof (Keeps_trans _ _ _ K1 K2) as K12.
  assert (Hid2 : userIdOf w2 = Some userId)
    by (rewrite (Sends_userIdOf _ _ _ _ S12); exact Hid).
  assert (Hst2 : userState w2 <> None) by (apply (Sends_state _ _ _ _ S12), Hst).
  assert (Hsame2 : sameCallbacks w2)
    by (eapply Keeps_sameCallbacks; [apply S12|exact K12|exact Hsame]).
  destruct (similarDiagnoses remote q) as [[|d l]|]; cbn [keptDiagnoses diagnosesMessage].
  - unfold showNoResultsFound.
    match goal with |- context [replyAndSave ?t ?r w2] =>
      destruct (reply_step t r w2) as (w3 & Heq3 & S3 & K3) end.
    rewrite Heq3. exists w3. split; [reflexivity|].
    split; [apply (Sends_trans _ _ _ _ _ _ _ S12 S3)|].
    split; [eapply Keeps_sameCallbacks; [apply S3|exact K3|exact Hsame2]|].
    intros key. rewrite (Keeps_lookup _ _ _ K3), (Keeps_lookup _ _ _ K12). reflexivity.
  - destruct (showDiagnosisOptions_outcome d l w2 userId Hid2 Hst2 Hsame2)
      as (w3 & Heq3 & S3 & Hsame3 & Hl3).
    rewrite Heq3. exists w3. split; [reflexivity|].
    split; [apply (Sends_trans _ _ _ _ _ _ _ S12 S3)|].
    split; [exact Hsame3|].
    intros key. rewrite Hl3. apply (lookupAfter_ext KDiagnosis).
    intros key'. apply (Keeps_lookup _ _ _ K12).
  - unfold bind at 1.
    destruct (log_step "Error getting similar diagnoses:" w2) as (w3 & Heq3 & S3 & K3).
    rewrite Heq3. unfold sendSearchError.
    match goal with |- context [replyAndSave ?t ?r w3] =>
      destruct (reply_step t r w3) as (w4 & Heq4 & S4 & K4) end.
    rewrite Heq4. exists w4. split; [reflexivity|].
    pose proof (Sends_trans _ _ _ _ _ _ _ S3 S4) as S34.
    pose proof (Keeps_trans _ _ _ K3 K4) as K34.
    split; [apply (Sends_trans _ _ _ _ _ _ _ S12 S34)|].
    split; [eapply Keeps_sameCallbacks; [apply S34|exact K34|exact Hsame2]|].
    intros key. rewrite (Keeps_lookup _ _ _ K34), (Keeps_lookup _ _ _ K12). reflexivity.
Qed.

End OutcomeFacts.

Module PrologueFacts.
Import ControllerFacts HandlerFacts MappingFacts NavigationFacts CallbackFacts StepFacts.

(** What every handler starts with: the middleware attaches the state and
    [clearPreviousMessages] runs.  Nothing is sent or asked of the API, no
    stored diagnosis or section list changes, and the context holds the
    callback entries that were stored for the user. *)
Lemma prologue remote w userId :
  userIdOf w = Some userId ->
  exists w0 w1,
    middleware (mkWorld (manager w) (from_id w) None
                        (outbox w) (deleted w) (apiCalls w) (nextMessageId w))
      = (Returned tt, w0) /\
    clearPreviousMessages remote w0 = (Returned tt, w1) /\
    from_id w1 = from_id w /\
    userState w1 <> None /\
    outbox w1 = outbox w /\
    apiCalls w1 = apiCalls w /\
    (forall u, storedDiagnosis u w1 = storedDiagnosis u w) /\
    (forall u, storedSections u w1 = storedSections u w) /\
    sameCallbacks w1 /\
    (forall key, lookupCallback w1 key = storedCallback userId w key).
Proof.
  intros Hid. pose proof (userIdOf_Some _ _ Hid) as Hfrom.
  unfold middleware. cbn [from_id manager outbox deleted apiCalls nextMessageId].
  rewrite Hfrom. eexists. 
  set (w0 := mkWorld _ _ (Some _) _ _ _ _).
  assert (Hid0 : userIdOf w0 = Some userId)
    by (rewrite <- Hid; apply userIdOf_from_id; cbn; congruence).
  assert (Hl0 : forall key, lookupCallback w0 key = storedCallback userId w key).
  { intros key. unfold lookupCallback, ctxCallbackMap, storedCallback. cbn.
    destruct (SessionManager.getUserState userId (manager w)); [reflexivity|].
    cbn. apply lookup_empty. }
  destruct (ctxMessageIds w0) as [[|first others]|] eqn:Hids.
  - exists w0. split; [reflexivity|].
    split; [apply clearPreviousMessages_nothing; right; rewrite Hids; reflexivity|].
    cbn. split; [congruence|]. split; [discriminate|].
    split; [reflexivity|]. split; [reflexivity|]. split; [reflexivity|].
    split; [reflexivity|]. split; [|exact Hl0].
    unfold sameCallbacks. rewrite Hid0. intros key. rewrite Hl0. reflexivity.
  - destruct (clearPreviousMessages_clears remote w0 userId first others Hid0 Hids)
      as (wl & w' & Heq & Hdata & _ & Hm & Hst' & a & b & c & _).
    exists w'. split; [reflexivity|]. split; [exact Heq|].
    assert (Hl' : forall key, lookupCallback w' key = lookupCallback w0 key).
    { intros key. unfold lookupCallback, ctxCallbackMap. rewrite Hst'. reflexivity. }
    assert (Hs' : forall key, storedCallback userId w' key = lookupCallback w0 key).
    { intros key. unfold storedCallback. rewrite Hm.
      rewrite SessionManagerFacts.getUserState_updateUserState.
      cbn [spread callbackMap spread_field p_callbackMap]. reflexivity. }
    split; [rewrite a; cbn; congruence|].
    split; [rewrite Hst'; discriminate|].
    split; [rewrite b; reflexivity|]. split; [rewrite c; reflexivity|].
    split; [|split; [|split]].
    + intros u. rewrite (storedDiagnosis_update userId u _ wl w' Hm eq_refl).
      apply storedDiagnosis_data. exact Hdata.
    + intros u. rewrite (storedSections_update userId u _ wl w' Hm eq_refl).
      apply storedSections_data. exact Hdata.
    + unfold sameCallbacks. rewrite (userIdOf_from_id _ _ a), Hid0.
      intros key. rewrite Hl', Hs'. reflexivity.
    + intros key. rewrite Hl'. apply Hl0.
  - exists w0. split; [reflexivity|].
    split; [apply clearPreviousMessages_nothing; right; rewrite Hids; reflexivity|].
    cbn. split; [congruence|]. split; [discriminate|].
    split; [reflexivity|]. split; [reflexivity|]. split; [reflexivity|].
    split; [reflexivity|]. split; [|exact Hl0].
    unfold sameCallbacks. rewrite Hid0. intros key. rewrite Hl0. reflexivity.
Qed.

(** At the end of an event the store answers for the next one. *)
Lemma storedMapping_lookup w userId key :
  userIdOf w = Some userId ->
  sameCallbacks w ->
  storedMapping w key =
  match lookupCallback w key with
  | Some v => if JS.truthy_string v then Some v else None
  | None => None
  end.
Proof.
  intros Hid Hsame. unfold storedMapping, sameCallbacks in *. rewrite Hid in *.
  rewrite Hsame. reflexivity.
Qed.

End PrologueFacts.



Module SectionsOutcomeFacts.
Import ControllerFacts HandlerFacts MappingFacts NavigationFacts CallbackFacts StepFacts.

Lemma bind_assoc {A B C} (c : M A) (k : A -> M B) (h : B -> M C) w :
  bind c (fun a => bind (k a) h) w = bind (bind c k) h w.
Proof. unfold bind. destruct (c w) as [[a|e] w']; reflexivity. Qed.

(** The two assignments of [showSections]: the section list goes to the
    store and to the context. *)
Lemma setSections_step userId secs w :
  exists w',
    bind (onManager (SessionManager.updateUserState userId
                       (mkPartial None (Some (Some secs)) None None None)))
         (fun _ => onUserState (set_sections (Some secs))) w = (Returned tt, w') /\
    from_id w' = from_id w /\
    (userState w' = None <-> userState w = None) /\
    outbox w' = outbox w /\ apiCalls w' = apiCalls w /\
    (forall u, storedDiagnosis u w' = storedDiagnosis u w) /\
    storedSections userId w' = Some secs /\
    KeepsCallbacks w w'.
Proof.
  eexists. split; [reflexivity|]. cbn.
  split; [reflexivity|]. split; [destruct (userState w); cbn; split; congruence|].
  split; [reflexivity|]. split; [reflexivity|].
  split; [|split; [|split]].
  - intros u. eapply (storedDiagnosis_update userId); [reflexivity|reflexivity].
  - unfold storedSections. cbn.
    rewrite SessionManagerFacts.getUserState_updateUserState. reflexivity.
  - unfold ctxCallbackMap. cbn. destruct (userState w); reflexivity.
  - intros u key. eapply (storedCallback_update userId); [reflexivity|reflexivity].
Qed.

Lemma showSections_outcome remote w userId :
  userIdOf w = Some userId ->
  userState w <> None ->
  sameCallbacks w ->
  exists w',
    showSections remote w = (Returned tt, w') /\
    from_id w' = from_id w /\
    userState w' <> None /\
    sameCallbacks w' /\
    (forall u, storedDiagnosis u w' = storedDiagnosis u w) /\
    match storedDiagnosis userId w with
    | None =>
        outbox w' = outbox w ++ [errorMessage "Информация не найдена"] /\
        apiCalls w' = apiCalls w /\
        storedSections userId w' = storedSections userId w /\
        forall key, lookupCallback w' key = lookupCallback w key
    | Some d =>
        outbox w' = outbox w ++ [sectionsMessage d (sectionsOf remote d)] /\
        apiCalls w' = apiCalls w ++ [GetSections d] /\
        storedSections userId w' =
          sectionsAfter (storedSections userId w) (sectionsOf remote d) /\
        forall key,
          lookupCallback w' key =
          lookupAfter KSection (keptSections (sectionsOf remote d)) (lookupCallback w) key
    end.
Proof.
  intros Hid Hst Hsame.
  unfold showSections, bind at 1, get at 1. rewrite Hid.
  unfold try_catch, bind at 1, get at 1.
  destruct (storedDiagnosis userId w) as [d|] eqn:Hd.
  - unfold bind at 1, getSections.
    destruct (call_step (GetSections d) "Failed to get diagnosis sections"
                        (sectionsOf remote d) w) as (w1 & Heq1 & S1 & K1).
    rewrite Heq1.
    assert (Hid1 : userIdOf w1 = Some userId)
      by (rewrite (Sends_userIdOf _ _ _ _ S1); exact Hid).
    assert (Hst1 : userState w1 <> None) by (apply (Sends_state _ _ _ _ S1), Hst).
    assert (Hsame1 : sameCallbacks w1)
      by (eapply Keeps_sameCallbacks; [apply S1|exact K1|exact Hsame]).
    destruct (sectionsOf remote d) as [[|s l]|];
      cbn [sectionsMessage sectionsAfter keptSections].
    + unfold showNoSectionsAvailable.
      match goal with |- context [replyAndSave ?t ?r w1] =>
        destruct (reply_step t r w1) as (w2 & Heq2 & S2 & K2) end.
      rewrite Heq2. exists w2. split; [reflexivity|].
      pose proof (Sends_trans _ _ _ _ _ _ _ S1 S2) as S.
      pose proof (Keeps_trans _ _ _ K1 K2) as K.
      destruct S as (a & b & c & e & f & g).
      split; [exact a|]. split; [tauto|].
      split; [eapply Keeps_sameCallbacks; [exact a|exact K|exact Hsame]|].
      split; [exact f|]. split; [exact c|]. split; [exact e|]. split; [apply g|].
      intros key. apply (Keeps_lookup _ _ _ K).
    + destruct (setSections_step userId (s :: l) w1)
        as (w2 & Heq2 & a2 & b2 & c2 & e2 & f2 & g2 & K2).
      rewrite bind_assoc. unfold bind at 1. rewrite Heq2.
      assert (Hid2 : userIdOf w2 = Some userId)
        by (rewrite (userIdOf_from_id _ _ a2); exact Hid1).
      assert (Hst2 : userState w2 <> None) by tauto.
      assert (Hsame2 : sameCallbacks w2)
        by (eapply Keeps_sameCallbacks; [exact a2|exact K2|exact Hsame1]).
      destruct (displaySectionsList_outcome d (s :: l) w2 userId Hid2 Hst2 Hsame2)
        as (w3 & Heq3 & S3 & Hsame3 & Hl3).
      rewrite Heq3. exists w3. split; [reflexivity|].
      destruct S1 as (a1 & b1 & c1 & e1 & f1 & g1).
      destruct S3 as (a3 & b3 & c3 & e3 & f3 & g3).
      split; [congruence|]. split; [tauto|]. split; [exact Hsame3|].
      split; [intros u; rewrite f3, f2, f1; reflexivity|].
      split; [rewrite c3, c2, c1, app_nil_r; reflexivity|].
      split; [rewrite e3, e2, e1, app_nil_r; reflexivity|].
      split; [rewrite g3; exact g2|].
      intros key. rewrite Hl3. apply (lookupAfter_ext KSection). intros key'.
      rewrite (Keeps_lookup _ _ _ K2). apply (Keeps_lookup _ _ _ K1).
    + unfold bind at 1.
      destruct (log_step "Error getting sections:" w1) as (w2 & Heq2 & S2 & K2).
      rewrite Heq2. unfold sendLoadError.
      match goal with |- context [replyAndSave ?t ?r w2] =>
        destruct (reply_step t r w2) as (w3 & Heq3 & S3 & K3) end.
      rewrite Heq3. exists w3. split; [reflexivity|].
      pose proof (Sends_trans _ _ _ _ _ _ _ S1 (Sends_trans _ _ _ _ _ _ _ S2 S3)) as S.
      pose proof (Keeps_trans _ _ _ K1 (Keeps_trans _ _ _ K2 K3)) as K.
      destruct S as (a & b & c & e & f & g).
      split; [exact a|]. split; [tauto|].
      split; [eapply Keeps_sameCallbacks; [exact a|exact K|exact Hsame]|].
      split; [exact f|]. split; [exact c|]. split; [exact e|]. split; [apply g|].
      intros key. apply (Keeps_lookup _ _ _ K).
  - unfold sendErrorMessage.
    match goal with |- context [replyAndSave ?t ?r w] =>
      destruct (reply_step t r w) as (w1 & Heq1 & S & K) end.
    rewrite Heq1. exists w1. split; [reflexivity|].
    destruct S as (a & b & c & e & f & g).
    split; [exact a|]. split; [tauto|].
    split; [eapply Keeps_sameCallbacks; [exact a|exact K|exact Hsame]|].
    split; [exact f|]. split; [exact c|].
    split; [rewrite e, app_nil_r; reflexivity|]. split; [apply g|].
    intros key. apply (Keeps_lookup _ _ _ K).
Qed.

End SectionsOutcomeFacts.

Module SelectionOutcomeFacts.
Import ControllerFacts HandlerFacts MappingFacts NavigationFacts CallbackFacts StepFacts.
Import SectionsOutcomeFacts.

(** The two assignments of [processDiagnosisSelection]. *)
Lemma setDiagnosis_step userId d w :
  exists w',
    bind (onManager (SessionManager.updateUserState userId
                       (mkPartial (Some (Some d)) None None None None)))
         (fun _ => onUserState (set_diagnosis (Some d))) w = (Returned tt, w') /\
    from_id w' = from_id w /\
    (userState w' = None <-> userState w = None) /\
    outbox w' = outbox w /\ apiCalls w' = apiCalls w /\
    storedDiagnosis userId w' = (if JS.truthy_string d then Some d else None) /\
    (forall u, storedSections u w' = storedSections u w) /\
    KeepsCallbacks w w'.
Proof.
  eexists. split; [reflexivity|]. cbn.
  split; [reflexivity|]. split; [destruct (userState w); cbn; split; congruence|].
  split; [reflexivity|]. split; [reflexivity|].
  split; [|split; [|split]].
  - unfold storedDiagnosis. cbn.
    rewrite SessionManagerFacts.getUserState_updateUserState. reflexivity.
  - intros u. eapply (storedSections_update userId); [reflexivity|reflexivity].
  - unfold ctxCallbackMap. cbn. destruct (userState w); reflexivity.
  - intros u key. eapply (storedCallback_update userId); [reflexivity|reflexivity].
Qed.

Lemma processDiagnosisSelection_outcome remote d w userId :
  userIdOf w = Some userId ->
  userState w <> None ->
  sameCallbacks w ->
  JS.truthy_string d = true ->
  exists w',
    processDiagnosisSelection remote d w = (Returned tt, w') /\
    from_id w' = from_id w /\
    sameCallbacks w' /\
    storedDiagnosis userId w' = Some d /\
    outbox w' = outbox w ++ [loadingMessage d; sectionsMessage d (sectionsOf remote d)] /\
    apiCalls w' = apiCalls w ++ [GetSections d] /\
    storedSections userId w' =
      sectionsAfter (storedSections userId w) (sectionsOf remote d) /\
    forall key,
      lookupCallback w' key =
      lookupAfter KSection (keptSections (sectionsOf remote d)) (lookupCallback w) key.
Proof.
  intros Hid Hst Hsame Htruthy.
  unfold processDiagnosisSelection, bind at 1, get at 1. rewrite Hid.
  destruct (setDiagnosis_step userId d w)
    as (w1 & Heq1 & a1 & b1 & c1 & e1 & f1 & g1 & K1).
  rewrite bind_assoc. unfold bind at 1. rewrite Heq1. rewrite Htruthy in f1.
  unfold bind at 1.
  match goal with |- context [replyAndSave ?t ?r w1] =>
    destruct (reply_step t r w1) as (w2 & Heq2 & S2 & K2) end.
  rewrite Heq2. destruct S2 as (a2 & b2 & c2 & e2 & f2 & g2).
  assert (Hid2 : userIdOf w2 = Some userId)
    by (rewrite (userIdOf_from_id _ _ a2), (userIdOf_from_id _ _ a1); exact Hid).
  assert (Hst2 : userState w2 <> None) by tauto.
  pose proof (Keeps_trans _ _ _ K1 K2) as K.
  assert (Hsame2 : sameCallbacks w2)
    by (apply (Keeps_sameCallbacks w w2); [congruence|exact K|exact Hsame]).
  destruct (showSections_outcome remote w2 userId Hid2 Hst2 Hsame2)
    as (w3 & Heq3 & a3 & b3 & Hsame3 & f3 & Hcase).
  rewrite f2, f1 in Hcase. destruct Hcase as (c3 & e3 & g3 & Hl3).
  exists w3. split; [exact Heq3|].
  split; [congruence|]. split; [exact Hsame3|].
  split; [rewrite f3, f2; exact f1|].
  split; [rewrite c3, c2, c1, <- app_assoc; reflexivity|].
  split; [rewrite e3, e2, e1, app_nil_r; reflexivity|].
  split; [rewrite g3, g2, g1; reflexivity|].
  intros key. rewrite Hl3. apply (lookupAfter_ext KSection). intros key'.
  apply (Keeps_lookup _ _ _ K).
Qed.

(** The section buttons of a keyboard resolve at the next event. *)
Lemma section_buttons_resolve w w' userId kept :
  userIdOf w' = Some userId ->
  sameCallbacks w' ->
  (forall key, lookupCallback w' key = lookupAfter KSection kept (lookupCallback w) key) ->
  forall section,
    In section kept ->
    section <> EmptyString ->
    (forall other, In other kept -> generateHash other = generateHash section ->
                   other = section) ->
    storedMapping w' ("section:" +:+ generateHash section) = Some section.
Proof.
  intros Hid Hsame Hl section Hin Hne Huniq.
  rewrite (PrologueFacts.storedMapping_lookup w' userId _ Hid Hsame), Hl.
  rewrite <- LookupFacts.keyOf_section, LookupFacts.lookupAfter_unique by assumption.
  destruct section; [congruence|reflexivity].
Qed.

End SelectionOutcomeFacts.

Module EventFacts.
Import ControllerFacts HandlerFacts NavigationFacts CallbackFacts.

(** A value filed during an event is what its key resolves to at the next
    one, provided it is not empty and no other value filed with it has its
    token. *)
Lemma mapping_after w' userId k l before v :
  userIdOf w' = Some userId ->
  sameCallbacks w' ->
  (forall key, lookupCallback w' key = lookupAfter k l before key) ->
  In v l ->
  v <> EmptyString ->
  (forall other, In other l -> generateHash other = generateHash v -> other = v) ->
  storedMapping w' (keyOf k v) = Some v.
Proof.
  intros Hid Hsame Hl Hin Hne Huniq.
  rewrite (PrologueFacts.storedMapping_lookup w' userId _ Hid Hsame), Hl.
  rewrite LookupFacts.lookupAfter_unique by assumption.
  destruct v; [congruence|reflexivity].
Qed.

(** A key under which the event filed nothing resolves as before. *)
Lemma mapping_kept w w' userId k l key :
  userIdOf w = Some userId ->
  userIdOf w' = Some userId ->
  sameCallbacks w' ->
  (forall key, lookupCallback w' key = lookupAfter k l (storedCallback userId w) key) ->
  (forall v, In v l -> keyOf k v <> key) ->
  storedMapping w' key = storedMapping w key.
Proof.
  intros Hid Hid' Hsame Hl Hother.
  rewrite (PrologueFacts.storedMapping_lookup w' userId _ Hid' Hsame), Hl.
  rewrite LookupFacts.lookupAfter_other by exact Hother.
  unfold storedMapping. rewrite Hid. reflexivity.
Qed.

(** A text that is not a command, from the store's point of view. *)
Lemma text_core remote messageText w userId :
  userIdOf w = Some userId ->
  JS.startsWith "/" (trim messageText) = false ->
  exists w',
    dispatch (handleTextInput remote messageText) w = (Returned tt, w') /\
    userIdOf w' = Some userId /\
    sameCallbacks w' /\
    outbox w' = outbox w ++
      [searchingMessage; diagnosesMessage (similarDiagnoses remote (trim messageText))] /\
    apiCalls w' = apiCalls w ++ [GetSimilarDiagnoses (trim messageText)] /\
    storedDiagnosis userId w' = storedDiagnosis userId w /\
    storedSections userId w' = storedSections userId w /\
    forall key,
      lookupCallback w' key =
      lookupAfter KDiagnosis (keptDiagnoses (similarDiagnoses remote (trim messageText)))
                  (storedCallback userId w) key.
Proof.
  intros Hid Hcmd.
  destruct (PrologueFacts.prologue remote w userId Hid)
    as (w0 & w1 & Hmid & Hclear & a & b & c & d & e & f & Hsame & Hl).
  assert (Hid1 : userIdOf w1 = Some userId)
    by (rewrite (userIdOf_from_id _ _ a); exact Hid).
  destruct (OutcomeFacts.handleDiagnosisInput_outcome remote (trim messageText)
              w1 userId Hid1 b Hsame) as (w' & Heq & S & Hsame' & Hl').
  exists w'. split.
  { rewrite (SessionFlowFacts.dispatch_ext _
               (bind (clearPreviousMessages remote)
                     (fun _ => handleDiagnosisInput remote (trim messageText)))).
    - unfold dispatch, bind at 1. rewrite Hmid. unfold bind at 1. rewrite Hclear.
      exact Heq.
    - intros wx Hfrom. apply SessionFlowFacts.handleTextInput_runs; [exact Hcmd|].
      rewrite (userIdOf_from_id _ _ Hfrom), Hid. discriminate. }
  split; [rewrite (Sends_userIdOf _ _ _ _ S); exact Hid1|].
  split; [exact Hsame'|].
  destruct S as (S1 & S2 & S3 & S4 & S5 & S6).
  split; [rewrite S3, c; reflexivity|]. split; [rewrite S4, d; reflexivity|].
  split; [rewrite S5; apply e|]. split; [rewrite S6; apply f|].
  intros key. rewrite Hl'. apply (lookupAfter_ext KDiagnosis). exact Hl.
Qed.

(** [showSections] after the prologue, from the store's point of view. *)
Lemma back_core remote w userId :
  userIdOf w = Some userId ->
  exists w',
    dispatch (handleBackToSections remote) w = (Returned tt, w') /\
    userIdOf w' = Some userId /\
    sameCallbacks w' /\
    storedDiagnosis userId w' = storedDiagnosis userId w /\
    match storedDiagnosis userId w with
    | None =>
        outbox w' = outbox w ++ [errorMessage "Информация не найдена"] /\
        apiCalls w' = apiCalls w /\
        storedSections userId w' = storedSections userId w
    | Some d =>
        outbox w' = outbox w ++ [sectionsMessage d (sectionsOf remote d)] /\
        apiCalls w' = apiCalls w ++ [GetSections d] /\
        storedSections userId w' =
          sectionsAfter (storedSections userId w) (sectionsOf remote d) /\
        forall key,
          lookupCallback w' key =
          lookupAfter KSection (keptSections (sectionsOf remote d))
                      (storedCallback userId w) key
    end.
Proof.
  intros Hid.
  destruct (PrologueFacts.prologue remote w userId Hid)
    as (w0 & w1 & Hmid & Hclear & a & b & c & d & e & f & Hsame & Hl).
  assert (Hid1 : userIdOf w1 = Some userId)
    by (rewrite (userIdOf_from_id _ _ a); exact Hid).
  destruct (SectionsOutcomeFacts.showSections_outcome remote w1 userId Hid1 b Hsame)
    as (w' & Heq & a' & b' & Hsame' & f' & Hcase).
  exists w'. split.
  { unfold dispatch, bind at 1. rewrite Hmid.
    unfold handleBackToSections, bind at 1. rewrite Hclear. exact Heq. }
  split; [rewrite (userIdOf_from_id _ _ a'); exact Hid1|].
  split; [exact Hsame'|]. split; [rewrite f'; apply e|].
  rewrite e in Hcase. destruct (storedDiagnosis userId w) as [diag|].
  - destruct Hcase as (c' & d' & g' & Hl').
    split; [rewrite c', c; reflexivity|]. split; [rewrite d', d; reflexivity|].
    split; [rewrite g', f; reflexivity|].
    intros key. rewrite Hl'. apply (lookupAfter_ext KSection). exact Hl.
  - destruct Hcase as (c' & d' & g' & _).
    split; [rewrite c', c; reflexivity|]. split; [rewrite d', d; reflexivity|].
    rewrite g'. apply f.
Qed.

(** A diagnosis button, from the store's point of view. *)
Lemma diagnosis_core remote hash w userId :
  userIdOf w = Some userId ->
  exists w',
    dispatch (handleDiagnosisSelection remote hash) w = (Returned tt, w') /\
    userIdOf w' = Some userId /\
    sameCallbacks w' /\
    match storedMapping w ("diagnosis:" +:+ hash) with
    | None =>
        outbox w' = outbox w ++ [errorMessage "Диагноз не найден"] /\
        apiCalls w' = apiCalls w /\
        storedDiagnosis userId w' = storedDiagnosis userId w /\
        storedSections userId w' = storedSections userId w
    | Some d =>
        storedDiagnosis userId w' = Some d /\
        outbox w' = outbox w ++ [loadingMessage d; sectionsMessage d (sectionsOf remote d)] /\
        apiCalls w' = apiCalls w ++ [GetSections d] /\
        storedSections userId w' =
          sectionsAfter (storedSections userId w) (sectionsOf remote d) /\
        forall key,
          lookupCallback w' key =
          lookupAfter KSection (keptSections (sectionsOf remote d))
                      (storedCallback userId w) key
    end.
Proof.
  intros Hid.
  destruct (PrologueFacts.prologue remote w userId Hid)
    as (w0 & w1 & Hmid & Hclear & a & b & c & d & e & f & Hsame & Hl).
  assert (Hid1 : userIdOf w1 = Some userId)
    by (rewrite (userIdOf_from_id _ _ a); exact Hid).
  assert (Hres : resolved w1 ("diagnosis:" +:+ hash) =
                 storedMapping w ("diagnosis:" +:+ hash)).
  { unfold resolved, storedMapping. rewrite Hid1, Hid, Hl. reflexivity. }
  assert (Hrun : dispatch (handleDiagnosisSelection remote hash) w =
                 match storedMapping w ("diagnosis:" +:+ hash) with
                 | Some d => processDiagnosisSelection remote d w1
                 | None => sendErrorMessage "Диагноз не найден" w1
                 end).
  { unfold dispatch, bind at 1. rewrite Hmid.
    unfold handleDiagnosisSelection, bind at 1. rewrite Hclear.
    unfold bind at 1. rewrite resolveCallbackMapping_eq, Hres.
    destruct (storedMapping w ("diagnosis:" +:+ hash)); reflexivity. }
  rewrite Hrun.
  destruct (storedMapping w ("diagnosis:" +:+ hash)) as [diag|] eqn:Hmap.
  - assert (Htruthy : JS.truthy_string diag = true).
    { unfold storedMapping in Hmap. rewrite Hid in Hmap.
      destruct (storedCallback userId w _) as [v|]; [|discriminate].
      destruct (JS.truthy_string v) eqn:Hv; [|discriminate]. congruence. }
    destruct (SelectionOutcomeFacts.processDiagnosisSelection_outcome
                remote diag w1 userId Hid1 b Hsame Htruthy)
      as (w' & Heq & a' & Hsame' & f' & c' & d' & g' & Hl').
    exists w'. split; [exact Heq|].
    split; [rewrite (userIdOf_from_id _ _ a'); exact Hid1|].
    split; [exact Hsame'|]. split; [exact f'|].
    split; [rewrite c', c; reflexivity|]. split; [rewrite d', d; reflexivity|].
    split; [rewrite g', f; reflexivity|].
    intros key. rewrite Hl'. apply (lookupAfter_ext KSection). exact Hl.
  - unfold sendErrorMessage.
    match goal with |- context [replyAndSave ?t ?r w1] =>
      destruct (StepFacts.reply_step t r w1) as (w' & Heq & S & K) end.
    exists w'. split; [exact Heq|].
    split; [rewrite (Sends_userIdOf _ _ _ _ S); exact Hid1|].
    split; [apply (Keeps_sameCallbacks w1 w'); [apply S|exact K|exact Hsame]|].
    destruct S as (a' & b' & c' & d' & e' & f').
    split; [rewrite c', c; reflexivity|].
    split; [rewrite d', d, app_nil_r; reflexivity|].
    split; [rewrite e'; apply e|]. rewrite f'. apply f.
Qed.

(** The candidates of a keyboard are copies of the first. *)
Lemma keptDiagnoses_same answer x y :
  In x (keptDiagnoses answer) -> In y (keptDiagnoses answer) -> x = y.
Proof.
  destruct answer as [[|d l]|]; cbn [keptDiagnoses]; [intros []| |intros []].
  assert (Hall : forall z, In z (d :: List.filter (String.eqb d) l) -> z = d).
  { intros z [<-|Hz]; [reflexivity|]. apply filter_In in Hz as [_ Hz].
    apply String.eqb_eq in Hz. congruence. }
  intros Hx Hy. rewrite (Hall _ Hx), (Hall _ Hy). reflexivity.
Qed.

End EventFacts.

(** C4.  A search is answered with the two candidates A and B, A not
    empty.  The keyboard the user gets has the button of A, bound to the token
    of A, and the button of B only when B is A itself.  Pressing the button of
    A resolves to A: A becomes the stored diagnosis, and the bot announces and
    loads the sections of A.  It never resolves to another name B, whatever
    the tokens of the two names are: no hypothesis relates them, so the case
    of equal tokens is included.  [showDiagnosisOptions] files a mapping for A
    and its copies only, so a B with the token of A has no entry that could
    take the place of the entry of A. *)
Theorem C4_button_of_A_resolves_to_A
    (remote : Remote) (w : World) (query A B : string) :
  userIdOf w <> None ->
  JS.startsWith "/" (trim query) = false ->
  similarDiagnoses remote (trim query) = Some [A; B] ->
  A <> EmptyString ->
  let shown := after remote (Text query) w in
  let pressed := after remote (DiagnosisSelection (generateHash A)) shown in
  outbox shown =
    outbox w ++
    [ searchingMessage;
      mkMessage "Найдены следующие диагнозы. Выберите подходящий:"
        ((if String.eqb A B
          then [ [mkButton A ("select_diagnosis:" +:+ generateHash A)];
                 [mkButton A ("select_diagnosis:" +:+ generateHash A)] ]
          else [ [mkButton A ("select_diagnosis:" +:+ generateHash A)] ]) ++
         [[newDiagnosisButton "Ввести новый диагноз"]]) ] /\
  storedMapping shown ("diagnosis:" +:+ generateHash A) = Some A /\
  currentDiagnosis pressed = Some A /\
  (B <> A -> currentDiagnosis pressed <> Some B) /\
  outbox pressed =
    outbox shown ++ [loadingMessage A; sectionsMessage A (sectionsOf remote A)] /\
  apiCalls pressed = apiCalls shown ++ [GetSections A].
Proof.
  intros Huser Hcmd Hsim HA. cbv zeta.
  destruct (userIdOf w) as [userId|] eqn:Hid; [clear Huser|congruence].
  (* the search and its keyboard *)
  destruct (EventFacts.text_core remote query w userId Hid Hcmd)
    as (w1 & Heq1 & Hid1 & Hsame1 & o1 & _ & _ & _ & Hl1).
  rewrite Hsim in o1, Hl1.
  assert (Hw1 : after remote (Text query) w = w1)
    by (unfold after; cbn [handlerOf]; rewrite Heq1; reflexivity).
  rewrite Hw1.
  assert (Hres : storedMapping w1 ("diagnosis:" +:+ generateHash A) = Some A).
  { rewrite <- LookupFacts.keyOf_diagnosis.
    apply (EventFacts.mapping_after w1 userId KDiagnosis _ _ A Hid1 Hsame1 Hl1);
      [left; reflexivity|exact HA|].
    intros other Hother _.
    apply (EventFacts.keptDiagnoses_same (Some [A; B]) other A Hother).
    left. reflexivity. }
  (* the button of A *)
  destruct (EventFacts.diagnosis_core remote (generateHash A) w1 userId Hid1)
    as (w2 & Heq2 & Hid2 & _ & H2).
  rewrite Hres in H2. destruct H2 as (Hd2 & o2 & c2 & _ & _).
  assert (Hw2 : after remote (DiagnosisSelection (generateHash A)) w1 = w2)
    by (unfold after; cbn [handlerOf]; rewrite Heq2; reflexivity).
  rewrite Hw2.
  assert (Hdiag : currentDiagnosis w2 = Some A)
    by (unfold currentDiagnosis; rewrite Hid2; exact Hd2).
  split.
  { rewrite o1. unfold diagnosesMessage, diagnosisRow. cbn [List.filter List.map].
    destruct (String.eqb_spec A B) as [<-|Hne]; reflexivity. }
  split; [exact Hres|]. split; [exact Hdiag|].
  split; [rewrite Hdiag; congruence|].
  split; [exact o2|exact c2].
Qed.

Lemma C4_button_of_A_resolves_to_A_witness :
  let shown := after twoCandidates (Text "кашель") firstEvent in
  let pressed := after twoCandidates (DiagnosisSelection (generateHash "A")) shown in
  outbox shown =
    outbox firstEvent ++
    [ searchingMessage;
      mkMessage "Найдены следующие диагнозы. Выберите подходящий:"
        ((if String.eqb "A" "B"
          then [ [mkButton "A" ("select_diagnosis:" +:+ generateHash "A")];
                 [mkButton "A" ("select_diagnosis:" +:+ generateHash "A")] ]
          else [ [mkButton "A" ("select_diagnosis:" +:+ generateHash "A")] ]) ++
         [[newDiagnosisButton "Ввести новый диагноз"]]) ] /\
  storedMapping shown ("diagnosis:" +:+ generateHash "A") = Some "A" /\
  currentDiagnosis pressed = Some "A" /\
  ("B" <> "A" -> currentDiagnosis pressed <> Some "B") /\
  outbox pressed =
    outbox shown ++ [loadingMessage "A"; sectionsMessage "A" (sectionsOf twoCandidates "A")] /\
  apiCalls pressed = apiCalls shown ++ [GetSections "A"].
Proof.
  apply (C4_button_of_A_resolves_to_A twoCandidates firstEvent "кашель" "A" "B").
  - vm_compute. discriminate.
  - reflexivity.
  - reflexivity.
  - discriminate.
Defined.

(** X9.  A text message of a user with a usable id.  A command (a text
    that starts with "/" once trimmed) is left alone: nothing is sent, deleted,
    stored or asked of the API.  Any other text is searched for exactly once,
    trimmed; the user gets the "searching" notice followed by one answer: the
    search-error message when the API call fails, the no-results message when
    it answers with no candidate, the keyboard of candidates otherwise.  The
    stored diagnosis and sections are untouched.  Every candidate the keyboard
    shows, unless it is the empty string, is what its button resolves to at
    the user's next event, and every callback entry filed earlier under
    another key is still there. *)
Theorem text_input_searches_once_and_answers
    (remote : Remote) (messageText : string) (w : World) :
  userIdOf w <> None ->
  exists w',
    dispatch (handleTextInput remote messageText) w = (Returned tt, w') /\
    if JS.startsWith "/" (trim messageText)
    then
      manager w' = manager w /\ outbox w' = outbox w /\
      deleted w' = deleted w /\ apiCalls w' = apiCalls w
    else
      outbox w' = outbox w ++
        [searchingMessage; diagnosesMessage (similarDiagnoses remote (trim messageText))] /\
      apiCalls w' = apiCalls w ++ [GetSimilarDiagnoses (trim messageText)] /\
      currentDiagnosis w' = currentDiagnosis w /\
      currentSections w' = currentSections w /\
      (forall d,
          In d (keptDiagnoses (similarDiagnoses remote (trim messageText))) ->
          d <> EmptyString ->
          storedMapping w' ("diagnosis:" +:+ generateHash d) = Some d) /\
      (forall key,
          (forall d, In d (keptDiagnoses (similarDiagnoses remote (trim messageText))) ->
                     "diagnosis:" +:+ generateHash d <> key) ->
          storedMapping w' key = storedMapping w key).
Proof.
  intros Huser. destruct (JS.startsWith "/" (trim messageText)) eqn:Hcmd.
  - destruct (SessionFlowFacts.ignored_event remote (Text messageText) w Hcmd)
      as (w' & Heq & a & _ & c & d & e & _).
    exists w'. auto.
  - destruct (userIdOf w) as [userId|] eqn:Hid; [clear Huser|congruence].
    destruct (EventFacts.text_core remote messageText w userId Hid Hcmd)
      as (w' & Heq & Hid' & Hsame' & Hout & Hcalls & Hd & Hs & Hl).
    exists w'. split; [exact Heq|]. split; [exact Hout|]. split; [exact Hcalls|].
    split; [unfold currentDiagnosis; rewrite Hid', Hid; exact Hd|].
    split; [unfold currentSections; rewrite Hid', Hid; exact Hs|].
    split.
    + intros x Hin Hne. rewrite <- LookupFacts.keyOf_diagnosis.
      apply (EventFacts.mapping_after w' userId KDiagnosis _ _ x Hid' Hsame' Hl Hin Hne).
      intros other Hother _. apply (EventFacts.keptDiagnoses_same _ _ _ Hother Hin).
    + intros key Hother.
      apply (EventFacts.mapping_kept w w' userId KDiagnosis _ key Hid Hid' Hsame' Hl).
      exact Hother.
Qed.

Lemma text_input_searches_once_and_answers_witness :
  exists w',
    dispatch (handleTextInput clinic "  Грипп ") firstEvent = (Returned tt, w') /\
    if JS.startsWith "/" (trim "  Грипп ")
    then
      manager w' = manager firstEvent /\ outbox w' = outbox firstEvent /\
      deleted w' = deleted firstEvent /\ apiCalls w' = apiCalls firstEvent
    else
      outbox w' = outbox firstEvent ++
        [searchingMessage; diagnosesMessage (similarDiagnoses clinic (trim "  Грипп "))] /\
      apiCalls w' = apiCalls firstEvent ++ [GetSimilarDiagnoses (trim "  Грипп ")] /\
      currentDiagnosis w' = currentDiagnosis firstEvent /\
      currentSections w' = currentSections firstEvent /\
      (forall d,
          In d (keptDiagnoses (similarDiagnoses clinic (trim "  Грипп "))) ->
          d <> EmptyString ->
          storedMapping w' ("diagnosis:" +:+ generateHash d) = Some d) /\
      (forall key,
          (forall d, In d (keptDiagnoses (similarDiagnoses clinic (trim "  Грипп "))) ->
                     "diagnosis:" +:+ generateHash d <> key) ->
          storedMapping w' key = storedMapping firstEvent key).
Proof.
  apply (text_input_searches_once_and_answers clinic "  Грипп " firstEvent).
  vm_compute. discriminate.
Defined.

(** X10.  "Back to sections" by a user with a usable id never reads the
    stored section list: it asks the API for the sections of the stored
    diagnosis again, once, and shows what the API answers now (the load-error
    message when the call fails, the no-information message for an empty
    list); a non-empty answer replaces the stored list.  Without a stored
    diagnosis it replies with the fixed "Информация не найдена" message and
    asks nothing of the API.  The stored diagnosis is unchanged either way. *)
Theorem back_to_sections_asks_the_api_again (remote : Remote) (w : World) :
  userIdOf w <> None ->
  exists w',
    dispatch (handleBackToSections remote) w = (Returned tt, w') /\
    currentDiagnosis w' = currentDiagnosis w /\
    match currentDiagnosis w with
    | None => OnlyReplies (errorMessage "Информация не найдена") w w'
    | Some d => SectionsShown remote d [] w w'
    end.
Proof.
  intros Huser. destruct (userIdOf w) as [userId|] eqn:Hid; [clear Huser|congruence].
  destruct (EventFacts.back_core remote w userId Hid)
    as (w' & Heq & Hid' & Hsame' & Hd & Hcase).
  exists w'. split; [exact Heq|].
  assert (Hdiag : currentDiagnosis w' = currentDiagnosis w)
    by (unfold currentDiagnosis; rewrite Hid', Hid; exact Hd).
  split; [exact Hdiag|].
  unfold currentDiagnosis at 1. rewrite Hid.
  destruct (storedDiagnosis userId w) as [diag|].
  - destruct Hcase as (Hout & Hcalls & Hs & Hl). unfold SectionsShown.
    split; [exact Hout|]. split; [exact Hcalls|].
    split; [unfold currentSections; rewrite Hid', Hid; exact Hs|].
    intros section Hin Hne Huniq. rewrite <- LookupFacts.keyOf_section.
    apply (EventFacts.mapping_after w' userId KSection _ _ section Hid' Hsame' Hl);
      assumption.
  - destruct Hcase as (Hout & Hcalls & Hs). unfold OnlyReplies.
    split; [exact Hout|]. split; [exact Hcalls|]. split; [exact Hdiag|].
    unfold currentSections. rewrite Hid', Hid. exact Hs.
Qed.

Lemma back_to_sections_asks_the_api_again_witness :
  exists w',
    dispatch (handleBackToSections clinic) afterTwoDiagnoses = (Returned tt, w') /\
    currentDiagnosis w' = currentDiagnosis afterTwoDiagnoses /\
    match currentDiagnosis afterTwoDiagnoses with
    | None => OnlyReplies (errorMessage "Информация не найдена") afterTwoDiagnoses w'
    | Some d => SectionsShown clinic d [] afterTwoDiagnoses w'
    end.
Proof.
  apply (back_to_sections_asks_the_api_again clinic afterTwoDiagnoses).
  vm_compute. discriminate.
Defined.

(** X11.  Pressing a diagnosis button, for a user with a usable id.  When
    the hash resolves in the stored callback map to a non-empty name, that
    name becomes the stored diagnosis, the "loading" notice is sent, and the
    sections of the diagnosis are asked of the API once and shown; when the
    API fails or answers with no section the diagnosis is the new one while
    the stored section list is still the previous one.  When the hash does not
    resolve, the user gets the fixed "Диагноз не найден" message and nothing
    else happens. *)
Theorem diagnosis_selection_outcome (remote : Remote) (hash : string) (w : World) :
  userIdOf w <> None ->
  exists w',
    dispatch (handleDiagnosisSelection remote hash) w = (Returned tt, w') /\
    match storedMapping w ("diagnosis:" +:+ hash) with
    | None => OnlyReplies (errorMessage "Диагноз не найден") w w'
    | Some d =>
        currentDiagnosis w' = Some d /\
        SectionsShown remote d [loadingMessage d] w w'
    end.
Proof.
  intros Huser. destruct (userIdOf w) as [userId|] eqn:Hid; [clear Huser|congruence].
  destruct (EventFacts.diagnosis_core remote hash w userId Hid)
    as (w' & Heq & Hid' & Hsame' & Hcase).
  exists w'. split; [exact Heq|].
  destruct (storedMapping w ("diagnosis:" +:+ hash)) as [diag|].
  - destruct Hcase as (Hd & Hout & Hcalls & Hs & Hl).
    split; [unfold currentDiagnosis; rewrite Hid'; exact Hd|]. unfold SectionsShown.
    split; [exact Hout|]. split; [exact Hcalls|].
    split; [unfold currentSections; rewrite Hid', Hid; exact Hs|].
    intros section Hin Hne Huniq. rewrite <- LookupFacts.keyOf_section.
    apply (EventFacts.mapping_after w' userId KSection _ _ section Hid' Hsame' Hl);
      assumption.
  - destruct Hcase as (Hout & Hcalls & Hd & Hs). unfold OnlyReplies.
    split; [exact Hout|]. split; [exact Hcalls|].
    unfold currentDiagnosis, currentSections. rewrite Hid', Hid. auto.
Qed.

Lemma diagnosis_selection_outcome_witness :
  exists w',
    dispatch (handleDiagnosisSelection clinic (generateHash "Грипп")) afterTwoDiagnoses
      = (Returned tt, w') /\
    match storedMapping afterTwoDiagnoses ("diagnosis:" +:+ generateHash "Грипп") with
    | None => OnlyReplies (errorMessage "Диагноз не найден") afterTwoDiagnoses w'
    | Some d =>
        currentDiagnosis w' = Some d /\
        SectionsShown clinic d [loadingMessage d] afterTwoDiagnoses w'
    end.
Proof.
  apply (diagnosis_selection_outcome clinic (generateHash "Грипп") afterTwoDiagnoses).
  vm_compute. discriminate.
Defined.

Module FlowFacts.
Import ControllerFacts HandlerFacts MappingFacts.

(** The middleware alone: the context answers as the store does. *)
Lemma attached w userId :
  userIdOf w = Some userId ->
  exists w0,
    middleware (mkWorld (manager w) (from_id w) None
                        (outbox w) (deleted w) (apiCalls w) (nextMessageId w))
      = (Returned tt, w0) /\
    outbox w0 = outbox w /\ apiCalls w0 = apiCalls w /\
    currentDiagnosis w0 = currentDiagnosis w /\
    forall key, resolved w0 key = storedMapping w key.
Proof.
  intros Hid. pose proof (userIdOf_Some _ _ Hid) as Hfrom.
  unfold middleware. cbn [from_id manager outbox deleted apiCalls nextMessageId].
  rewrite Hfrom. eexists. split; [reflexivity|].
  set (w0 := mkWorld _ _ (Some _) _ _ _ _).
  assert (Hid0 : userIdOf w0 = Some userId)
    by (rewrite <- Hid; apply userIdOf_from_id; cbn; congruence).
  split; [reflexivity|]. split; [reflexivity|].
  split; [unfold currentDiagnosis; rewrite Hid0, Hid; reflexivity|].
  intros key. unfold resolved, storedMapping. rewrite Hid0, Hid.
  unfold lookupCallback, ctxCallbackMap, storedCallback. cbn.
  destruct (SessionManager.getUserState userId (manager w)); [reflexivity|].
  cbn. rewrite lookup_empty. reflexivity.
Qed.

(** Pressing a section button, seen from the store. *)
Lemma section_event remote hash w :
  userIdOf w <> None ->
  exists w',
    dispatch (handleSectionSelection remote hash) w = (Returned tt, w') /\
    match storedMapping w ("section:" +:+ hash), currentDiagnosis w with
    | Some sectionTitle, Some diagnosis =>
        apiCalls w' = apiCalls w ++ [GetSection diagnosis sectionTitle] /\
        outbox w' =
          outbox w ++
          [mkMessage ("*" +:+ sectionTitle +:+ "*" +:+ nl +:+ nl +:+ "Загружаю содержимое...") [];
           match sectionContent remote diagnosis sectionTitle with
           | Some content =>
               mkMessage
                 ("*" +:+ sectionTitle +:+ "*" +:+ nl +:+ nl +:+ correctContent content)
                 [ [mkButton "Назад к разделам" "back_to_sections"];
                   [newDiagnosisButton "Ввести новый диагноз"] ]
           | None =>
               mkMessage "Произошла ошибка при загрузке информации. Попробуйте позже."
                         [[newDiagnosisButton "Ввести новый диагноз"]]
           end]
    | Some _, None =>
        apiCalls w' = apiCalls w /\
        outbox w' = outbox w ++ [errorMessage "Информация не найдена"]
    | None, _ =>
        apiCalls w' = apiCalls w /\
        outbox w' = outbox w ++ [errorMessage "Раздел не найден"]
    end.
Proof.
  intros Huser. destruct (userIdOf w) as [userId|] eqn:Hid; [clear Huser|congruence].
  destruct (attached w userId Hid) as (w0 & Hmid & a & b & c & Hres).
  destruct (SectionFacts.handleSectionSelection_cases remote hash w0) as (w' & Heq & Hcases).
  exists w'. split; [unfold dispatch, bind at 1; rewrite Hmid; exact Heq|].
  rewrite Hres, c, a, b in Hcases.
  destruct (storedMapping w ("section:" +:+ hash)), (currentDiagnosis w); exact Hcases.
Qed.

Lemma In_shownSections s secs :
  In s (shownSections secs) <-> In s secs /\ s <> "МКБ".
Proof.
  unfold shownSections. rewrite in_app_iff, !filter_In. unfold isShown.
  destruct (String.eqb_spec s "МКБ") as [->|Hne]; cbn.
  - split; [intros [[[_ H] _]|[[_ H] _]]; discriminate|intros [_ H]; congruence].
  - destruct (isPriority s); cbn; tauto.
Qed.

End FlowFacts.

(** X12.  The whole path, across three events of one user: a text is
    searched for, the button of the first candidate is pressed, then the
    button of one of its sections.  Provided the API answers each call, the
    names are not empty, the section is not "МКБ" and no other section of the
    diagnosis has its token, the bot sends, in this order, the searching
    notice, the keyboard of candidates, the loading notice, the keyboard of
    sections, the loading notice of the section and the content of that very
    section of that very diagnosis, heading markers removed; and it calls the
    API three times. *)
Theorem search_open_read
    (remote : Remote) (w : World) (query d s content : string) (l secs : list string) :
  userIdOf w <> None ->
  JS.startsWith "/" (trim query) = false ->
  similarDiagnoses remote (trim query) = Some (d :: l) ->
  d <> EmptyString ->
  sectionsOf remote d = Some secs ->
  In s secs ->
  s <> "МКБ" ->
  s <> EmptyString ->
  (forall other, In other secs -> generateHash other = generateHash s -> other = s) ->
  sectionContent remote d s = Some content ->
  outbox (session remote [Text query; DiagnosisSelection (generateHash d);
                          SectionSelection (generateHash s)] w) =
    outbox w ++
    [ searchingMessage;
      diagnosesMessage (Some (d :: l));
      loadingMessage d;
      sectionsMessage d (Some secs);
      mkMessage ("*" +:+ s +:+ "*" +:+ nl +:+ nl +:+ "Загружаю содержимое...") [];
      mkMessage ("*" +:+ s +:+ "*" +:+ nl +:+ nl +:+ correctContent content)
                [ [mkButton "Назад к разделам" "back_to_sections"];
                  [newDiagnosisButton "Ввести новый диагноз"] ] ] /\
  apiCalls (session remote [Text query; DiagnosisSelection (generateHash d);
                            SectionSelection (generateHash s)] w) =
    apiCalls w ++ [GetSimilarDiagnoses (trim query); GetSections d; GetSection d s].
Proof.
  intros Huser Hcmd Hsim Hd Hsecs Hin Hmkb Hs Huniq Hcontent.
  destruct (userIdOf w) as [userId|] eqn:Hid; [clear Huser|congruence].
  cbn [session fold_left].
  (* the text *)
  destruct (EventFacts.text_core remote query w userId Hid Hcmd)
    as (w1 & Heq1 & Hid1 & Hsame1 & o1 & c1 & _ & _ & Hl1).
  rewrite Hsim in o1, Hl1. cbn [keptDiagnoses] in Hl1.
  assert (Hw1 : after remote (Text query) w = w1)
    by (unfold after; cbn [handlerOf]; rewrite Heq1; reflexivity).
  rewrite Hw1.
  assert (Hres1 : storedMapping w1 ("diagnosis:" +:+ generateHash d) = Some d).
  { rewrite <- LookupFacts.keyOf_diagnosis.
    apply (EventFacts.mapping_after w1 userId KDiagnosis _ _ d Hid1 Hsame1 Hl1);
      [left; reflexivity|exact Hd|].
    intros other Hother _.
    apply (EventFacts.keptDiagnoses_same (Some (d :: l)) other d Hother).
    left. reflexivity. }
  (* the diagnosis button *)
  destruct (EventFacts.diagnosis_core remote (generateHash d) w1 userId Hid1)
    as (w2 & Heq2 & Hid2 & Hsame2 & H2).
  rewrite Hres1, Hsecs in H2. destruct H2 as (Hd2 & o2 & c2 & _ & Hl2).
  assert (Hw2 : after remote (DiagnosisSelection (generateHash d)) w1 = w2)
    by (unfold after; cbn [handlerOf]; rewrite Heq2; reflexivity).
  rewrite Hw2.
  assert (Hkept : keptSections (Some secs) = shownSections secs)
    by (destruct secs; [destruct Hin|reflexivity]).
  rewrite Hkept in Hl2.
  assert (Hres2 : storedMapping w2 ("section:" +:+ generateHash s) = Some s).
  { rewrite <- LookupFacts.keyOf_section.
    apply (EventFacts.mapping_after w2 userId KSection _ _ s Hid2 Hsame2 Hl2);
      [apply FlowFacts.In_shownSections; auto|exact Hs|].
    intros other Hother. apply Huniq.
    apply FlowFacts.In_shownSections in Hother. tauto. }
  (* the section button *)
  assert (Huser2 : userIdOf w2 <> None) by (rewrite Hid2; discriminate).
  destruct (FlowFacts.section_event remote (generateHash s) w2 Huser2) as (w3 & Heq3 & H3).
  assert (Hdiag2 : currentDiagnosis w2 = Some d)
    by (unfold currentDiagnosis; rewrite Hid2; exact Hd2).
  rewrite Hres2, Hdiag2 in H3. cbv beta iota in H3.
  rewrite Hcontent in H3. destruct H3 as (c3 & o3).
  assert (Hw3 : after remote (SectionSelection (generateHash s)) w2 = w3)
    by (unfold after; cbn [handlerOf]; rewrite Heq3; reflexivity).
  rewrite Hw3. split.
  - rewrite o3, o2, o1, <- !app_assoc. reflexivity.
  - rewrite c3, c2, c1, <- !app_assoc. reflexivity.
Qed.

Lemma search_open_read_witness :
  outbox (session clinic [Text "Грипп"; DiagnosisSelection (generateHash "Грипп");
                          SectionSelection (generateHash "Лечение")] firstEvent) =
    outbox firstEvent ++
    [ searchingMessage;
      diagnosesMessage (Some ["Грипп"]);
      loadingMessage "Грипп";
      sectionsMessage "Грипп" (Some ["Лечение"]);
      mkMessage ("*" +:+ "Лечение" +:+ "*" +:+ nl +:+ nl +:+ "Загружаю содержимое...") [];
      mkMessage ("*" +:+ "Лечение" +:+ "*" +:+ nl +:+ nl +:+ correctContent "### Покой")
                [ [mkButton "Назад к разделам" "back_to_sections"];
                  [newDiagnosisButton "Ввести новый диагноз"] ] ] /\
  apiCalls (session clinic [Text "Грипп"; DiagnosisSelection (generateHash "Грипп");
                            SectionSelection (generateHash "Лечение")] firstEvent) =
    apiCalls firstEvent ++
    [GetSimilarDiagnoses (trim "Грипп"); GetSections "Грипп"; GetSection "Грипп" "Лечение"].
Proof.
  apply (search_open_read clinic firstEvent "Грипп" "Грипп" "Лечение" "### Покой"
                          [] ["Лечение"]).
  - vm_compute. discriminate.
  - reflexivity.
  - reflexivity.
  - discriminate.
  - reflexivity.
  - left. reflexivity.
  - discriminate.
  - discriminate.
  - intros other [<-|[]] _. reflexivity.
  - reflexivity.
Defined.

(** ** One user's events and the other users' states *)

Module ConfinementFacts.

Lemma Confined_quiet u {A} (c : M A) :
  (forall w, from_id (snd (c w)) = from_id w /\
             SessionManager.sessionData (manager (snd (c w))) =
             SessionManager.sessionData (manager w)) ->
  ConfinedTo u c.
Proof.
  intros H w _. destruct (H w) as [a b]. split; [exact a|].
  intros other _. unfold SessionManager.getUserState. rewrite b. reflexivity.
Qed.

Lemma Confined_ret u {A} (a : A) : ConfinedTo u (ret a).
Proof. apply Confined_quiet. intros w. split; reflexivity. Qed.

Lemma Confined_throw u {A} e : ConfinedTo u (@throw A e).
Proof. apply Confined_quiet. intros w. split; reflexivity. Qed.

Lemma Confined_consoleLog u line : ConfinedTo u (consoleLog line).
Proof. apply Confined_quiet. intros w. split; reflexivity. Qed.

Lemma Confined_recordCall u c : ConfinedTo u (recordCall c).
Proof. apply Confined_quiet. intros w. split; reflexivity. Qed.

Lemma Confined_replyWithMarkdown u text rows : ConfinedTo u (replyWithMarkdown text rows).
Proof. apply Confined_quiet. intros w. split; reflexivity. Qed.

Lemma Confined_onUserState u f : ConfinedTo u (onUserState f).
Proof. apply Confined_quiet. intros w. split; reflexivity. Qed.

Lemma Confined_deleteMessage u remote messageId : ConfinedTo u (deleteMessage remote messageId).
Proof.
  apply Confined_quiet. intros w. unfold deleteMessage.
  destruct (deleteFails remote messageId); split; reflexivity.
Qed.

Lemma Confined_fromOption u {A} e (o : option A) : ConfinedTo u (fromOption e o).
Proof. destruct o; [apply Confined_ret|apply Confined_throw]. Qed.

Lemma Confined_middleware u : ConfinedTo u middleware.
Proof.
  apply Confined_quiet. intros w. unfold middleware.
  destruct (from_id w) eqn:E; cbn; rewrite ?E; split; reflexivity.
Qed.

(** The one way the controller writes to the store: [updateUserState] under
    the id of the event's user. *)
Lemma Confined_updateUserState userId update :
  ConfinedTo (Some userId) (onManager (SessionManager.updateUserState userId update)).
Proof.
  intros w _. split; [reflexivity|]. intros other Hne. cbn.
  apply SessionManagerFacts.getUserState_updateUserState_ne. congruence.
Qed.

Lemma Confined_bind u {A B} (c : M A) (k : A -> M B) :
  ConfinedTo u c -> (forall a, ConfinedTo u (k a)) -> ConfinedTo u (bind c k).
Proof.
  intros Hc Hk w Hw. destruct (Hc w Hw) as [a b]. unfold bind.
  destruct (c w) as [[x|e] w1]; cbn [snd] in *; [|auto].
  assert (Hw1 : userIdOf w1 = u)
    by (rewrite (ControllerFacts.userIdOf_from_id _ _ a); exact Hw).
  destruct (Hk x w1 Hw1) as [a' b']. split; [congruence|].
  intros other Hne. rewrite b', b by exact Hne. reflexivity.
Qed.

Lemma Confined_get_bind u {B} (k : World -> M B) :
  (forall w, userIdOf w = u -> ConfinedTo u (k w)) -> ConfinedTo u (bind get k).
Proof. intros Hk w Hw. unfold bind, get. apply (Hk w Hw w Hw). Qed.

Lemma Confined_try_catch u {A} (body : M A) (handler : string -> M A) :
  ConfinedTo u body -> (forall e, ConfinedTo u (handler e)) ->
  ConfinedTo u (try_catch body handler).
Proof.
  intros Hc Hk w Hw. destruct (Hc w Hw) as [a b]. unfold try_catch.
  destruct (body w) as [[x|e] w1]; cbn [snd] in *; [auto|].
  assert (Hw1 : userIdOf w1 = u)
    by (rewrite (ControllerFacts.userIdOf_from_id _ _ a); exact Hw).
  destruct (Hk e w1 Hw1) as [a' b']. split; [congruence|].
  intros other Hne. rewrite b', b by exact Hne. reflexivity.
Qed.

Lemma Confined_forOf u {A} (body : A -> M unit) l :
  (forall x, ConfinedTo u (body x)) -> ConfinedTo u (forOf l body).
Proof.
  intros Hb. induction l as [|x l IH]; cbn [forOf]; [apply Confined_ret|].
  apply Confined_bind; [apply Hb|]. intros _. exact IH.
Qed.

Lemma Confined_mapAll u {A B} (f : A -> M B) l :
  (forall x, ConfinedTo u (f x)) -> ConfinedTo u (mapAll f l).
Proof.
  intros Hf. induction l as [|x l IH]; cbn [mapAll]; [apply Confined_ret|].
  apply Confined_bind; [apply Hf|]. intros y.
  apply Confined_bind; [exact IH|]. intros ys. apply Confined_ret.
Qed.

Ltac confined_step :=
  lazymatch goal with
  | |- ConfinedTo _ (match ?x with _ => _ end) => destruct x
  | |- ConfinedTo _ (bind get _) =>
      let w := fresh "w" in
      let Hw := fresh "Hw" in
      apply Confined_get_bind; intros w Hw; cbv beta; try rewrite Hw
  | |- ConfinedTo _ (bind _ _) => apply Confined_bind; [|intros]
  | |- ConfinedTo _ (try_catch _ _) => apply Confined_try_catch; [|intros]
  | |- ConfinedTo _ (forOf _ _) => apply Confined_forOf; intros
  | |- ConfinedTo _ (mapAll _ _) => apply Confined_mapAll; intros
  | |- ConfinedTo _ (ret _) => apply Confined_ret
  | |- ConfinedTo _ (throw _) => apply Confined_throw
  | |- ConfinedTo _ (consoleLog _) => apply Confined_consoleLog
  | |- ConfinedTo _ (recordCall _) => apply Confined_recordCall
  | |- ConfinedTo _ (replyWithMarkdown _ _) => apply Confined_replyWithMarkdown
  | |- ConfinedTo _ (onUserState _) => apply Confined_onUserState
  | |- ConfinedTo _ (deleteMessage _ _) => apply Confined_deleteMessage
  | |- ConfinedTo _ (fromOption _ _) => apply Confined_fromOption
  | |- ConfinedTo _ (onManager _) => apply Confined_updateUserState
  end.

Ltac confined := repeat confined_step.

Lemma Confined_handlerOf remote ev u : ConfinedTo u (handlerOf remote ev).
Proof.
  destruct u as [userId|], ev; cbn [handlerOf];
    unfold handleStart, handleNewDiagnosisCommand, handleTextInput,
      handleDiagnosisSelection, handleSectionSelection, handleNewDiagnosisAction,
      handleBackToSections, handleOtherMessages,
      sendWelcomeMessage, askForNewDiagnosis, clearPreviousMessages,
      handleDiagnosisInput, showNoResultsFound, showDiagnosisOptions, diagnosisButton,
      sendSearchError, resolveCallbackMapping, sendErrorMessage,
      processDiagnosisSelection, showSections, showNoSectionsAvailable,
      displaySectionsList, sectionButton, sendLoadError, processSectionSelection,
      getSimilarDiagnoses, getSections, getSection,
      replyAndSave, saveMessageId, storeCallbackMapping;
    confined;
    unfold sendErrorMessage, sendLoadError, replyAndSave, saveMessageId;
    confined.
Qed.

Lemma Confined_after remote ev w other :
  userIdOf w <> Some other ->
  from_id (after remote ev w) = from_id w /\
  SessionManager.getUserState other (manager (after remote ev w)) =
  SessionManager.getUserState other (manager w).
Proof.
  intros Hne. unfold after, dispatch.
  set (w0 := mkWorld _ _ None _ _ _ _).
  assert (H : ConfinedTo (userIdOf w)
                (bind middleware (fun _ => handlerOf remote ev))).
  { apply Confined_bind; [apply Confined_middleware|]. intros _.
    apply Confined_handlerOf. }
  destruct (H w0 eq_refl) as [a b]. split; [exact a|]. apply (b other Hne).
Qed.

End ConfinementFacts.

(** X13.  Whatever events one user sends, and whatever the content API and
    the transport answer, the state stored for every other user (diagnosis,
    sections, message identifiers, callback map) stays exactly as it was: the
    controller writes to the store under the id of the event's user only.  In
    particular events without a usable user id change no stored state. *)
Theorem events_touch_only_their_user
    (remote : Remote) (evs : list Event) (w : World) (other : Z) :
  userIdOf w <> Some other ->
  SessionManager.getUserState other (manager (session remote evs w)) =
  SessionManager.getUserState other (manager w).
Proof.
  revert w. induction evs as [|ev evs IH]; intros w Hne; [reflexivity|].
  cbn [session fold_left]. fold (session remote evs (after remote ev w)).
  destruct (ConfinementFacts.Confined_after remote ev w other Hne) as [Hfrom Hstate].
  rewrite IH; [exact Hstate|].
  rewrite (ControllerFacts.userIdOf_from_id _ _ Hfrom). exact Hne.
Qed.

Lemma events_touch_only_their_user_witness :
  SessionManager.getUserState 7
    (manager (session clinic [Start; Text "Ангина"; BackToSections]
                (mkWorld (manager afterTwoDiagnoses) (Some 8) None [] [] [] 100))) =
  SessionManager.getUserState 7
    (manager (mkWorld (manager afterTwoDiagnoses) (Some 8) None [] [] [] 100)).
Proof.
  apply (events_touch_only_their_user
           clinic [Start; Text "Ангина"; BackToSections]
           (mkWorld (manager afterTwoDiagnoses) (Some 8) None [] [] [] 100) 7).
  vm_compute. discriminate.
Defined.

Module AnonymousFacts.
Import ControllerFacts HandlerFacts.

Lemma replyAndSave_no_user text rows w :
  userIdOf w = None ->
  replyAndSave text rows w =
  (Returned tt,
   mkWorld (manager w) (from_id w) (userState w) (outbox w ++ [mkMessage text rows])
           (deleted w) (apiCalls w) (nextMessageId w + 1)).
Proof.
  intros Hid. unfold replyAndSave, bind at 1. cbn [replyWithMarkdown].
  unfold saveMessageId, bind, get.
  match goal with |- context [userIdOf ?w0] =>
    replace (userIdOf w0) with (userIdOf w) by reflexivity end.
  rewrite Hid. reflexivity.
Qed.

Lemma handler_no_user remote ev w :
  userIdOf w = None ->
  handlerOf remote ev w =
  (Returned tt,
   mkWorld (manager w) (from_id w) (userState w) (outbox w ++ repliesWithoutUser ev)
           (deleted w) (apiCalls w)
           (nextMessageId w + Z.of_nat (length (repliesWithoutUser ev)))).
Proof.
  intros Hid.
  assert (Hsame : (Returned tt, w) =
                  (Returned tt,
                   mkWorld (manager w) (from_id w) (userState w) (outbox w ++ [])
                           (deleted w) (apiCalls w) (nextMessageId w + Z.of_nat 0)))
    by (rewrite app_nil_r, Z.add_0_r; destruct w; reflexivity).
  assert (Hres : forall key, resolved w key = None)
    by (intros key; unfold resolved; rewrite Hid; reflexivity).
  destruct ev; cbn [handlerOf repliesWithoutUser length];
    unfold handleStart, handleNewDiagnosisCommand, handleDiagnosisSelection,
      handleSectionSelection, handleNewDiagnosisAction, handleBackToSections,
      handleOtherMessages, sendWelcomeMessage, askForNewDiagnosis, sendErrorMessage;
    try (unfold bind at 1;
         rewrite (clearPreviousMessages_nothing remote w (or_introl Hid))).
  - apply replyAndSave_no_user, Hid.
  - apply replyAndSave_no_user, Hid.
  - rewrite <- Hsame. apply SessionFlowFacts.handleTextInput_ignores. right. exact Hid.
  - unfold bind at 1. rewrite resolveCallbackMapping_eq, Hres.
    apply replyAndSave_no_user, Hid.
  - unfold bind at 1. rewrite resolveCallbackMapping_eq, Hres.
    apply replyAndSave_no_user, Hid.
  - apply replyAndSave_no_user, Hid.
  - rewrite <- Hsame. unfold showSections, bind, get. rewrite Hid. reflexivity.
  - reflexivity.
Qed.

End AnonymousFacts.

(** X14.  An event without a usable user id (no sender, or the id 0) is
    still answered: the start and new-diagnosis handlers send their prompt,
    the two selection handlers their "not found" message, the handler of
    non-text messages its notice; a text and "back to sections" get nothing.
    But the event leaves no trace: the store and the session file are not
    written, the content API is not called, no deletion is asked for, and so
    none of these replies is ever deleted. *)
Theorem event_without_user_id_leaves_no_trace
    (remote : Remote) (ev : Event) (w : World) :
  userIdOf w = None ->
  manager (after remote ev w) = manager w /\
  apiCalls (after remote ev w) = apiCalls w /\
  deleted (after remote ev w) = deleted w /\
  outbox (after remote ev w) = outbox w ++ repliesWithoutUser ev.
Proof.
  intros Hid.
  assert (Hafter : exists st,
    after remote ev w =
    mkWorld (manager w) (from_id w) st (outbox w ++ repliesWithoutUser ev)
            (deleted w) (apiCalls w)
            (nextMessageId w + Z.of_nat (length (repliesWithoutUser ev)))).
  { unfold after, dispatch, bind at 1.
    set (w0 := mkWorld _ _ None _ _ _ _).
    assert (Hmid : exists st, middleware w0 =
                     (Returned tt, mkWorld (manager w) (from_id w) st (outbox w)
                                           (deleted w) (apiCalls w) (nextMessageId w))).
    { unfold middleware, w0. cbn [from_id]. destruct (from_id w); eexists; reflexivity. }
    destruct Hmid as [st Hmid]. rewrite Hmid.
    rewrite AnonymousFacts.handler_no_user by exact Hid. exists st. reflexivity. }
  destruct Hafter as [st ->]. cbn.
  split; [reflexivity|]. split; [reflexivity|]. split; reflexivity.
Qed.

Lemma event_without_user_id_leaves_no_trace_witness :
  manager (after clinic Start (mkWorld (manager afterTwoDiagnoses) (Some 0) None [] [] [] 100))
    = manager (mkWorld (manager afterTwoDiagnoses) (Some 0) None [] [] [] 100) /\
  apiCalls (after clinic Start (mkWorld (manager afterTwoDiagnoses) (Some 0) None [] [] [] 100))
    = apiCalls (mkWorld (manager afterTwoDiagnoses) (Some 0) None [] [] [] 100) /\
  deleted (after clinic Start (mkWorld (manager afterTwoDiagnoses) (Some 0) None [] [] [] 100))
    = deleted (mkWorld (manager afterTwoDiagnoses) (Some 0) None [] [] [] 100) /\
  outbox (after clinic Start (mkWorld (manager afterTwoDiagnoses) (Some 0) None [] [] [] 100))
    = outbox (mkWorld (manager afterTwoDiagnoses) (Some 0) None [] [] [] 100) ++
      repliesWithoutUser Start.
Proof.
  apply (event_without_user_id_leaves_no_trace
           clinic Start (mkWorld (manager afterTwoDiagnoses) (Some 0) None [] [] [] 100)).
  reflexivity.
Defined.

(** ** The session store and the file system *)

(** X15.  The store in memory behaves as a map from user ids to states,
    whatever the file system does with the writes: a state that was set is the
    one read back, a deleted state is gone, the other users' states are
    untouched by both, and after [clearAllSessions] no user has a state. *)
Theorem session_store_reads_what_was_written
    (m : SessionManager.t) (userId other : Z) (state : UserState) :
  userId <> other ->
  SessionManager.getUserState userId (SessionManager.setUserState userId state m) = Some state /\
  SessionManager.getUserState other (SessionManager.setUserState userId state m) =
    SessionManager.getUserState other m /\
  SessionManager.getUserState userId (SessionManager.deleteUserState userId m) = None /\
  SessionManager.getUserState other (SessionManager.deleteUserState userId m) =
    SessionManager.getUserState other m /\
  (forall u, SessionManager.getUserState u (SessionManager.clearAllSessions m) = None).
Proof.
  intros Hne. unfold SessionManager.getUserState, SessionManager.setUserState,
    SessionManager.deleteUserState, SessionManager.clearAllSessions.
  rewrite !SessionManagerFacts.sessionData_saveSessions. cbn.
  split; [apply lookup_insert_eq|]. split; [apply lookup_insert_ne, Hne|].
  destruct (SessionManager.sessionData m !! userId) as [stored|] eqn:E;
    rewrite ?SessionManagerFacts.sessionData_saveSessions; cbn.
  - split; [apply lookup_delete_eq|]. split; [apply lookup_delete_ne, Hne|].
    intros u. apply lookup_empty.
  - split; [exact E|]. split; [reflexivity|]. intros u. apply lookup_empty.
Qed.

Lemma session_store_reads_what_was_written_witness :
  SessionManager.getUserState 7
    (SessionManager.setUserState 7 freshState (SessionManager.create (mkDisk None [false])))
    = Some freshState /\
  SessionManager.getUserState 8
    (SessionManager.setUserState 7 freshState (SessionManager.create (mkDisk None [false])))
    = SessionManager.getUserState 8 (SessionManager.create (mkDisk None [false])) /\
  SessionManager.getUserState 7
    (SessionManager.deleteUserState 7 (SessionManager.create (mkDisk None [false]))) = None /\
  SessionManager.getUserState 8
    (SessionManager.deleteUserState 7 (SessionManager.create (mkDisk None [false])))
    = SessionManager.getUserState 8 (SessionManager.create (mkDisk None [false])) /\
  (forall u, SessionManager.getUserState u
               (SessionManager.clearAllSessions (SessionManager.create (mkDisk None [false])))
             = None).
Proof.
  apply (session_store_reads_what_was_written
           (SessionManager.create (mkDisk None [false])) 7 8 freshState).
  lia.
Defined.

(** ** The requests of [APIRepository] *)

Module RequestFacts.
Import APIRepository.

Lemma append_assoc (a b c : string) : (a +:+ b) +:+ c = a +:+ (b +:+ c).
Proof.
  induction a as [|x a IH]; [reflexivity|].
  change (String x a +:+ b) with (String x (a +:+ b)).
  change (String x (a +:+ b) +:+ c) with (String x ((a +:+ b) +:+ c)).
  change (String x a +:+ (b +:+ c)) with (String x (a +:+ (b +:+ c))).
  rewrite IH. reflexivity.
Qed.

Lemma allChars_app p a b : allChars p (a +:+ b) = allChars p a && allChars p b.
Proof.
  induction a as [|x a IH]; [reflexivity|].
  change (String x a +:+ b) with (String x (a +:+ b)).
  cbn [allChars]. rewrite IH. apply andb_assoc.
Qed.

(** The characters of an encoded component. *)
Lemma encoded_char c rest :
  allChars (fun x => unreserved x || Ascii.eqb x "%")
           ((if unreserved c then String c EmptyString else percent c) +:+ rest) =
  allChars (fun x => unreserved x || Ascii.eqb x "%") rest.
Proof. destruct c as [[] [] [] [] [] [] [] []]; reflexivity. Qed.

Lemma encodeURIComponent_chars s :
  allChars (fun x => unreserved x || Ascii.eqb x "%") (encodeURIComponent s) = true.
Proof.
  induction s as [|c s IH]; [reflexivity|].
  cbn [encodeURIComponent]. rewrite encoded_char. exact IH.
Qed.

Lemma allChars_impl (p q : ascii -> bool) s :
  (forall c, p c = true -> q c = true) -> allChars p s = true -> allChars q s = true.
Proof.
  intros H. induction s as [|c s IH]; [reflexivity|]. cbn [allChars].
  intros Hs. apply andb_true_iff in Hs as [H1 H2]. rewrite (H c H1), (IH H2). reflexivity.
Qed.

Lemma encodeURIComponent_no_slash s :
  allChars (fun x => negb (Ascii.eqb x "/")) (encodeURIComponent s) = true.
Proof.
  apply (allChars_impl (fun x => unreserved x || Ascii.eqb x "%")
                       (fun x => negb (Ascii.eqb x "/")));
    [|apply encodeURIComponent_chars].
  intros c. destruct c as [[] [] [] [] [] [] [] []]; vm_compute; congruence.
Qed.

(** Decoding undoes both encodings. *)
Lemma decode_encoded_char c rest :
  formDecode O ((if unreserved c then String c EmptyString else percent c) +:+ rest) =
  String c (formDecode O rest).
Proof. destruct c as [[] [] [] [] [] [] [] []]; reflexivity. Qed.

Lemma formDecode_encodeURIComponent s : formDecode O (encodeURIComponent s) = s.
Proof.
  induction s as [|c s IH]; [reflexivity|].
  cbn [encodeURIComponent]. rewrite decode_encoded_char, IH. reflexivity.
Qed.

Lemma decode_form_char c rest :
  formDecode O ((if Ascii.eqb c " " then "+"
                 else if formSafe c then String c EmptyString
                 else percent c) +:+ rest) =
  String c (formDecode O rest).
Proof. destruct c as [[] [] [] [] [] [] [] []]; reflexivity. Qed.

Lemma formDecode_formEncode s : formDecode O (formEncode s) = s.
Proof.
  induction s as [|c s IH]; [reflexivity|].
  cbn [formEncode]. rewrite decode_form_char, IH. reflexivity.
Qed.

Lemma encodeURIComponent_injective a b :
  encodeURIComponent a = encodeURIComponent b -> a = b.
Proof.
  intros H. rewrite <- (formDecode_encodeURIComponent a), H.
  apply formDecode_encodeURIComponent.
Qed.

Lemma length_app (a b : string) :
  String.length (a +:+ b) = (String.length a + String.length b)%nat.
Proof.
  induction a as [|x a IH]; [reflexivity|].
  change (String x a +:+ b) with (String x (a +:+ b)). cbn [String.length].
  rewrite IH. reflexivity.
Qed.

Lemma length_encodeURIComponent s :
  (String.length s <= String.length (encodeURIComponent s))%nat.
Proof.
  induction s as [|c s IH]; [reflexivity|]. cbn [encodeURIComponent].
  rewrite length_app. destruct (unreserved c); cbn [percent String.length]; lia.
Qed.

(** An encoded component is the name itself exactly when the name is made
    of unreserved characters. *)
Lemma encodeURIComponent_fixed s :
  encodeURIComponent s = s <-> allChars unreserved s = true.
Proof.
  induction s as [|c s IH]; [split; reflexivity|].
  cbn [encodeURIComponent allChars]. destruct (unreserved c) eqn:E.
  - change (String c EmptyString +:+ encodeURIComponent s)
      with (String c (encodeURIComponent s)).
    cbn [andb]. rewrite <- IH. split; [intros H; injection H; auto|intros ->; reflexivity].
  - cbn [andb]. split; [|discriminate].
    intros H. apply (f_equal String.length) in H.
    rewrite length_app in H. cbn [percent String.length] in H.
    pose proof (length_encodeURIComponent s). lia.
Qed.

Lemma splitOn_segment sep a b :
  allChars (fun x => negb (Ascii.eqb x sep)) a = true ->
  splitOn sep (a +:+ String sep b) = a :: splitOn sep b.
Proof.
  induction a as [|c a IH]; intros H.
  - change (EmptyString +:+ String sep b) with (String sep b).
    cbn [splitOn]. rewrite Ascii.eqb_refl. reflexivity.
  - change (String c a +:+ String sep b) with (String c (a +:+ String sep b)).
    cbn [allChars] in H. apply andb_true_iff in H as [H1 H2].
    cbn [splitOn]. apply negb_true_iff in H1. rewrite H1, (IH H2). reflexivity.
Qed.

Lemma splitOn_last sep a :
  allChars (fun x => negb (Ascii.eqb x sep)) a = true ->
  splitOn sep a = [a].
Proof.
  induction a as [|c a IH]; intros H; [reflexivity|].
  cbn [allChars] in H. apply andb_true_iff in H as [H1 H2].
  cbn [splitOn]. apply negb_true_iff in H1. rewrite H1, (IH H2). reflexivity.
Qed.

(** An encoded component is a dot segment only when the name is. *)
Lemma encoded_double_dot s :
  isDoubleDot (encodeURIComponent s) = String.eqb s "..".
Proof.
  destruct (String.eqb_spec s "..") as [->|Hne]; [reflexivity|].
  destruct (isDoubleDot (encodeURIComponent s)) eqn:E; [exfalso|reflexivity].
  apply Hne. rewrite <- (formDecode_encodeURIComponent s).
  unfold isDoubleDot in E. cbn [existsb] in E.
  repeat (apply orb_true_iff in E as [E|E];
          [apply String.eqb_eq in E; rewrite E; reflexivity|]).
  discriminate E.
Qed.

Lemma encoded_single_dot s :
  isSingleDot (encodeURIComponent s) = String.eqb s ".".
Proof.
  destruct (String.eqb_spec s ".") as [->|Hne]; [reflexivity|].
  destruct (isSingleDot (encodeURIComponent s)) eqn:E; [exfalso|reflexivity].
  apply Hne. rewrite <- (formDecode_encodeURIComponent s).
  unfold isSingleDot in E. cbn [existsb] in E.
  repeat (apply orb_true_iff in E as [E|E];
          [apply String.eqb_eq in E; rewrite E; reflexivity|]).
  discriminate E.
Qed.

(** The segments of the endpoints. *)
Lemma segments_getSections d :
  splitOn "/" ("diagnoses/" +:+ encodeURIComponent d +:+ "/sections") =
  ["diagnoses"; encodeURIComponent d; "sections"].
Proof.
  change ("diagnoses/" +:+ encodeURIComponent d +:+ "/sections")
    with ("diagnoses" +:+ String "/" (encodeURIComponent d +:+ String "/" "sections")).
  rewrite splitOn_segment by reflexivity.
  rewrite splitOn_segment by apply encodeURIComponent_no_slash.
  reflexivity.
Qed.

Lemma segments_getSection d s :
  splitOn "/" ("diagnoses/" +:+ encodeURIComponent d +:+ "/sections/" +:+
               encodeURIComponent s) =
  ["diagnoses"; encodeURIComponent d; "sections"; encodeURIComponent s].
Proof.
  change ("diagnoses/" +:+ encodeURIComponent d +:+ "/sections/" +:+ encodeURIComponent s)
    with ("diagnoses" +:+
          String "/" (encodeURIComponent d +:+
                      String "/" ("sections" +:+ String "/" (encodeURIComponent s)))).
  rewrite splitOn_segment by reflexivity.
  rewrite splitOn_segment by apply encodeURIComponent_no_slash.
  rewrite splitOn_segment by reflexivity.
  rewrite splitOn_last by apply encodeURIComponent_no_slash.
  reflexivity.
Qed.

End RequestFacts.

(** X17.  The path each request is sent to.  A name is encoded into one
    path segment, so the request for the sections of a diagnosis goes to
    /diagnoses/<name>/sections and the request for a section to
    /diagnoses/<name>/sections/<section>, and two such requests have the same
    path only for the same diagnosis and section.  The names "." and ".." are
    the exception: the encoding leaves them as they are and the URL parser
    treats them as dot segments, so the sections of ".." are asked of
    /sections and those of "." of /diagnoses/sections, and the section ".." of
    a diagnosis is asked of /diagnoses/<name>/. *)
Theorem request_paths_and_dot_names :
  (forall d,
      APIRepository.path (APIRepository.getSections d) =
      if String.eqb d ".." then "/sections"
      else if String.eqb d "." then "/diagnoses/sections"
      else "/diagnoses/" +:+ APIRepository.encodeURIComponent d +:+ "/sections") /\
  (forall d s,
      d <> "." -> d <> ".." ->
      APIRepository.path (APIRepository.getSection d s) =
      if String.eqb s ".." then "/diagnoses/" +:+ APIRepository.encodeURIComponent d +:+ "/"
      else if String.eqb s "."
      then "/diagnoses/" +:+ APIRepository.encodeURIComponent d +:+ "/sections/"
      else "/diagnoses/" +:+ APIRepository.encodeURIComponent d +:+ "/sections/" +:+
           APIRepository.encodeURIComponent s) /\
  (forall d s d' s',
      d <> "." -> d <> ".." -> s <> "." -> s <> ".." ->
      d' <> "." -> d' <> ".." -> s' <> "." -> s' <> ".." ->
      APIRepository.path (APIRepository.getSection d s) =
      APIRepository.path (APIRepository.getSection d' s') ->
      d = d' /\ s = s') /\
  (forall s, allChars (fun c => negb (Ascii.eqb c "/"))
                      (APIRepository.encodeURIComponent s) = true).
Proof.
  assert (Hsections : forall d,
    APIRepository.path (APIRepository.getSections d) =
    if String.eqb d ".." then "/sections"
    else if String.eqb d "." then "/diagnoses/sections"
    else "/diagnoses/" +:+ APIRepository.encodeURIComponent d +:+ "/sections").
  { intros d. unfold APIRepository.getSections, APIRepository.getRequest.
    cbn [APIRepository.path].
    change ("/diagnoses/" +:+ APIRepository.encodeURIComponent d +:+ "/sections")
      with (String "/" ("diagnoses/" +:+ APIRepository.encodeURIComponent d +:+ "/sections"))
      at 1.
    cbn [APIRepository.pathname]. rewrite RequestFacts.segments_getSections.
    cbn [APIRepository.pathState].
    change (APIRepository.isDoubleDot "diagnoses") with false.
    change (APIRepository.isSingleDot "diagnoses") with false.
    change (APIRepository.isDoubleDot "sections") with false.
    change (APIRepository.isSingleDot "sections") with false.
    rewrite RequestFacts.encoded_double_dot, RequestFacts.encoded_single_dot.
    destruct (String.eqb d ".."); [reflexivity|].
    destruct (String.eqb d "."); reflexivity. }
  assert (Hsection : forall d s,
    d <> "." -> d <> ".." ->
    APIRepository.path (APIRepository.getSection d s) =
    if String.eqb s ".." then "/diagnoses/" +:+ APIRepository.encodeURIComponent d +:+ "/"
    else if String.eqb s "."
    then "/diagnoses/" +:+ APIRepository.encodeURIComponent d +:+ "/sections/"
    else "/diagnoses/" +:+ APIRepository.encodeURIComponent d +:+ "/sections/" +:+
         APIRepository.encodeURIComponent s).
  { intros d s Hd1 Hd2. unfold APIRepository.getSection, APIRepository.getRequest.
    cbn [APIRepository.path].
    change ("/diagnoses/" +:+ APIRepository.encodeURIComponent d +:+ "/sections/" +:+
            APIRepository.encodeURIComponent s)
      with (String "/" ("diagnoses/" +:+ APIRepository.encodeURIComponent d +:+
                        "/sections/" +:+ APIRepository.encodeURIComponent s)) at 1.
    cbn [APIRepository.pathname]. rewrite RequestFacts.segments_getSection.
    cbn [APIRepository.pathState].
    change (APIRepository.isDoubleDot "diagnoses") with false.
    change (APIRepository.isSingleDot "diagnoses") with false.
    change (APIRepository.isDoubleDot "sections") with false.
    change (APIRepository.isSingleDot "sections") with false.
    rewrite !RequestFacts.encoded_double_dot, !RequestFacts.encoded_single_dot.
    apply String.eqb_neq in Hd1, Hd2. rewrite Hd1, Hd2.
    destruct (String.eqb s ".."); [reflexivity|].
    destruct (String.eqb s "."); reflexivity. }
  split; [exact Hsections|]. split; [exact Hsection|].
  split; [|apply RequestFacts.encodeURIComponent_no_slash].
  intros d s d' s' Hd1 Hd2 Hs1 Hs2 Hd1' Hd2' Hs1' Hs2' H.
  rewrite (Hsection d s Hd1 Hd2), (Hsection d' s' Hd1' Hd2') in H.
  apply String.eqb_neq in Hs1, Hs2, Hs1', Hs2'. rewrite Hs1, Hs2, Hs1', Hs2' in H.
  change ("/diagnoses/" +:+ APIRepository.encodeURIComponent d +:+ "/sections/" +:+
          APIRepository.encodeURIComponent s)
    with (String "/" ("diagnoses/" +:+ APIRepository.encodeURIComponent d +:+
                      "/sections/" +:+ APIRepository.encodeURIComponent s)) in H.
  change ("/diagnoses/" +:+ APIRepository.encodeURIComponent d' +:+ "/sections/" +:+
          APIRepository.encodeURIComponent s')
    with (String "/" ("diagnoses/" +:+ APIRepository.encodeURIComponent d' +:+
                      "/sections/" +:+ APIRepository.encodeURIComponent s')) in H.
  apply (f_equal (fun p => match p with
                           | String _ rest => APIRepository.splitOn "/" rest
                           | EmptyString => []
                           end)) in H.
  cbv beta iota in H.
  rewrite !RequestFacts.segments_getSection in H. injection H as Hd Hs.
  split; apply RequestFacts.encodeURIComponent_injective; assumption.
Qed.

(** X18.  The diagnosis a search is made for is encoded twice on its way
    to the API: [getSimilarDiagnoses] encodes it and hands the result to the
    query serializer, which encodes it again.  Decoding the query value once
    gives the encoded name, which is the name itself only when the name is
    made of unreserved characters; "Грипп A" is sent with every percent sign
    escaped as %25. *)
Theorem similar_diagnoses_query_is_encoded_twice :
  (forall d,
      APIRepository.path (APIRepository.getSimilarDiagnoses d) = "/diagnoses/similar" /\
      APIRepository.query (APIRepository.getSimilarDiagnoses d) =
        "?diagnosis=" +:+ APIRepository.formEncode (APIRepository.encodeURIComponent d) /\
      APIRepository.formDecode O
        (APIRepository.formEncode (APIRepository.encodeURIComponent d)) =
        APIRepository.encodeURIComponent d /\
      (APIRepository.encodeURIComponent d = d <->
       allChars APIRepository.unreserved d = true) /\
      APIRepository.formDecode O (APIRepository.encodeURIComponent d) = d) /\
  APIRepository.query (APIRepository.getSimilarDiagnoses "Грипп A") =
    "?diagnosis=%25D0%2593%25D1%2580%25D0%25B8%25D0%25BF%25D0%25BF%2520A".
Proof.
  split; [|vm_compute; reflexivity].
  intros d. split; [reflexivity|]. split; [reflexivity|].
  split; [apply RequestFacts.formDecode_formEncode|].
  split; [apply RequestFacts.encodeURIComponent_fixed|].
  apply RequestFacts.formDecode_encodeURIComponent.
Qed.

(** ** Restarts between events *)

Module PersistenceFacts.
Import SessionManager SessionSpec.
























End PersistenceFacts.



(** ** The callback entries over time *)

Module EntriesFacts.
Import ControllerFacts HandlerFacts MappingFacts NavigationFacts CallbackFacts.

Lemma KeepsAll_quiet {A} (c : M A) :
  (forall w, from_id (snd (c w)) = from_id w /\
             SessionManager.sessionData (manager (snd (c w))) =
             SessionManager.sessionData (manager w) /\
             ctxCallbackMap (snd (c w)) = ctxCallbackMap w) ->
  KeepsAll c.
Proof.
  intros H w. destruct (H w) as (a & b & e). split; [exact a|].
  split; [exact e|]. intros userId key. apply storedCallback_data. exact b.
Qed.

Lemma KeepsAll_ret {A} (a : A) : KeepsAll (ret a).
Proof. apply KeepsAll_quiet. intros w. repeat split. Qed.

Lemma KeepsAll_throw {A} e : KeepsAll (@throw A e).
Proof. apply KeepsAll_quiet. intros w. repeat split. Qed.

Lemma KeepsAll_consoleLog line : KeepsAll (consoleLog line).
Proof. apply KeepsAll_quiet. intros w. repeat split. Qed.

Lemma KeepsAll_recordCall c : KeepsAll (recordCall c).
Proof. apply KeepsAll_quiet. intros w. repeat split. Qed.

Lemma KeepsAll_replyWithMarkdown text rows : KeepsAll (replyWithMarkdown text rows).
Proof. apply KeepsAll_quiet. intros w. repeat split. Qed.

Lemma KeepsAll_fromOption {A} e (o : option A) : KeepsAll (fromOption e o).
Proof. destruct o; [apply KeepsAll_ret|apply KeepsAll_throw]. Qed.

Lemma KeepsAll_onUserState f :
  (forall st, callbackMap (f st) = callbackMap st) -> KeepsAll (onUserState f).
Proof.
  intros Hf w. split; [reflexivity|]. split; [|reflexivity].
  unfold ctxCallbackMap. cbn. destruct (userState w); cbn; [apply Hf|reflexivity].
Qed.

Lemma KeepsAll_updateUserState userId update :
  p_callbackMap update = None ->
  KeepsAll (onManager (SessionManager.updateUserState userId update)).
Proof.
  intros Hupd w. split; [reflexivity|]. split; [reflexivity|].
  intros other key. eapply (storedCallback_update userId); [reflexivity|exact Hupd].
Qed.

Lemma KeepsAll_bind {A B} (c : M A) (k : A -> M B) :
  KeepsAll c -> (forall a, KeepsAll (k a)) -> KeepsAll (bind c k).
Proof.
  intros Hc Hk w. destruct (Hc w) as [a b]. unfold bind.
  destruct (c w) as [[x|e] w1]; cbn [snd] in *; [|auto].
  destruct (Hk x w1) as [a' b']. split; [congruence|].
  eapply Keeps_trans; eassumption.
Qed.

Lemma KeepsAll_try_catch {A} (body : M A) (handler : string -> M A) :
  KeepsAll body -> (forall e, KeepsAll (handler e)) -> KeepsAll (try_catch body handler).
Proof.
  intros Hc Hk w. destruct (Hc w) as [a b]. unfold try_catch.
  destruct (body w) as [[x|e] w1]; cbn [snd] in *; [auto|].
  destruct (Hk e w1) as [a' b']. split; [congruence|].
  eapply Keeps_trans; eassumption.
Qed.

Lemma KeepsAll_get : KeepsAll get.
Proof. apply KeepsAll_quiet. intros w. repeat split. Qed.

Ltac keeps_step :=
  lazymatch goal with
  | |- KeepsAll (match ?x with _ => _ end) => destruct x
  | |- KeepsAll (bind _ _) => apply KeepsAll_bind; [|intros]
  | |- KeepsAll (try_catch _ _) => apply KeepsAll_try_catch; [|intros]
  | |- KeepsAll get => apply KeepsAll_get
  | |- KeepsAll (ret _) => apply KeepsAll_ret
  | |- KeepsAll (throw _) => apply KeepsAll_throw
  | |- KeepsAll (consoleLog _) => apply KeepsAll_consoleLog
  | |- KeepsAll (recordCall _) => apply KeepsAll_recordCall
  | |- KeepsAll (replyWithMarkdown _ _) => apply KeepsAll_replyWithMarkdown
  | |- KeepsAll (fromOption _ _) => apply KeepsAll_fromOption
  | |- KeepsAll (onUserState _) => apply KeepsAll_onUserState; reflexivity
  | |- KeepsAll (onManager _) => apply KeepsAll_updateUserState; reflexivity
  end.

Ltac keeps := repeat keeps_step.

Lemma KeepsAll_replyAndSave text rows : KeepsAll (replyAndSave text rows).
Proof. unfold replyAndSave, saveMessageId. keeps. Qed.

Lemma KeepsAll_sectionSelection remote hash :
  KeepsAll (bind (resolveCallbackMapping ("section:" +:+ hash))
                 (fun sectionTitle =>
                    match sectionTitle with
                    | None => sendErrorMessage "Раздел не найден"
                    | Some sectionTitle => processSectionSelection remote sectionTitle
                    end)).
Proof.
  unfold resolveCallbackMapping, processSectionSelection, getSection.
  keeps; unfold sendErrorMessage, sendLoadError; apply KeepsAll_replyAndSave.
Qed.

(** The entries after values were filed: an entry that was there still is,
    with its value or with a later value that has its key. *)
Lemma lookupAfter_keeps k l before key v :
  before key = Some v ->
  exists v',
    lookupAfter k l before key = Some v' /\ (v' = v \/ keyOf k v' = key).
Proof.
  intros H. induction l as [|x l IH] using rev_ind; [exists v; auto|].
  rewrite LookupFacts.lookupAfter_snoc.
  destruct (String.eqb_spec (keyOf k x) key) as [E|_]; [exists x; auto|exact IH].
Qed.

(** A handler that runs [clearPreviousMessages] and then changes no entry. *)
Lemma quiet_event remote (rest : M unit) w userId :
  userIdOf w = Some userId ->
  KeepsAll rest ->
  forall key,
    storedCallback userId
      (snd (dispatch (bind (clearPreviousMessages remote) (fun _ => rest)) w)) key =
    storedCallback userId w key.
Proof.
  intros Hid Hrest key.
  destruct (PrologueFacts.prologue remote w userId Hid)
    as (w0 & w1 & Hmid & Hclear & a & b & c & d & e & f & Hsame & Hl).
  unfold dispatch, bind at 1. rewrite Hmid. unfold bind at 1. rewrite Hclear.
  destruct (Hrest w1) as (_ & _ & Hk). rewrite Hk.
  unfold sameCallbacks in Hsame.
  rewrite (userIdOf_from_id _ _ a), Hid in Hsame. rewrite <- Hsame. apply Hl.
Qed.

(** Every event files entries, of one kind, and does nothing else to the
    callback map of its user. *)
Lemma event_entries remote ev w userId :
  userIdOf w = Some userId ->
  exists k l,
    forall key,
      storedCallback userId (after remote ev w) key =
      lookupAfter k l (storedCallback userId w) key.
Proof.
  intros Hid.
  assert (Hquiet : forall rest : M unit,
    KeepsAll rest ->
    exists (k : kind) (l : list string),
      forall key,
        storedCallback userId
          (snd (dispatch (bind (clearPreviousMessages remote) (fun _ => rest)) w)) key =
        lookupAfter k l (storedCallback userId w) key).
  { intros rest Hrest. exists KDiagnosis, []. intros key.
    apply (quiet_event remote rest w userId Hid Hrest). }
  destruct (PrologueFacts.prologue remote w userId Hid)
    as (w0 & w1 & Hmid & Hclear & a & b & c & d & e & f & Hsame & Hl).
  assert (Hid1 : userIdOf w1 = Some userId)
    by (rewrite (userIdOf_from_id _ _ a); exact Hid).
  assert (Hfinal : forall (rest : M unit) w' k l,
    rest w1 = (Returned tt, w') ->
    from_id w' = from_id w1 ->
    sameCallbacks w' ->
    (forall key, lookupCallback w' key = lookupAfter k l (lookupCallback w1) key) ->
    forall key,
      storedCallback userId
        (snd (dispatch (bind (clearPreviousMessages remote) (fun _ => rest)) w)) key =
      lookupAfter k l (storedCallback userId w) key).
  { intros rest w' k l Heq Hfrom Hsame' Hl' key.
    unfold dispatch, bind at 1. rewrite Hmid. unfold bind at 1. rewrite Hclear, Heq.
    cbn [snd]. unfold sameCallbacks in Hsame'.
    rewrite (userIdOf_from_id _ _ Hfrom), Hid1 in Hsame'.
    rewrite <- Hsame', Hl'. apply (lookupAfter_ext k l). exact Hl. }
  unfold after. destruct ev; cbn [handlerOf].
  - apply Hquiet, KeepsAll_replyAndSave.
  - apply Hquiet, KeepsAll_replyAndSave.
  - destruct (JS.startsWith "/" (trim messageText)) eqn:Hcmd.
    + destruct (SessionFlowFacts.ignored_event remote (Text messageText) w Hcmd)
        as (w' & Heq & m & _).
      cbn [handlerOf] in Heq. rewrite Heq. exists KDiagnosis, []. intros key.
      unfold storedCallback. cbn [snd]. rewrite m. reflexivity.
    + destruct (OutcomeFacts.handleDiagnosisInput_outcome remote (trim messageText)
                  w1 userId Hid1 b Hsame) as (w' & Heq & S & Hsame' & Hl').
      eexists _, _. intros key.
      rewrite (SessionFlowFacts.dispatch_ext _
                 (bind (clearPreviousMessages remote)
                       (fun _ => handleDiagnosisInput remote (trim messageText)))).
      * apply (Hfinal _ w' _ _ Heq (proj1 S) Hsame' Hl').
      * intros wx Hfrom. apply SessionFlowFacts.handleTextInput_runs; [exact Hcmd|].
        rewrite (userIdOf_from_id _ _ Hfrom), Hid. discriminate.
  - unfold handleDiagnosisSelection.
    destruct (resolved w1 ("diagnosis:" +:+ hash)) as [diag|] eqn:Hres.
    + assert (Htruthy : JS.truthy_string diag = true).
      { unfold resolved in Hres. rewrite Hid1 in Hres.
        destruct (lookupCallback w1 _) as [v|]; [|discriminate].
        destruct (JS.truthy_string v) eqn:Hv; [|discriminate]. congruence. }
      destruct (SelectionOutcomeFacts.processDiagnosisSelection_outcome
                  remote diag w1 userId Hid1 b Hsame Htruthy)
        as (w' & Heq & a' & Hsame' & _ & _ & _ & _ & Hl').
      eexists _, _. intros key.
      apply (Hfinal _ w' _ _); [|exact a'|exact Hsame'|exact Hl'].
      unfold bind at 1. rewrite resolveCallbackMapping_eq, Hres. exact Heq.
    + exists KDiagnosis, []. intros key.
      unfold sendErrorMessage.
      match goal with |- context [replyAndSave ?t ?r] =>
        destruct (StepFacts.reply_step t r w1) as (w' & Heq & S & K) end.
      apply (Hfinal _ w' KDiagnosis []).
      * unfold bind at 1. rewrite resolveCallbackMapping_eq, Hres. exact Heq.
      * apply S.
      * apply (Keeps_sameCallbacks w1 w'); [apply S|exact K|exact Hsame].
      * intros key'. apply (Keeps_lookup _ _ _ K).
  - apply Hquiet, KeepsAll_sectionSelection.
  - apply Hquiet, KeepsAll_replyAndSave.
  - destruct (SectionsOutcomeFacts.showSections_outcome remote w1 userId Hid1 b Hsame)
      as (w' & Heq & a' & b' & Hsame' & f' & Hcase).
    destruct (storedDiagnosis userId w1) as [diag|].
    + destruct Hcase as (_ & _ & _ & Hl'). eexists _, _. intros key.
      apply (Hfinal _ w' _ _ Heq a' Hsame' Hl').
    + destruct Hcase as (_ & _ & _ & Hl'). exists KSection, []. intros key.
      apply (Hfinal _ w' KSection [] Heq a' Hsame' Hl').
  - apply Hquiet. keeps.
Qed.

Lemma session_entries remote evs : forall w userId key v,
  userIdOf w = Some userId ->
  storedCallback userId w key = Some v ->
  exists v',
    storedCallback userId (session remote evs w) key = Some v' /\
    (v' = v \/ keyOf KDiagnosis v' = key \/ keyOf KSection v' = key).
Proof.
  induction evs as [|ev evs IH]; intros w userId key v Hid Hv; [exists v; auto|].
  cbn [session fold_left]. fold (session remote evs (after remote ev w)).
  destruct (event_entries remote ev w userId Hid) as (k & l & Hl).
  destruct (lookupAfter_keeps k l _ key v Hv) as (v1 & Hv1 & Hor1).
  rewrite <- Hl in Hv1.
  assert (Hid1 : userIdOf (after remote ev w) = Some userId).
  { rewrite (userIdOf_from_id _ _ (SessionFlowFacts.after_from_id remote ev w
                                     ltac:(rewrite Hid; discriminate))).
    exact Hid. }
  destruct (IH _ userId key v1 Hid1 Hv1) as (v' & Hv' & Hor').
  exists v'. split; [exact Hv'|].
  destruct Hor' as [->|Hor']; [|tauto].
  destruct Hor1 as [->|Hor1]; [auto|]. destruct k; auto.
Qed.

(** The events of another sender leave the entries alone. *)
Lemma session_entries_other remote evs : forall w userId key,
  userIdOf w <> Some userId ->
  storedCallback userId (session remote evs w) key = storedCallback userId w key.
Proof.
  induction evs as [|ev evs IH]; intros w userId key Hne; [reflexivity|].
  cbn [session fold_left]. fold (session remote evs (after remote ev w)).
  destruct (ConfinementFacts.Confined_after remote ev w userId Hne) as [Hfrom Hstate].
  rewrite IH.
  - unfold storedCallback. rewrite Hstate. reflexivity.
  - rewrite (userIdOf_from_id _ _ Hfrom). exact Hne.
Qed.

End EntriesFacts.

(** X20.  Callback entries are never removed.  An entry stored for a user
    is still stored after any sequence of events, whoever sends them: it holds
    the value it had, or a value filed later under the same key, that is a
    name of the same kind with the same token.  So the callback map of a user
    only grows, and the buttons of keyboards sent long ago still resolve. *)
Theorem callback_entries_are_never_removed
    (remote : Remote) (evs : list Event) (w : World) (userId : Z) (key v : string) :
  storedCallback userId w key = Some v ->
  exists v',
    storedCallback userId (session remote evs w) key = Some v' /\
    (v' = v \/
     key = "diagnosis:" +:+ generateHash v' \/
     key = "section:" +:+ generateHash v').
Proof.
  intros Hv. destruct (decide (userIdOf w = Some userId)) as [Hid|Hne].
  - destruct (EntriesFacts.session_entries remote evs w userId key v Hid Hv)
      as (v' & Hv' & Hor).
    exists v'. split; [exact Hv'|].
    rewrite <- LookupFacts.keyOf_diagnosis, <- LookupFacts.keyOf_section.
    destruct Hor as [H|[H|H]]; auto.
  - exists v. split; [|auto]. rewrite <- Hv.
    apply EntriesFacts.session_entries_other. exact Hne.
Qed.

Lemma callback_entries_are_never_removed_witness :
  exists v',
    storedCallback 7 (session clinic [Start; Text "Ангина"; OtherMessage] afterTwoDiagnoses)
                   ("section:" +:+ generateHash "Лечение") = Some v' /\
    (v' = "Лечение" \/
     "section:" +:+ generateHash "Лечение" = "diagnosis:" +:+ generateHash v' \/
     "section:" +:+ generateHash "Лечение" = "section:" +:+ generateHash v').
Proof.
  apply (callback_entries_are_never_removed
           clinic [Start; Text "Ангина"; OtherMessage] afterTwoDiagnoses 7
           ("section:" +:+ generateHash "Лечение") "Лечение").
  vm_compute. reflexivity.
Defined.

